(** * eConsultation AI backend: the comment-processing core of [backend/app.py]

    A shallow embedding of the optimized backend: the two fallback analyzers
    ([FastSentimentAnalyzer], [FastSummarizer]), the two result caches of
    [OptimizedAIModels], the helpers [analyze_sentiment_fast] and
    [generate_summary_fast], the orchestration [process_comment_async] and the
    database write [save_comment_to_db_fast]. Around this core: the batches,
    the row selection and the save loop of [submit_bulk_comments], the
    routes' error handlers with [log_error_safely], [get_recent_logs],
    [get_dashboard_stats] and [generate_wordcloud]; the [PerformanceMonitor]
    and the wrapper [monitor_performance] of [monitoring.py]; and
    [get_comments_text] and [clean_text] of [wordcloud_generator.py].

    Conventions.
    - A Python [str] is a [string]; a character is a code point below 256, so
      [isspace], [lower] and the like are Python's on that range.
    - A Python [float] is a binary64 [float] of the kernel.
    - What an analyzer returns is typed: labels are strings, scores floats,
      summaries strings, or the result is one the reading raises on. The one
      exception is the path of [submit_comment] followed with a score that
      may be [None] (the definitions named [..._untyped]).
    - A Python [dict] is an association list in insertion order.
    - Code that may raise lives in the monad [M]: a state transformer whose
      result is [Returns v] or [Raises]; [try_except] is the [try] statement.
      Where the class of the exception matters the result is [Ok v] or
      [Err e]. *)

From Stdlib Require Import ZArith List Ascii String Bool Lia PrimFloat Uint63.
From Stdlib Require Import SpecFloat FloatAxioms.
From stdpp Require Import gmap strings list sorting.

Set Warnings "-inexact-float".
Local Open Scope nat_scope.

(** ** Python's built-in string operations *)

Module Py.

(** [len(s)] *)
Definition len (s : string) : nat := String.length s.

(** [s[:n]] for a non-negative [n] *)
Fixpoint slice_to (n : nat) (s : string) : string :=
  match n, s with
  | S k, String c rest => String c (slice_to k rest)
  | _, _ => EmptyString
  end.

(** [str.isspace] of one character: the code points 9-13, 28-32, 133, 160. *)
Definition isspace (c : ascii) : bool :=
  let n := nat_of_ascii c in
  ((9 <=? n) && (n <=? 13)) || ((28 <=? n) && (n <=? 32)) || (n =? 133) || (n =? 160).

(** [str.lower] of one character: A-Z and the capital letters 192-222 of
    Latin-1 (215, the multiplication sign, apart) move up by 32. *)
Definition lower_char (c : ascii) : ascii :=
  let n := nat_of_ascii c in
  if ((65 <=? n) && (n <=? 90)) || ((192 <=? n) && (n <=? 222) && negb (n =? 215))
  then ascii_of_nat (n + 32) else c.

(** [s.lower()] *)
Fixpoint lower (s : string) : string :=
  match s with
  | EmptyString => EmptyString
  | String c rest => String (lower_char c) (lower rest)
  end.

Definition is_empty (s : string) : bool :=
  match s with EmptyString => true | String _ _ => false end.

(** [s.split()]: the maximal runs of characters that are not whitespace.
    [word] is the run read so far. *)
Fixpoint split_go (word : string) (s : string) : list string :=
  match s with
  | EmptyString => if is_empty word then [] else [word]
  | String c rest =>
      if isspace c
      then (if is_empty word then split_go EmptyString rest
            else word :: split_go EmptyString rest)
      else split_go (word +:+ String c EmptyString) rest
  end.

Definition split (s : string) : list string := split_go EmptyString s.

(** [s.lstrip()], [s.rstrip()], [s.strip()] *)
Fixpoint lstrip (s : string) : string :=
  match s with
  | EmptyString => EmptyString
  | String c rest => if isspace c then lstrip rest else s
  end.

Fixpoint rstrip (s : string) : string :=
  match s with
  | EmptyString => EmptyString
  | String c rest =>
      let r := rstrip rest in
      if isspace c && is_empty r then EmptyString else String c r
  end.

Definition strip (s : string) : string := rstrip (lstrip s).

(** [sep in s] *)
Fixpoint contains (sep s : string) : bool :=
  String.prefix sep s ||
  match s with
  | EmptyString => false
  | String _ rest => contains sep rest
  end.

(** [s.split(sep)] for a non-empty [sep]: the pieces between the occurrences of
    [sep], read from the left, empty pieces kept. [skip] counts the characters
    of an occurrence still to pass over, [piece] is the piece read so far. *)
Fixpoint split_sep_go (sep : string) (skip : nat) (piece : string) (s : string)
  : list string :=
  match s with
  | EmptyString => [piece]
  | String c rest =>
      match skip with
      | S k => split_sep_go sep k piece rest
      | O =>
          if String.prefix sep s
          then piece :: split_sep_go sep (len sep - 1) EmptyString rest
          else split_sep_go sep 0 (piece +:+ String c EmptyString) rest
      end
  end.

Definition split_sep (sep s : string) : list string :=
  split_sep_go sep 0 EmptyString s.

(** [float(n)] for a small non-negative integer *)
Definition float_of_nat (n : nat) : float := of_uint63 (Uint63.of_Z (Z.of_nat n)).

(** [min(a, b)] on floats: the first of the smallest, so [b] only when [b < a]. *)
Definition min (a b : float) : float := if (b <? a)%float then b else a.

End Py.

(** ** The interpreter's [hash] of a string

    [hash(text)] is CPython's keyed hash (SipHash-1-3 over the characters'
    bytes, as [pyhash.c] has it since 3.11): the key [k0], [k1] is drawn once
    when the interpreter starts, at random unless [PYTHONHASHSEED] fixes it. *)

Module PyHash.
Local Open Scope Z_scope.

Record HashSecret := { k0 : Z; k1 : Z }.

Definition wrap64 (x : Z) : Z := x mod 2 ^ 64.

Definition rotate (x b : Z) : Z :=
  wrap64 (Z.lor (Z.shiftl x b) (Z.shiftr x (64 - b))).

Definition half_round (a b c d s t : Z) : Z * Z * Z * Z :=
  let a := wrap64 (a + b) in
  let c := wrap64 (c + d) in
  let b := Z.lxor (rotate b s) a in
  let d := Z.lxor (rotate d t) c in
  let a := rotate a 32 in
  (a, b, c, d).

Definition single_round (v : Z * Z * Z * Z) : Z * Z * Z * Z :=
  let '(v0, v1, v2, v3) := v in
  let '(v0, v1, v2, v3) := half_round v0 v1 v2 v3 13 16 in
  let '(v2, v1, v0, v3) := half_round v2 v1 v0 v3 17 21 in
  (v0, v1, v2, v3).

(** little-endian value of at most eight bytes *)
Fixpoint le_bytes (bs : list Z) : Z :=
  match bs with
  | [] => 0
  | b :: rest => b + 256 * le_bytes rest
  end.

(** the loop over whole 8-byte words, then the last, partial word *)
Fixpoint siphash_blocks (v : Z * Z * Z * Z) (bs : list Z) : (Z * Z * Z * Z) * list Z :=
  match bs with
  | b0 :: b1 :: b2 :: b3 :: b4 :: b5 :: b6 :: b7 :: rest =>
      let mi := le_bytes [b0; b1; b2; b3; b4; b5; b6; b7] in
      let '(v0, v1, v2, v3) := v in
      let '(v0, v1, v2, v3) := single_round (v0, v1, v2, Z.lxor v3 mi) in
      siphash_blocks (Z.lxor v0 mi, v1, v2, v3) rest
  | _ => (v, bs)
  end.

Definition siphash13 (key : HashSecret) (src : list Z) : Z :=
  let b := wrap64 (Z.shiftl (Z.of_nat (List.length src)) 56) in
  let v0 := Z.lxor (k0 key) 0x736f6d6570736575 in
  let v1 := Z.lxor (k1 key) 0x646f72616e646f6d in
  let v2 := Z.lxor (k0 key) 0x6c7967656e657261 in
  let v3 := Z.lxor (k1 key) 0x7465646279746573 in
  let '((v0, v1, v2, v3), tail) := siphash_blocks (v0, v1, v2, v3) src in
  let b := Z.lor b (le_bytes tail) in
  let '(v0, v1, v2, v3) := single_round (v0, v1, v2, Z.lxor v3 b) in
  let v0 := Z.lxor v0 b in
  let v2 := Z.lxor v2 0xff in
  let '(v0, v1, v2, v3) :=
    single_round (single_round (single_round (v0, v1, v2, v3))) in
  Z.lxor (Z.lxor v0 v1) (Z.lxor v2 v3).

Fixpoint bytes_of (s : string) : list Z :=
  match s with
  | EmptyString => []
  | String c rest => Z.of_N (N_of_ascii c) :: bytes_of rest
  end.

(** [hash(s)]: 0 for the empty string; else the SipHash read as a signed
    64-bit integer, with -1 (the error value) replaced by -2. *)
Definition hash (key : HashSecret) (s : string) : Z :=
  match s with
  | EmptyString => 0
  | _ =>
      let x := siphash13 key (bytes_of s) in
      let x := if 2 ^ 63 <=? x then x - 2 ^ 64 else x in
      if x =? -1 then -2 else x
  end.

(** the key under [PYTHONHASHSEED=0] and under [PYTHONHASHSEED=1] *)
Definition seed0 : HashSecret := {| k0 := 0; k1 := 0 |}.
Definition seed1 : HashSecret :=
  {| k0 := 0xaed66ce184be2329; k1 := 0xebe9bbf1f1499052 |}.

End PyHash.

(** ** Python's [dict], in insertion order

    The entries are kept in the order their keys were first inserted, as a
    [dict] keeps them; the keys of a dictionary are pairwise distinct
    ([dict_wf]). *)

Section Dict.
Context {V : Type}.

Definition dict : Type := list (Z * V).

(** [d.get(k)]: [k in d] is [is_Some], [d[k]] is the value. *)
Fixpoint dict_get (k : Z) (d : dict) : option V :=
  match d with
  | [] => None
  | (k', v) :: rest => if Z.eqb k' k then Some v else dict_get k rest
  end.

(** [d[k] = v]: a key already there keeps its place, a new one goes last. *)
Fixpoint dict_set (k : Z) (v : V) (d : dict) : dict :=
  match d with
  | [] => [(k, v)]
  | (k', v') :: rest =>
      if Z.eqb k' k then (k', v) :: rest else (k', v') :: dict_set k v rest
  end.

(** [del d[k]], for a key [k] of [d] *)
Fixpoint dict_del (k : Z) (d : dict) : dict :=
  match d with
  | [] => []
  | (k', v') :: rest =>
      if Z.eqb k' k then rest else (k', v') :: dict_del k rest
  end.

(** [list(d.keys())] and [len(d)] *)
Definition dict_keys (d : dict) : list Z := fst <$> d.
Definition dict_len (d : dict) : nat := List.length d.

Definition dict_wf (d : dict) : Prop := NoDup (dict_keys d).

(** The block that both [get_sentiment_cached] and [get_summary_cached] run
    under the lock after a miss: store the result, then, when the cache holds
    more than 1000 entries, delete the first 100 keys. *)
Definition cache_store (text_hash : Z) (result : V) (cache : dict) : dict :=
  let cache := dict_set text_hash result cache in
  if 1000 <? dict_len cache then
    let keys_to_remove := take 100 (dict_keys cache) in
    fold_left (fun c key => dict_del key c) keys_to_remove cache
  else cache.

End Dict.
Arguments dict V : clear implicits.

(** ** Exceptions and state *)

Inductive outcome (A : Type) : Type :=
| Returns (a : A)
| Raises.
Arguments Returns {A} a.
Arguments Raises {A}.

Definition M (S A : Type) : Type := S -> outcome A * S.

Definition ret {S A} (a : A) : M S A := fun s => (Returns a, s).
Definition raise {S A} : M S A := fun s => (Raises, s).
Definition bind {S A B} (c : M S A) (k : A -> M S B) : M S B :=
  fun s => match c s with
           | (Returns a, s') => k a s'
           | (Raises, s') => (Raises, s')
           end.
Definition gets {S A} (f : S -> A) : M S A := fun s => (Returns (f s), s).
Definition modify {S} (f : S -> S) : M S unit := fun s => (Returns tt, f s).

(** [try: body except Exception: handler]; what [body] did to the state
    before it raised stays done. *)
Definition try_except {S A} (body handler : M S A) : M S A :=
  fun s => match body s with
           | (Returns a, s') => (Returns a, s')
           | (Raises, s') => handler s'
           end.

Notation "'let!' x := c1 'in' c2" := (bind c1 (fun x => c2))
  (at level 10, x pattern, c1 at level 200, c2 at level 200,
   format "'[v' 'let!'  x  :=  c1  'in' '/' c2 ']'").

(** ** Analyzer results *)

(** One [{'label': ..., 'score': ...}] entry of a sentiment result. The
    entries are typed as the pipelines and [FastSentimentAnalyzer] produce
    them: the label is a [str] and the score a [float] (any IEEE double, NaN
    and the infinities included). *)
Record entry := { label : string; score : float }.

(** What a sentiment analyzer returns: a list of typed entries, a list of
    such lists (a pipeline with [return_all_scores]), or a value on which the
    reading in [analyze_sentiment_fast] raises ([SentimentMalformed]).
    Python being untyped, an analyzer could also return a value the reading
    accepts although it is ill-typed, such as an entry whose score is [None]:
    such values are outside this type, and every statement below about
    analyzers speaks of analyzers whose readable results are typed. *)
Inductive sentiment_result :=
| Scores (results : list entry)
| Nested (results : list (list entry))
| SentimentMalformed.

(** What a summarizer returns: [[{'summary_text': s}]] with [s] a [str], as
    [generate_summary_fast -> str] declares, or a value on which the reading
    in [generate_summary_fast] raises ([SummaryMalformed]). A readable
    result whose [summary_text] is not a string is outside this type. *)
Inductive summary_result :=
| SummaryText (s : string)
| SummaryMalformed.

(** ** The fallback analyzers of [OptimizedAIModels] *)

Definition positive_words : list string :=
    ["excellent"; "great"; "good"; "positive"; "support"; "benefit";
     "improve"; "welcome"; "appreciate"; "effective"; "successful";
     "helpful"; "valuable"; "outstanding"; "wonderful"; "amazing";
     "fantastic"; "brilliant"; "perfect"; "love"; "like"; "enjoy"].
Definition positive_keywords : gset string := list_to_set positive_words.

Definition negative_words : list string :=
    ["terrible"; "bad"; "negative"; "oppose"; "against"; "harm";
     "problem"; "concerned"; "worried"; "disappointed"; "frustrated";
     "angry"; "upset"; "awful"; "horrible"; "hate"; "dislike";
     "reject"; "refuse"; "fail"; "failure"; "wrong"; "error"].
Definition negative_keywords : gset string := list_to_set negative_words.

(** [FastSentimentAnalyzer.__call__] *)
Definition FastSentimentAnalyzer (text : string) : sentiment_result :=
  let text_lower := Py.lower text in
  let words : gset string := list_to_set (Py.split text_lower) in
  let pos_score := size (words ∩ positive_keywords) in
  let neg_score := size (words ∩ negative_keywords) in
  if neg_score <? pos_score then
    let confidence :=
      Py.min 0.95 (0.7 + Py.float_of_nat (pos_score - neg_score) * 0.1)%float in
    Scores [ {| label := "POSITIVE"; score := confidence |} ]
  else if pos_score <? neg_score then
    let confidence :=
      Py.min 0.95 (0.7 + Py.float_of_nat (neg_score - pos_score) * 0.1)%float in
    Scores [ {| label := "NEGATIVE"; score := confidence |} ]
  else
    Scores [ {| label := "NEUTRAL"; score := 0.6%float |} ].

(** The [for delimiter in ['. ', '! ', '? ']] loop of [FastSummarizer]: the
    first delimiter found in [text] decides, and the loop breaks there. *)
Fixpoint sentences_of (delimiters : list string) (text : string) : list string :=
  match delimiters with
  | [] => []
  | delimiter :: others =>
      if Py.contains delimiter text
      then map Py.strip
             (List.filter (fun s => negb (Py.is_empty (Py.strip s)))
                          (Py.split_sep delimiter text))
      else sentences_of others text
  end.

(** [FastSummarizer.__call__]; the result is the [summary_text]. *)
Definition FastSummarizer (text : string) : string :=
  if Py.is_empty text || (Py.len (Py.strip text) =? 0) then "No content"
  else
    let text := Py.strip text in
    if Py.len text <=? 50 then text
    else
      match sentences_of [". "; "! "; "? "] text with
      | summary :: _ =>
          if 47 <? Py.len summary
          then Py.slice_to 47 summary +:+ "..."
          else summary
      | [] =>
          if 47 <? Py.len text then Py.slice_to 47 text +:+ "..." else text
      end.

(** ** [OptimizedAIModels]: the two caches and the cached calls *)

(** The caches of [ai_models]. [sentiment_calls] and [summary_calls] are not
    fields of the class: they count how often each analyzer has been invoked,
    so that an analyzer's answer may depend on its history and invocations
    can be counted. *)
Record OptimizedAIModels := {
  sentiment_cache : dict sentiment_result;
  summary_cache : dict summary_result;
  sentiment_calls : nat;
  summary_calls : nat
}.

Definition fresh_models : OptimizedAIModels :=
  {| sentiment_cache := []; summary_cache := [];
     sentiment_calls := 0; summary_calls := 0 |}.

Definition set_sentiment_cache (c : dict sentiment_result) (m : OptimizedAIModels) :=
  {| sentiment_cache := c; summary_cache := summary_cache m;
     sentiment_calls := sentiment_calls m; summary_calls := summary_calls m |}.

Definition set_summary_cache (c : dict summary_result) (m : OptimizedAIModels) :=
  {| sentiment_cache := sentiment_cache m; summary_cache := c;
     sentiment_calls := sentiment_calls m; summary_calls := summary_calls m |}.

(** The record [process_comment_async] returns. *)
Record comment_data := {
  timestamp : string;
  stakeholder_type : string;
  raw_text : string;
  sentiment_label : string;
  sentiment_score : float;
  summary : string
}.

(** A row of the [comments] table and the table itself. [row_data] holds
    the columns of the row. A [REAL] column never holds a NaN: sqlite3 keeps
    a NaN that is bound to it as NULL, so a NaN score in [row_data] stands
    for NULL, and [stored_score] is the column as a [SELECT] returns it.
    [accepting] says whether the store takes the next write (a connection
    or disk failure makes it refuse). *)
Record comment_row := {
  row_id : nat;
  row_data : comment_data
}.

(** The [sentiment_score] column of a row as a [SELECT] returns it: [None]
    for NULL, the number otherwise. *)
Definition stored_score (r : comment_row) : option float :=
  if PrimFloat.is_nan (sentiment_score (row_data r)) then None
  else Some (sentiment_score (row_data r)).

Record Database := {
  comments : list comment_row;
  lastrowid : nat;
  accepting : bool
}.

(** [CommentResponse] *)
Record CommentResponse := {
  id : nat;
  response : comment_data;
  created_at : string
}.

(** ** Concrete analyzers, states and inputs *)

(** What [_create_fast_fallback_sentiment] and
    [_create_fast_fallback_summarizer] install as analyzers. *)
Definition create_fast_fallback_sentiment
  : nat -> string -> outcome sentiment_result :=
  fun _ text => Returns (FastSentimentAnalyzer text).

Definition create_fast_fallback_summarizer
  : nat -> string -> outcome summary_result :=
  fun _ text => Returns (SummaryText (FastSummarizer text)).

(** Analyzers that always raise, and a sentiment analyzer that answers every
    text with one entry outside the label set and the score range. *)
Definition raising_sentiment : nat -> string -> outcome sentiment_result :=
  fun _ _ => Raises.

Definition raising_summarizer : nat -> string -> outcome summary_result :=
  fun _ _ => Raises.

Definition unchecked_sentiment : nat -> string -> outcome sentiment_result :=
  fun _ _ => Returns (Scores [ {| label := "MIXED"; score := 1.5%float |} ]).

Definition steady_sentiment : nat -> string -> outcome sentiment_result :=
  fun _ _ => Returns (Scores [ {| label := "NEGATIVE"; score := 0.1%float |};
                               {| label := "LABEL_2"; score := 0.9%float |} ]).

(** A sentiment analyzer whose answer changes after its first invocation. *)
Definition drifting_sentiment : nat -> string -> outcome sentiment_result :=
  fun n _ =>
    if n =? 0
    then Returns (Scores [ {| label := "POSITIVE"; score := 0.9%float |} ])
    else Returns (Scores [ {| label := "NEGATIVE"; score := 0.9%float |} ]).

Definition empty_db : Database :=
  {| comments := []; lastrowid := 0; accepting := true |}.

Definition sample_text : string :=
  "I love this policy, it is excellent and will help everyone".

Definition sample_word : string :=
  "Antidisestablishmentarianism-and-pneumonoultramicroscopic".

(** 1001 distinct keys, each with its rank as value. *)
Definition sample_puts : list (Z * nat) :=
  map (fun i => (Z.of_nat i, i)) (seq 0 1001).


Definition sample_sentences : string :=
  "  The new transport policy is welcome. It will cut travel times for many commuters.  ".

Section Backend.

(** [hash] as the running interpreter computes it, and the two analyzers
    [ai_models] holds, chosen once by [_load_models]. An analyzer is given the
    number of its earlier invocations and the text; it returns or raises. *)
Variable hash : string -> Z.
Variable sentiment_analyzer : nat -> string -> outcome sentiment_result.
Variable summarizer : nat -> string -> outcome summary_result.

Definition call_sentiment_analyzer (text : string)
  : M OptimizedAIModels sentiment_result :=
  fun m =>
    (sentiment_analyzer (sentiment_calls m) text,
     {| sentiment_cache := sentiment_cache m; summary_cache := summary_cache m;
        sentiment_calls := S (sentiment_calls m);
        summary_calls := summary_calls m |}).

Definition call_summarizer (text : string)
  : M OptimizedAIModels summary_result :=
  fun m =>
    (summarizer (summary_calls m) text,
     {| sentiment_cache := sentiment_cache m; summary_cache := summary_cache m;
        sentiment_calls := sentiment_calls m;
        summary_calls := S (summary_calls m) |}).

Definition get_sentiment_cached (text : string)
  : M OptimizedAIModels sentiment_result :=
  let text_hash := hash text in
  let! cached := gets (fun m => dict_get text_hash (sentiment_cache m)) in
  match cached with
  | Some result => ret result
  | None =>
      let! result := call_sentiment_analyzer text in
      let! _ := modify (fun m =>
        set_sentiment_cache (cache_store text_hash result (sentiment_cache m)) m) in
      ret result
  end.

Definition get_summary_cached (text : string)
  : M OptimizedAIModels summary_result :=
  let text_hash := hash text in
  let! cached := gets (fun m => dict_get text_hash (summary_cache m)) in
  match cached with
  | Some result => ret result
  | None =>
      let! result := call_summarizer text in
      let! _ := modify (fun m =>
        set_summary_cache (cache_store text_hash result (summary_cache m)) m) in
      ret result
  end.

(** ** The helpers *)

(** [max(results, key=lambda x: x['score'])]: the first entry of the highest
    score; it raises on an empty list. *)
Fixpoint max_by_score (best : entry) (results : list entry) : entry :=
  match results with
  | [] => best
  | x :: rest =>
      max_by_score (if (score best <? score x)%float then x else best) rest
  end.

Definition label_mapping (l : string) : option string :=
  if String.eqb l "LABEL_0" then Some "negative"
  else if String.eqb l "LABEL_1" then Some "neutral"
  else if String.eqb l "LABEL_2" then Some "positive"
  else if String.eqb l "NEGATIVE" then Some "negative"
  else if String.eqb l "NEUTRAL" then Some "neutral"
  else if String.eqb l "POSITIVE" then Some "positive"
  else None.

Definition analyze_sentiment_fast (text : string)
  : M OptimizedAIModels (string * float) :=
  try_except
    (let! results := get_sentiment_cached text in
     let! results :=
       match results with
       | Scores [] => raise
       | Scores results => ret results
       | Nested [] => raise
       | Nested (first :: _) => ret first
       | SentimentMalformed => raise
       end in
     let! best_result :=
       match results with
       | [] => raise
       | x :: rest => ret (max_by_score x rest)
       end in
     let sentiment_label :=
       default (Py.lower (label best_result)) (label_mapping (label best_result)) in
     let confidence_score := score best_result in
     ret (sentiment_label, confidence_score))
    (ret ("neutral", 0.5%float)).

Definition generate_summary_fast (text : string) : M OptimizedAIModels string :=
  try_except
    (if List.length (Py.split text) <? 3 then
       ret (if Py.len text <=? 50 then Py.slice_to 50 text
            else Py.slice_to 47 text +:+ "...")
     else
       let! summary_result := get_summary_cached text in
       let! summary :=
         match summary_result with
         | SummaryText s => ret s
         | SummaryMalformed => raise
         end in
       ret (if 50 <? Py.len summary then Py.slice_to 47 summary +:+ "..."
            else summary))
    (ret (if 47 <? Py.len text then Py.slice_to 47 text +:+ "..." else text)).

(** ** The orchestration and the database write *)

(** [now] is the clock's reading. The two executor tasks touch different
    caches and different analyzers, so their order does not matter; they are
    run here one after the other. *)
Definition process_comment_async (now : string) (stakeholder_type raw_text : string)
  : M OptimizedAIModels comment_data :=
  let raw_text :=
    if 300 <? Py.len raw_text then Py.slice_to 300 raw_text else raw_text in
  let timestamp := now in
  let! sentiment_result := analyze_sentiment_fast raw_text in
  let! summary := generate_summary_fast raw_text in
  let '(sentiment_label, sentiment_score) := sentiment_result in
  ret {| timestamp := timestamp;
         stakeholder_type := stakeholder_type;
         raw_text := raw_text;
         sentiment_label := sentiment_label;
         sentiment_score := sentiment_score;
         summary := summary |}.

(** The [INSERT] of [save_comment_to_db_fast]. The table's [CHECK]
    constraints ([length(raw_text) <= 300], [length(summary) <= 50]) make the
    statement raise on a longer value. The row appended holds the values
    bound to the statement: the texts as they are, and of the score the
    number, or NULL for a NaN ([stored_score]). *)
Definition save_comment_to_db_fast (data : comment_data) : M Database nat :=
  fun db =>
    if negb (accepting db) then (Raises, db)
    else
      let stored :=
        {| timestamp := timestamp data;
           stakeholder_type := stakeholder_type data;
           raw_text := Py.slice_to 300 (raw_text data);
           sentiment_label := sentiment_label data;
           sentiment_score := sentiment_score data;
           summary := Py.slice_to 50 (summary data) |} in
      if (Py.len (raw_text stored) <=? 300) && (Py.len (summary stored) <=? 50)
      then
        let comment_id := S (lastrowid db) in
        (Returns comment_id,
         {| comments := comments db ++ [ {| row_id := comment_id; row_data := stored |} ];
            lastrowid := comment_id;
            accepting := accepting db |})
      else (Raises, db).

(** [CommentResponse(...)]: the model's [max_length] validators raise on a
    longer [raw_text] or [summary]. *)
Definition make_CommentResponse (comment_id : nat) (data : comment_data)
  : outcome CommentResponse :=
  if (Py.len (raw_text data) <=? 300) && (Py.len (summary data) <=? 50)
  then Returns {| id := comment_id; response := data; created_at := timestamp data |}
  else Raises.

(** [submit_comment]: process, save, answer. Whatever raises inside becomes
    the endpoint's error. *)
Definition submit_comment (now : string) (stakeholder_type raw_text : string)
  : M (OptimizedAIModels * Database) CommentResponse :=
  fun '(m, db) =>
    match process_comment_async now stakeholder_type raw_text m with
    | (Raises, m') => (Raises, (m', db))
    | (Returns processed_comment, m') =>
        match save_comment_to_db_fast processed_comment db with
        | (Raises, db') => (Raises, (m', db'))
        | (Returns comment_id, db') =>
            (make_CommentResponse comment_id processed_comment, (m', db'))
        end
    end.

(** ** The pieces of [submit_bulk_comments] *)

(** A cell of the data frame that [pd.read_csv] returns: missing, a string,
    or a value of another type (a number, say), given by its [str]. *)
Inductive cell :=
| NaN
| Text (s : string)
| Other (str : string).

Record csv_row := { csv_stakeholder_type : cell; csv_raw_text : cell }.

(** [pd.isna(c)] and [str(c)] *)
Definition isna (c : cell) : bool :=
  match c with NaN => true | _ => false end.

Definition cell_str (c : cell) : string :=
  match c with NaN => "nan" | Text s => s | Other s => s end.

(** [c in ['citizen', 'business', 'ngo', 'academic']]: a value that is not a
    string equals none of them. *)
Definition is_stakeholder (c : cell) : bool :=
  match c with
  | Text s => existsb (String.eqb s) ["citizen"; "business"; "ngo"; "academic"]
  | _ => false
  end.

(** The body of the loop over the rows of a batch: [None] where the loop
    continues without a task, else the arguments of the call of
    [process_comment_async] it appends. *)
Definition bulk_task (row : csv_row) : option (string * string) :=
  if isna (csv_raw_text row) || isna (csv_stakeholder_type row) then None
  else if negb (is_stakeholder (csv_stakeholder_type row)) then None
  else
    let raw_text := Py.slice_to 300 (cell_str (csv_raw_text row)) in
    Some (cell_str (csv_stakeholder_type row), raw_text).

Definition batch_tasks (batch : list csv_row) : list (string * string) :=
  omap bulk_task batch.

(** [range(0, stop, step)] for a positive [step]: [i] goes up by [step] while
    it is below [stop]. [fuel] bounds the number of rounds. *)
Fixpoint range_go (fuel i stop step : nat) : list nat :=
  match fuel with
  | O => []
  | S fuel' =>
      if i <? stop then i :: range_go fuel' (i + step) stop step else []
  end.

Definition range_step (stop step : nat) : list nat :=
  range_go stop 0 stop step.

(** The batches [df.iloc[i:i+batch_size]] of the outer loop, and the
    [total_batches] the answer reports. *)
Definition batches (df : list csv_row) : list (list csv_row) :=
  let batch_size := 10 in
  map (fun i => take batch_size (drop i df)) (range_step (List.length df) batch_size).

Definition total_batches (df : list csv_row) : nat :=
  let batch_size := 10 in
  (List.length df + batch_size - 1) / batch_size.

(** The loop over [batch_results]: save each record, then build its
    [CommentResponse] and append it to [processed_comments]. *)
Fixpoint save_batch (batch_results : list comment_data)
    (processed_comments : list CommentResponse)
  : M Database (list CommentResponse) :=
  match batch_results with
  | [] => ret processed_comments
  | processed_comment :: others =>
      let! comment_id := save_comment_to_db_fast processed_comment in
      match make_CommentResponse comment_id processed_comment with
      | Returns r => save_batch others (processed_comments ++ [r])
      | Raises => raise
      end
  end.

(** ** [get_recent_logs] *)

(** [l[start:]] for any integer [start]: a negative [start] counts from the
    end, and either way it is clamped to the list. *)
Definition slice_from {A} (start : Z) (l : list A) : list A :=
  let n := Z.of_nat (List.length l) in
  let start :=
    if (start <? 0)%Z then Z.max 0 (start + n) else Z.min start n in
  drop (Z.to_nat start) l.

(** A log file as the endpoint meets it: not there, there but reading it
    raises, or its lines. *)
Inductive log_file_state :=
| Missing
| Unreadable
| Readable (file_lines : list string).

(** An entry of the answer: a line of a file, stripped, or the note that the
    file could not be read. (The clock's reading each entry also carries is
    left out.) *)
Inductive log_entry :=
| LogLine (file content : string)
| LogError (file : string).

(** The body of the loop over [log_files], for one file: the entries it
    appends to [logs]. *)
Definition read_log_file (lines : Z) (log_file : string) (f : log_file_state)
  : list log_entry :=
  match f with
  | Missing => []
  | Unreadable => [LogError log_file]
  | Readable file_lines =>
      let recent_lines :=
        if (lines <? Z.of_nat (List.length file_lines))%Z
        then slice_from (- lines) file_lines
        else file_lines in
      map (fun line => LogLine log_file (Py.strip line)) recent_lines
  end.

Record recent_logs := { logs : list log_entry; total_entries : nat }.

Definition get_recent_logs (lines : Z) (app_log error_log : log_file_state)
  : recent_logs :=
  let logs :=
    read_log_file lines "logs/app.log" app_log
    ++ read_log_file lines "logs/error.log" error_log in
  {| logs := slice_from (- lines) logs; total_entries := List.length logs |}.

(** ** [PerformanceMonitor] of [monitoring.py] *)

(** A [defaultdict] with string keys, in insertion order. Reading [d[k]]
    gives the default for a missing key, and inserts it. *)
Definition defaultdict (V : Type) : Type := list (string * V).

Fixpoint dd_lookup {V} (k : string) (d : defaultdict V) : option V :=
  match d with
  | [] => None
  | (k', v) :: rest => if String.eqb k' k then Some v else dd_lookup k rest
  end.

Fixpoint dd_set {V} (k : string) (v : V) (d : defaultdict V) : defaultdict V :=
  match d with
  | [] => [(k, v)]
  | (k', v') :: rest =>
      if String.eqb k' k then (k', v) :: rest else (k', v') :: dd_set k v rest
  end.

(** The value of [d[k]], and [d] after the read. *)
Definition dd_get {V} (dflt : V) (k : string) (d : defaultdict V) : V :=
  default dflt (dd_lookup k d).

Definition dd_touch {V} (dflt : V) (k : string) (d : defaultdict V)
  : defaultdict V :=
  match dd_lookup k d with
  | Some _ => d
  | None => d ++ [(k, dflt)]
  end.

(** [deque(maxlen=n).append(x)]: the oldest entries give way. *)
Definition deque_append {A} (maxlen : nat) (x : A) (d : list A) : list A :=
  let d := d ++ [x] in
  drop (List.length d - maxlen) d.

(** An entry of a history. *)
Record request_record := {
  request_timestamp : string;
  response_time : float;
  status_code : Z
}.

Record PerformanceMonitor := {
  max_history : nat;
  response_times : defaultdict (list request_record);
  error_counts : defaultdict nat;
  request_counts : defaultdict nat
}.

(** [PerformanceMonitor(max_history)] *)
Definition new_PerformanceMonitor (max_history : nat) : PerformanceMonitor :=
  {| max_history := max_history;
     response_times := []; error_counts := []; request_counts := [] |}.

(** [record_request]; [now] is the clock's reading. *)
Definition record_request (now endpoint : string) (response_time : float)
    (status_code : Z) (pm : PerformanceMonitor) : PerformanceMonitor :=
  let times :=
    deque_append (max_history pm)
      {| request_timestamp := now;
         response_time := response_time;
         status_code := status_code |}
      (dd_get [] endpoint (response_times pm)) in
  {| max_history := max_history pm;
     response_times := dd_set endpoint times (response_times pm);
     error_counts :=
       if (400 <=? status_code)%Z
       then dd_set endpoint (dd_get 0 endpoint (error_counts pm) + 1)
              (error_counts pm)
       else error_counts pm;
     request_counts :=
       dd_set endpoint (dd_get 0 endpoint (request_counts pm) + 1)
         (request_counts pm) |}.

(** [a / b] on integers: [ZeroDivisionError] for [b = 0], else the float
    quotient (of counts that a float holds exactly). *)
Definition true_div (a b : nat) : outcome float :=
  if b =? 0 then Raises
  else Returns (Py.float_of_nat a / Py.float_of_nat b)%float.

(** What [get_endpoint_stats] returns. The average, the minimum and the
    maximum of the response times are left out: they are computed on the
    non-empty history only. [recent_requests] is absent from the answer for
    an empty history. *)
Record endpoint_stats := {
  endpoint : string;
  request_count : nat;
  error_count : nat;
  error_rate : float;
  recent_requests : option (list request_record)
}.

Definition get_endpoint_stats (endpoint : string)
  : M PerformanceMonitor endpoint_stats :=
  fun pm =>
    let times := dd_get [] endpoint (response_times pm) in
    let response_times' := dd_touch [] endpoint (response_times pm) in
    match times with
    | [] =>
        (Returns {| endpoint := endpoint; request_count := 0; error_count := 0;
                    error_rate := 0%float; recent_requests := None |},
         {| max_history := max_history pm;
            response_times := response_times';
            error_counts := error_counts pm;
            request_counts := request_counts pm |})
    | _ :: _ =>
        let request_count := dd_get 0 endpoint (request_counts pm) in
        let error_count := dd_get 0 endpoint (error_counts pm) in
        let pm' :=
          {| max_history := max_history pm;
             response_times := response_times';
             error_counts := dd_touch 0 endpoint (error_counts pm);
             request_counts := dd_touch 0 endpoint (request_counts pm) |} in
        match true_div error_count request_count with
        | Raises => (Raises, pm')
        | Returns q =>
            (Returns {| endpoint := endpoint;
                        request_count := request_count;
                        error_count := error_count;
                        error_rate := (q * 100)%float;
                        recent_requests := Some (slice_from (-10) times) |},
             pm')
        end
    end.

(** What [get_overall_stats] returns, the uptime, the average response time
    and the constant targets left out. *)
Record overall_stats := {
  total_requests : nat;
  total_errors : nat;
  overall_error_rate : float;
  endpoints_monitored : nat
}.

Definition get_overall_stats (pm : PerformanceMonitor) : outcome overall_stats :=
  let total_requests := list_sum (map snd (request_counts pm)) in
  let total_errors := list_sum (map snd (error_counts pm)) in
  match
    (if 0 <? total_requests
     then match true_div total_errors total_requests with
          | Returns q => Returns (q * 100)%float
          | Raises => Raises
          end
     else Returns 0%float)
  with
  | Raises => Raises
  | Returns rate =>
      Returns {| total_requests := total_requests;
                 total_errors := total_errors;
                 overall_error_rate := rate;
                 endpoints_monitored := List.length (response_times pm) |}
  end.

(** What is done to a monitor, one call after the other. *)
Inductive monitor_call :=
| RecordRequest (now endpoint : string) (response_time : float) (status_code : Z)
| GetEndpointStats (endpoint : string)
| GetOverallStats.

Definition monitor_step (pm : PerformanceMonitor) (c : monitor_call)
  : PerformanceMonitor :=
  match c with
  | RecordRequest now endpoint response_time status_code =>
      record_request now endpoint response_time status_code pm
  | GetEndpointStats endpoint => snd (get_endpoint_stats endpoint pm)
  | GetOverallStats => pm
  end.

Definition monitor_run (calls : list monitor_call) (pm : PerformanceMonitor)
  : PerformanceMonitor :=
  fold_left monitor_step calls pm.

(** ** Exceptions with their class, and [monitor_performance] *)

Inductive exn :=
| HTTPException (status_code : Z) (detail : string)
| TypeError (message : string)
| OtherException (message : string).

Inductive result (A : Type) : Type :=
| Ok (a : A)
| Err (e : exn).
Arguments Ok {A} a.
Arguments Err {A} e.

(** [getattr(e, 'status_code', 500)] *)
Definition status_of (e : exn) : Z :=
  match e with
  | HTTPException status_code _ => status_code
  | _ => 500%Z
  end.

(** [endpoint_name or func.__name__]: the name the requests are recorded
    under. *)
Definition endpoint_of (endpoint_name : option string) (func_name : string)
  : string :=
  match endpoint_name with
  | Some name => if Py.is_empty name then func_name else name
  | None => func_name
  end.

(** The wrapper [monitor_performance(endpoint_name)] puts around an endpoint
    [func] of the name [func_name]: run it, and in the [finally] record the
    request, with the status 200 or the status the exception carries; the
    exception goes on. [now] and [response_time] are what the clock gives. *)
Definition monitor_performance {S A} (endpoint_name : option string)
    (func_name : string) (func : S -> result A * S)
    (now : string) (response_time : float)
  : S * PerformanceMonitor -> result A * (S * PerformanceMonitor) :=
  fun '(s, performance_monitor) =>
    let endpoint := endpoint_of endpoint_name func_name in
    let '(result, s') := func s in
    let status_code :=
      match result with
      | Ok _ => 200%Z
      | Err e => status_of e
      end in
    (result,
     (s', record_request now endpoint response_time status_code performance_monitor)).

(** ** [log_error_safely] and the calls of it *)

(** An argument of a call: a string, [None], or an exception object. *)
Inductive value :=
| Str (s : string)
| NoneValue
| ExceptionObject.

(** Binding the arguments of a call to the parameters of a [def] that has
    [**kwargs] and no [*args]: positional arguments go to the parameters in
    order; a keyword argument goes to the parameter of its name, which must
    not have a value yet, or to [kwargs] when no parameter has the name; a
    parameter left without a value takes its default, and must have one.
    A parameter is its name and its default, if it has one. *)
Fixpoint bind_positional (params : list (string * option value))
    (args : list value)
  : result (list (string * value) * list (string * option value)) :=
  match args, params with
  | [], _ => Ok ([], params)
  | _ :: _, [] => Err (TypeError "too many positional arguments")
  | a :: args', (name, _) :: params' =>
      match bind_positional params' args' with
      | Ok (bound, free) => Ok ((name, a) :: bound, free)
      | Err e => Err e
      end
  end.

Definition has_name {V} (name : string) (l : list (string * V)) : bool :=
  existsb (fun p => String.eqb (fst p) name) l.

Fixpoint bind_defaults (bound : list (string * value))
    (free : list (string * option value)) : result (list (string * value)) :=
  match free with
  | [] => Ok bound
  | (name, dflt) :: free' =>
      if has_name name bound then bind_defaults bound free'
      else match dflt with
           | Some v => bind_defaults (bound ++ [(name, v)]) free'
           | None => Err (TypeError "missing a required argument")
           end
  end.

Fixpoint bind_keywords (bound : list (string * value))
    (free : list (string * option value)) (kwargs : list (string * value))
  : result (list (string * value) * list (string * value)) :=
  match kwargs with
  | [] =>
      match bind_defaults bound free with
      | Ok bound' => Ok (bound', [])
      | Err e => Err e
      end
  | (name, v) :: kwargs' =>
      if has_name name bound
      then Err (TypeError "got multiple values for argument")
      else if has_name name free
      then bind_keywords (bound ++ [(name, v)]) free kwargs'
      else match bind_keywords bound free kwargs' with
           | Ok (bound', extra) => Ok (bound', (name, v) :: extra)
           | Err e => Err e
           end
  end.

Definition bind_call (params : list (string * option value))
    (args : list value) (kwargs : list (string * value))
  : result (list (string * value) * list (string * value)) :=
  match bind_positional params args with
  | Ok (bound, free) => bind_keywords bound free kwargs
  | Err e => Err e
  end.

(** [def log_error_safely(error, context="", user_id=None, **kwargs)]: once
    the arguments are bound the body writes one line to the log. *)
Definition log_error_safely (args : list value) (kwargs : list (string * value))
  : result unit :=
  match bind_call [("error", None); ("context", Some (Str EmptyString));
                   ("user_id", Some NoneValue)] args kwargs with
  | Ok _ => Ok tt
  | Err e => Err e
  end.

(** [except Exception as e: log_error_safely(e, name, context=c); raise
    HTTPException(status_code=500, detail=detail)], the handler of
    [submit_comment], [submit_bulk_comments], [get_all_comments],
    [get_dashboard_stats] and [generate_wordcloud]. *)
Definition error_handler {A} (name c detail : string) : result A :=
  match log_error_safely [ExceptionObject; Str name] [("context", Str c)] with
  | Ok _ => Err (HTTPException 500 detail)
  | Err e => Err e
  end.

(** [submit_comment] as the route has it, with the class of its error: the
    body with its handler, under [@monitor_performance("submit_comment")].
    [recorded_at] and [response_time] are the clock's readings in the
    wrapper. *)
Definition submit_comment_endpoint (now : string)
    (stakeholder_type raw_text : string) (recorded_at : string)
    (response_time : float)
  : (OptimizedAIModels * Database) * PerformanceMonitor
    -> result CommentResponse
       * ((OptimizedAIModels * Database) * PerformanceMonitor) :=
  monitor_performance (Some "submit_comment") "submit_comment"
    (fun s =>
       match submit_comment now stakeholder_type raw_text s with
       | (Returns r, s') => (Ok r, s')
       | (Raises, s') =>
           (error_handler "submit_comment" "comment_processing"
              "Error processing comment", s')
       end)
    recorded_at response_time.

(** ** [get_sentiment_cached] run by several threads

    The executor runs [analyze_sentiment_fast] on up to four threads. A
    thread inside [get_sentiment_cached] holds [cache_lock] for the lookup
    and again for the store, and not in between: the points where threads
    interleave are before the lookup, before the call of the analyzer and
    before the store. *)
Inductive thread :=
| AtLookup (text : string)
| AtCall (text : string)
| AtStore (text : string) (result : sentiment_result)
| Finished (o : outcome sentiment_result).

(** One thread goes from its point to the next. *)
Definition thread_step (t : thread) (m : OptimizedAIModels)
  : thread * OptimizedAIModels :=
  match t with
  | AtLookup text =>
      match dict_get (hash text) (sentiment_cache m) with
      | Some result => (Finished (Returns result), m)
      | None => (AtCall text, m)
      end
  | AtCall text =>
      match call_sentiment_analyzer text m with
      | (Returns result, m') => (AtStore text result, m')
      | (Raises, m') => (Finished Raises, m')
      end
  | AtStore text result =>
      (Finished (Returns result),
       set_sentiment_cache
         (cache_store (hash text) result (sentiment_cache m)) m)
  | Finished o => (Finished o, m)
  end.

(** A schedule names, step by step, the thread that moves. *)
Definition schedule_step (st : list thread * OptimizedAIModels) (i : nat)
  : list thread * OptimizedAIModels :=
  let '(threads, m) := st in
  match threads !! i with
  | Some t => let '(t', m') := thread_step t m in (<[i := t']> threads, m')
  | None => st
  end.

Definition run_threads (schedule : list nat)
    (st : list thread * OptimizedAIModels) : list thread * OptimizedAIModels :=
  fold_left schedule_step schedule st.

(** ** [WordCloudGenerator] of [wordcloud_generator.py] *)

(** [sep.join(parts)] *)
Definition join (sep : string) (parts : list string) : string :=
  String.concat sep parts.

(** The rows the [SELECT raw_text] of [get_comments_text] fetches: the texts
    of all comments, or of those with the given label. An empty
    [sentiment_filter] is no filter. *)
Definition select_raw_text (sentiment_filter : option string) (db : Database)
  : list string :=
  map (fun r => raw_text (row_data r))
    match sentiment_filter with
    | Some l =>
        if Py.is_empty l then comments db
        else List.filter (fun r => String.eqb (sentiment_label (row_data r)) l)
                         (comments db)
    | None => comments db
    end.

(** [get_comments_text]: the texts joined by single spaces, an empty text
    left out. (The read is taken to succeed: on an error the method returns
    the empty string.) *)
Definition get_comments_text (sentiment_filter : option string) (db : Database)
  : string :=
  let rows := select_raw_text sentiment_filter db in
  match rows with
  | [] => EmptyString
  | _ :: _ => join " " (List.filter (fun row => negb (Py.is_empty row)) rows)
  end.

Definition stop_words : list string :=
  ["the"; "and"; "or"; "but"; "in"; "on"; "at"; "to"; "for"; "of"; "with"; "by";
   "this"; "that"; "these"; "those"; "is"; "are"; "was"; "were"; "be"; "been";
   "have"; "has"; "had"; "do"; "does"; "did"; "will"; "would"; "could"; "should";
   "may"; "might"; "must"; "can"; "shall"; "policy"; "proposal"; "government";
   "will"; "would"; "should"; "could"; "may"; "might"; "must"; "can"].

(** [clean_text] *)
Definition clean_text (text : string) : string :=
  let words := Py.split (Py.lower text) in
  let filtered_words :=
    List.filter (fun word => negb (bool_decide (word ∈ stop_words))
                             && (3 <? Py.len word)) words in
  join " " filtered_words.

Section WordCloud.

(** [render_wordcloud cleaned_text colormap output_path] is the library at
    work ([WordCloud(...).generate(cleaned_text)] and [to_file]): it returns
    or raises. [path_exists] is [os.path.exists]. *)
Variable render_wordcloud : string -> string -> string -> outcome unit.
Variable path_exists : string -> bool.

(** [new_generator] is [from wordcloud_generator import WordCloudGenerator]
    followed by [WordCloudGenerator(DATABASE_PATH)], whose [__init__] makes
    the directory [temp]: it returns or raises. [readable] says whether the
    read of [get_comments_text] goes through: on an error the method returns
    the empty string. *)
Variable new_generator : outcome unit.
Variable readable : bool.

(** [generate_basic_wordcloud]: the path of the image, or [None]. *)
Definition generate_basic_wordcloud (text filename : string)
    (sentiment : option string) : option string :=
  if Py.is_empty (Py.strip text) then None
  else
    let cleaned_text := clean_text text in
    let colormap :=
      match sentiment with
      | Some s =>
          if String.eqb s "positive" then "Greens"
          else if String.eqb s "negative" then "Reds"
          else if String.eqb s "neutral" then "Blues"
          else "viridis"
      | None => "viridis"
      end in
    let output_path := "temp/" +:+ filename in
    match render_wordcloud cleaned_text colormap output_path with
    | Returns _ => Some output_path
    | Raises => None
    end.

(** The [try] block of [generate_wordcloud] of [app.py]: the path of the
    file it sends, or the exception it raises. *)
Definition generate_wordcloud_try (sentiment : option string) (db : Database)
  : result string :=
  match new_generator with
  | Raises => Err (OtherException "WordCloudGenerator")
  | Returns _ =>
      let comments_text sentiment_filter :=
        if readable then get_comments_text sentiment_filter db
        else EmptyString in
      let filtered :=
        match sentiment with
        | Some s =>
            negb (Py.is_empty s)
            && existsb (String.eqb s) ["positive"; "negative"; "neutral"]
        | None => false
        end in
      let found :=
        if filtered then
          let s := default EmptyString sentiment in
          let filename := "wordcloud_" +:+ s +:+ ".png" in
          let text := comments_text sentiment in
          if Py.is_empty text
          then Err (HTTPException 404 ("No " +:+ s +:+ " comments available"))
          else Ok (generate_basic_wordcloud text filename sentiment)
        else
          let text := comments_text None in
          if Py.is_empty text
          then Err (HTTPException 404 "No comments available for word cloud")
          else Ok (generate_basic_wordcloud text "wordcloud.png" None) in
      match found with
      | Err e => Err e
      | Ok wordcloud_path =>
          match wordcloud_path with
          | Some path =>
              if path_exists path then Ok path
              else Err (HTTPException 500 "Failed to generate word cloud")
          | None => Err (HTTPException 500 "Failed to generate word cloud")
          end
      end
  end.

(** [generate_wordcloud], the route: the [try] block and its two handlers,
    [except HTTPException: raise], which lets the errors the block raises
    itself through, and [except Exception], for any other. *)
Definition generate_wordcloud (sentiment : option string) (db : Database)
  : result string :=
  match generate_wordcloud_try sentiment db with
  | Ok path => Ok path
  | Err (HTTPException status_code detail) =>
      Err (HTTPException status_code detail)
  | Err _ =>
      error_handler "generate_wordcloud" "wordcloud_generation"
        "Error generating word cloud"
  end.

End WordCloud.

(** ** [get_dashboard_stats] *)

(** [SELECT sentiment_label, COUNT( * ) FROM comments GROUP BY
    sentiment_label], read into a [dict]: each label of the table with the
    number of its rows. *)
Definition sentiment_counts_of (db : Database) : defaultdict nat :=
  fold_left
    (fun counts r =>
       let l := sentiment_label (row_data r) in
       dd_set l (dd_get 0 l counts + 1) counts)
    (comments db) [].

(** [DashboardStats] *)
Record DashboardStats := {
  total_comments : nat;
  positive_percentage : float;
  neutral_percentage : float;
  negative_percentage : float;
  recent_comments : list CommentResponse
}.

(** [(count / total_comments) * 100] *)
Definition percentage (count total_comments : nat) : outcome float :=
  match true_div count total_comments with
  | Returns q => Returns (q * 100)%float
  | Raises => Raises
  end.

(** [CommentResponse(id=row[0], ..., created_at=row[7])] on a row of the
    table and its [created_at], a column the [INSERT] leaves to the store
    ([None] for NULL). The validators raise on a [raw_text] of more than 300
    characters, on a [summary] of more than 50, and on [None] for the score
    or for [created_at]. The table may hold such rows: another writer need
    not have the [CHECK] constraints, and a NaN score is kept as NULL. The
    text columns of a row hold strings, as every [INSERT] of [app.py] binds
    them. *)
Definition read_CommentResponse (row : comment_row) (created : option string)
  : outcome CommentResponse :=
  match stored_score row, created with
  | Some _, Some c =>
      if (Py.len (raw_text (row_data row)) <=? 300)
         && (Py.len (summary (row_data row)) <=? 50)
      then Returns {| id := row_id row; response := row_data row; created_at := c |}
      else Raises
  | _, _ => Raises
  end.

(** [for row in recent_rows: recent_comments.append(CommentResponse(...))] *)
Fixpoint recent_comments_loop (recent_rows : list (comment_row * option string))
    (recent_comments : list CommentResponse) : outcome (list CommentResponse) :=
  match recent_rows with
  | [] => Returns recent_comments
  | (row, created) :: rest =>
      match read_CommentResponse row created with
      | Returns c => recent_comments_loop rest (recent_comments ++ [c])
      | Raises => Raises
      end
  end.

(** The [try] block of [get_dashboard_stats]. [readable] says whether the
    connection and the three queries go through (they raise otherwise), and
    [recent_rows] is what the last query, [... ORDER BY created_at DESC
    LIMIT 5], returns: rows of the table with their [created_at]. *)
Definition get_dashboard_stats_try (readable : bool)
    (recent_rows : list (comment_row * option string)) (db : Database)
  : outcome DashboardStats :=
  if negb readable then Raises
  else
    let total_comments := List.length (comments db) in
    if total_comments =? 0 then
      Returns {| total_comments := 0;
                 positive_percentage := 0%float;
                 neutral_percentage := 0%float;
                 negative_percentage := 0%float;
                 recent_comments := [] |}
    else
      let sentiment_counts := sentiment_counts_of db in
      let positive_count := dd_get 0 "positive" sentiment_counts in
      let negative_count := dd_get 0 "negative" sentiment_counts in
      let neutral_count := dd_get 0 "neutral" sentiment_counts in
      match percentage positive_count total_comments,
            percentage negative_count total_comments,
            percentage neutral_count total_comments with
      | Returns positive_percentage, Returns negative_percentage,
        Returns neutral_percentage =>
          match recent_comments_loop recent_rows [] with
          | Returns recent_comments =>
              Returns {| total_comments := total_comments;
                         positive_percentage := positive_percentage;
                         neutral_percentage := neutral_percentage;
                         negative_percentage := negative_percentage;
                         recent_comments := recent_comments |}
          | Raises => Raises
          end
      | _, _, _ => Raises
      end.

(** [get_dashboard_stats], the route: the [try] block and its handler. *)
Definition get_dashboard_stats (readable : bool)
    (recent_rows : list (comment_row * option string)) (db : Database)
  : result DashboardStats :=
  match get_dashboard_stats_try readable recent_rows db with
  | Returns stats => Ok stats
  | Raises =>
      error_handler "get_dashboard_stats" "dashboard_statistics"
        "Error getting dashboard stats"
  end.

(** ** [submit_comment] with a sentiment analyzer whose output is not typed

    Python checks no type: the score of an entry may be any object. Here it
    is [None] or a float, the label still a string, and the path of
    [submit_comment] is followed with such entries. The summary side is the
    typed one. *)











(** ** Vocabulary of the statements *)

(** What [analyze_sentiment_fast] makes of a result the cached call returned:
    the reading of the list, or the fallback when the reading raises. *)
Definition read_sentiment (results : sentiment_result) : string * float :=
  let pick (l : list entry) :=
    match l with
    | [] => ("neutral", 0.5%float)
    | x :: rest =>
        let best := max_by_score x rest in
        (default (Py.lower (label best)) (label_mapping (label best)), score best)
    end in
  match results with
  | Scores l => pick l
  | Nested [] => ("neutral", 0.5%float)
  | Nested (first :: _) => pick first
  | SentimentMalformed => ("neutral", 0.5%float)
  end.

(** The three ways [generate_summary_fast] ends. *)
Definition short_summary (text : string) : string :=
  if Py.len text <=? 50 then Py.slice_to 50 text else Py.slice_to 47 text +:+ "...".
Definition capped_summary (s : string) : string :=
  if 50 <? Py.len s then Py.slice_to 47 s +:+ "..." else s.
Definition fallback_summary (text : string) : string :=
  if 47 <? Py.len text then Py.slice_to 47 text +:+ "..." else text.

(** A run of stores, oldest first. *)
Definition put_all {V} (puts : list (Z * V)) (cache : dict V) : dict V :=
  fold_left (fun c kv => cache_store (fst kv) (snd kv) c) puts cache.

(** The confidence of [FastSentimentAnalyzer] for a difference [d] of the two
    counts, as the code computes it. *)
Definition confidence (d : nat) : float :=
  Py.min 0.95 (0.7 + Py.float_of_nat d * 0.1)%float.

(** The score invariant, read on binary64 values. *)
Definition valid_score (sc : float) : Prop :=
  (0 <=? sc)%float = true /\ (sc <=? 1)%float = true.

Definition valid_label (l : string) : Prop :=
  l = "positive"%string \/ l = "neutral"%string \/ l = "negative"%string.

(** Following the spec's words (section 4.3, HeuristicKeywordClassifier),
    for a given list of tokens: count the marker words of each set that are
    among the tokens; the label is positive when the positive count is the
    greater, negative when the negative count is, neutral on a tie; the
    confidence is [min(0.95, 0.7 + 0.1 * |difference|)], or 0.6 on a tie. *)
Definition marker_hits (markers tokens : list string) : nat :=
  List.length (List.filter (fun w => bool_decide (w ∈ tokens)) markers).

Definition HeuristicKeywordClassifier (tokens : list string) : string * float :=
  let p := marker_hits positive_words tokens in
  let n := marker_hits negative_words tokens in
  if n <? p then
    ("positive"%string, Py.min 0.95 (0.7 + 0.1 * Py.float_of_nat (p - n))%float)
  else if p <? n then
    ("negative"%string, Py.min 0.95 (0.7 + 0.1 * Py.float_of_nat (n - p))%float)
  else ("neutral"%string, 0.6%float).

(** An entry whose label, mapped as [analyze_sentiment_fast] maps it, is one
    of the three labels and whose score lies in [0, 1]; a result all of whose
    entries that can be read are such. *)
Definition entry_ok (e : entry) : Prop :=
  valid_label (default (Py.lower (label e)) (label_mapping (label e)))
  /\ valid_score (score e).

Definition result_ok (r : sentiment_result) : Prop :=
  match r with
  | Scores results => Forall entry_ok results
  | Nested (first :: _) => Forall entry_ok first
  | Nested [] => True
  | SentimentMalformed => True
  end.

Definition cache_ok (cache : dict sentiment_result) : Prop :=
  Forall (fun kv => result_ok (snd kv)) cache.

(** A string that is not empty and whose last character is not whitespace. *)
Fixpoint ends_nonspace (s : string) : bool :=
  match s with
  | EmptyString => false
  | String c rest =>
      if Py.is_empty rest then negb (Py.isspace c) else ends_nonspace rest
  end.

Fixpoint drop_chars (n : nat) (s : string) : string :=
  match n, s with
  | S k, String _ rest => drop_chars k rest
  | _, _ => s
  end.

(** The first of the three delimiters that occurs in the text, if any. *)
Definition first_delimiter (text : string) : option string :=
  List.find (fun d => Py.contains d text) [". "; "! "; "? "].

(** The pieces of [text] between the occurrences of [delimiter] that are not
    blank, each stripped: the list comprehension of [FastSummarizer]. *)
Definition sentences_on (delimiter text : string) : list string :=
  map Py.strip
    (List.filter (fun s => negb (Py.is_empty (Py.strip s)))
                 (Py.split_sep delimiter text)).

(** A sentiment result on which the reading of [analyze_sentiment_fast]
    raises: no entry where one is looked for. *)
Definition unreadable (r : sentiment_result) : Prop :=
  match r with
  | Scores [] => True
  | Nested [] => True
  | Nested ([] :: _) => True
  | SentimentMalformed => True
  | _ => False
  end.

(** A string whose first character exists and is not whitespace. *)
Definition starts_nonspace (s : string) : bool :=
  match s with
  | EmptyString => false
  | String c _ => negb (Py.isspace c)
  end.

(** The ids of the table go up strictly along the rows, and none is above
    [lastrowid]. *)
Definition db_ok (db : Database) : Prop :=
  StronglySorted lt (row_id <$> comments db)
  /\ Forall (fun r => row_id r <= lastrowid db) (comments db).

(** A record within the two limits. *)
Definition within_limits (data : comment_data) : Prop :=
  Py.len (raw_text data) <= 300 /\ Py.len (summary data) <= 50.

(** The requests recorded for an endpoint by a run of calls, in order, and
    the endpoints a run of calls names. *)
Definition records_of (e : string) (calls : list monitor_call)
  : list request_record :=
  omap (fun c =>
          match c with
          | RecordRequest now endpoint response_time status_code =>
              if String.eqb endpoint e
              then Some {| request_timestamp := now;
                           response_time := response_time;
                           status_code := status_code |}
              else None
          | _ => None
          end) calls.

Definition is_error (r : request_record) : bool := (400 <=? status_code r)%Z.

Definition named_endpoints (calls : list monitor_call) : list string :=
  omap (fun c =>
          match c with
          | RecordRequest _ endpoint _ _ => Some endpoint
          | GetEndpointStats endpoint => Some endpoint
          | GetOverallStats => None
          end) calls.

Definition recorded (calls : list monitor_call) : list request_record :=
  omap (fun c =>
          match c with
          | RecordRequest now _ response_time status_code =>
              Some {| request_timestamp := now;
                      response_time := response_time;
                      status_code := status_code |}
          | _ => None
          end) calls.

(** A thread that may still call the analyzer. *)
Definition may_call (t : thread) : bool :=
  match t with
  | AtLookup _ | AtCall _ => true
  | _ => false
  end.

(** The test of [clean_text] on a word, and a string without whitespace. *)
Definition kept_word (word : string) : bool :=
  negb (bool_decide (word ∈ stop_words)) && (3 <? Py.len word).

Fixpoint no_space (s : string) : bool :=
  match s with
  | EmptyString => true
  | String c rest => negb (Py.isspace c) && no_space rest
  end.

(** A word: not empty, no whitespace in it. *)
Definition is_word (s : string) : Prop :=
  s <> EmptyString /\ no_space s = true.

(** The number of rows of the table with a given label. *)
Definition rows_labelled (l : string) (db : Database) : nat :=
  List.length
    (List.filter (fun r => String.eqb (sentiment_label (row_data r)) l)
                 (comments db)).

(** A row as the pipeline is meant to leave it: one of the three labels, a
    score in [0, 1], the text and the summary within their limits. *)
Definition row_valid (r : comment_row) : Prop :=
  valid_label (sentiment_label (row_data r))
  /\ valid_score (sentiment_score (row_data r))
  /\ within_limits (row_data r).

(** The caches and the table together. *)
Definition store_ok (s : OptimizedAIModels * Database) : Prop :=
  cache_ok (sentiment_cache (fst s))
  /\ Forall row_valid (comments (snd s))
  /\ db_ok (snd s).

(** Requests to [submit_comment] served one after the other, each with the
    clock's reading, the stakeholder type and the text; a request that fails
    leaves its error to its client and the next one is served. *)
Fixpoint submit_each (requests : list (string * string * string))
    (s : OptimizedAIModels * Database) : OptimizedAIModels * Database :=
  match requests with
  | [] => s
  | (now, stakeholder_type, raw_text) :: others =>
      submit_each others (snd (submit_comment now stakeholder_type raw_text s))
  end.

(** [CommentResponse] takes the row with this [created_at]. *)
Definition row_readable (rc : comment_row * option string) : Prop :=
  Py.len (raw_text (row_data (fst rc))) <= 300
  /\ Py.len (summary (row_data (fst rc))) <= 50
  /\ PrimFloat.is_nan (sentiment_score (row_data (fst rc))) = false
  /\ snd rc <> None.

(** The row [r] is the record [d] as the table keeps it: the texts as they
    are, and the score as a number equal to the record's, or NULL when the
    record's score is a NaN. *)
Definition stored_as (r : comment_row) (d : comment_data) : Prop :=
  timestamp (row_data r) = timestamp d
  /\ stakeholder_type (row_data r) = stakeholder_type d
  /\ raw_text (row_data r) = raw_text d
  /\ sentiment_label (row_data r) = sentiment_label d
  /\ summary (row_data r) = summary d
  /\ match stored_score r with
     | Some x => (x =? sentiment_score d)%float = true
     | None => PrimFloat.is_nan (sentiment_score d) = true
     end.

(** ** The built-ins and the fallback analyzers on sample inputs *)

Example split_demo : Py.split "  Good   idea. " = ["Good"; "idea."].
Proof. reflexivity. Qed.

Example split_sep_demo : Py.split_sep ". " "a.. b.  c" = ["a."; "b"; " c"].
Proof. reflexivity. Qed.

Example strip_demo : Py.strip "  a b  " = "a b".
Proof. reflexivity. Qed.

Example lower_demo : Py.lower "Good IDEA" = "good idea".
Proof. reflexivity. Qed.

Example hash_seed0_demo :
  PyHash.hash PyHash.seed0 "Good idea." = (-5368392819505011827)%Z
  /\ PyHash.hash PyHash.seed0
       "I love this policy, it is excellent and will help everyone"
     = (-6230843778751811299)%Z.
Proof. split; vm_compute; reflexivity. Qed.

Example hash_seed1_demo :
  PyHash.hash PyHash.seed1 "Good idea." = (-229419013560090355)%Z.
Proof. vm_compute; reflexivity. Qed.

Example FastSentimentAnalyzer_demo :
  FastSentimentAnalyzer "I love this policy, it is excellent and will help everyone"
  = Scores [ {| label := "POSITIVE"; score := 0.8999999999999999%float |} ].
Proof. vm_compute. reflexivity. Qed.

Example FastSummarizer_demo :
  FastSummarizer
    "The new transport policy is welcome. It will cut travel times for many commuters."
  = "The new transport policy is welcome".
Proof. vm_compute. reflexivity. Qed.

Example slice_from_demo :
  slice_from (-2) [1; 2; 3] = [2; 3]
  /\ slice_from (-0) [1; 2; 3] = [1; 2; 3]
  /\ slice_from (-5) [1; 2; 3] = [1; 2; 3]
  /\ slice_from 2 [1; 2; 3] = [3]
  /\ slice_from 7 [1; 2; 3] = [].
Proof. repeat split. Qed.

Example deque_append_demo :
  deque_append 2 3 [1; 2] = [2; 3] /\ deque_append 0 1 [] = [].
Proof. split; reflexivity. Qed.

Example clean_text_demo :
  clean_text "The policy is GOOD and  helpful indeed" = "good helpful indeed".
Proof. vm_compute. reflexivity. Qed.

Example log_error_safely_demo :
  log_error_safely [ExceptionObject; Str "a"] [("context", Str "b")]
  = Err (TypeError "got multiple values for argument")
  /\ log_error_safely [ExceptionObject; Str "a"] [] = Ok tt
  /\ log_error_safely [ExceptionObject] [("context", Str "b")] = Ok tt
  /\ log_error_safely [ExceptionObject; Str "a"; NoneValue; Str "x"] []
     = Err (TypeError "too many positional arguments")
  /\ log_error_safely [] [] = Err (TypeError "missing a required argument")
  /\ log_error_safely [ExceptionObject] [("extra", Str "x")] = Ok tt.
Proof. repeat split. Qed.

(** ** Facts about the string operations *)

Lemma len_append (a b : string) : Py.len (a +:+ b) = Py.len a + Py.len b.
Proof.
  unfold Py.len. induction a as [|c a IH]; simpl; [reflexivity|].
  now rewrite IH.
Qed.

Lemma len_slice_to (n : nat) (s : string) :
  Py.len (Py.slice_to n s) = Nat.min n (Py.len s).
Proof.
  unfold Py.len. revert s.
  induction n as [|n IH]; intros [|c s]; simpl; try reflexivity.
  now rewrite IH.
Qed.

Lemma slice_to_all (n : nat) (s : string) :
  Py.len s <= n -> Py.slice_to n s = s.
Proof.
  unfold Py.len. revert s.
  induction n as [|n IH]; intros [|c s]; simpl; intros H; try reflexivity; try lia.
  rewrite IH; [reflexivity | lia].
Qed.

(** The truncation both helpers and both fallbacks use: a text longer than
    [limit] is cut to 47 characters and an ellipsis. *)
Lemma len_ellipsis (limit : nat) (s : string) :
  47 <= limit <= 50 ->
  Py.len (if limit <? Py.len s then Py.slice_to 47 s +:+ "..." else s) <= 50.
Proof.
  intros Hl. destruct (Nat.ltb_spec limit (Py.len s)) as [H|H].
  - rewrite len_append, len_slice_to. change (Py.len "...") with 3. lia.
  - lia.
Qed.


(** ** The helpers always return *)

Ltac unfold_M :=
  unfold try_except, bind, ret, raise, gets, modify,
    call_sentiment_analyzer, call_summarizer in *.

Lemma get_sentiment_cached_hit (text : string) (m : OptimizedAIModels) r :
  dict_get (hash text) (sentiment_cache m) = Some r ->
  get_sentiment_cached text m = (Returns r, m).
Proof. intros H. unfold get_sentiment_cached. unfold_M. now rewrite H. Qed.

Lemma get_sentiment_cached_miss (text : string) (m : OptimizedAIModels) :
  dict_get (hash text) (sentiment_cache m) = None ->
  get_sentiment_cached text m =
    match sentiment_analyzer (sentiment_calls m) text with
    | Returns result =>
        (Returns result,
         {| sentiment_cache := cache_store (hash text) result (sentiment_cache m);
            summary_cache := summary_cache m;
            sentiment_calls := S (sentiment_calls m);
            summary_calls := summary_calls m |})
    | Raises =>
        (Raises,
         {| sentiment_cache := sentiment_cache m;
            summary_cache := summary_cache m;
            sentiment_calls := S (sentiment_calls m);
            summary_calls := summary_calls m |})
    end.
Proof.
  intros H. unfold get_sentiment_cached. unfold_M. rewrite H.
  now destruct (sentiment_analyzer _ _).
Qed.

Lemma get_summary_cached_hit (text : string) (m : OptimizedAIModels) r :
  dict_get (hash text) (summary_cache m) = Some r ->
  get_summary_cached text m = (Returns r, m).
Proof. intros H. unfold get_summary_cached. unfold_M. now rewrite H. Qed.

Lemma get_summary_cached_miss (text : string) (m : OptimizedAIModels) :
  dict_get (hash text) (summary_cache m) = None ->
  get_summary_cached text m =
    match summarizer (summary_calls m) text with
    | Returns result =>
        (Returns result,
         {| sentiment_cache := sentiment_cache m;
            summary_cache := cache_store (hash text) result (summary_cache m);
            sentiment_calls := sentiment_calls m;
            summary_calls := S (summary_calls m) |})
    | Raises =>
        (Raises,
         {| sentiment_cache := sentiment_cache m;
            summary_cache := summary_cache m;
            sentiment_calls := sentiment_calls m;
            summary_calls := S (summary_calls m) |})
    end.
Proof.
  intros H. unfold get_summary_cached. unfold_M. rewrite H.
  now destruct (summarizer _ _).
Qed.

Lemma analyze_sentiment_fast_eq (text : string) (m : OptimizedAIModels) :
  analyze_sentiment_fast text m =
    match get_sentiment_cached text m with
    | (Returns results, m') => (Returns (read_sentiment results), m')
    | (Raises, m') => (Returns ("neutral", 0.5%float), m')
    end.
Proof.
  unfold analyze_sentiment_fast, try_except at 1, bind at 1.
  destruct (get_sentiment_cached text m) as [[results|] m']; [|reflexivity].
  destruct results as [[|x rest]|[|[|x rest] others]|]; reflexivity.
Qed.

Lemma analyze_sentiment_fast_returns (text : string) (m : OptimizedAIModels) :
  exists r m', analyze_sentiment_fast text m = (Returns r, m').
Proof.
  rewrite analyze_sentiment_fast_eq.
  destruct (get_sentiment_cached text m) as [[results|] m']; eauto.
Qed.

Lemma generate_summary_fast_eq (text : string) (m : OptimizedAIModels) :
  generate_summary_fast text m =
    if List.length (Py.split text) <? 3 then (Returns (short_summary text), m)
    else match get_summary_cached text m with
         | (Returns (SummaryText s), m') => (Returns (capped_summary s), m')
         | (Returns SummaryMalformed, m') => (Returns (fallback_summary text), m')
         | (Raises, m') => (Returns (fallback_summary text), m')
         end.
Proof.
  unfold generate_summary_fast, try_except at 1.
  destruct (List.length (Py.split text) <? 3); [reflexivity|].
  unfold bind at 1.
  destruct (get_summary_cached text m) as [[[s|]|] m']; reflexivity.
Qed.

Lemma len_short_summary (text : string) : Py.len (short_summary text) <= 50.
Proof.
  unfold short_summary. destruct (Nat.leb_spec (Py.len text) 50) as [H|H].
  - rewrite len_slice_to. lia.
  - rewrite len_append, len_slice_to. change (Py.len "...") with 3. lia.
Qed.

Lemma len_capped_summary (s : string) : Py.len (capped_summary s) <= 50.
Proof. apply (len_ellipsis 50). lia. Qed.

Lemma len_fallback_summary (text : string) : Py.len (fallback_summary text) <= 50.
Proof. apply (len_ellipsis 47). lia. Qed.

Lemma generate_summary_fast_returns (text : string) (m : OptimizedAIModels) :
  exists s m', generate_summary_fast text m = (Returns s, m') /\ Py.len s <= 50.
Proof.
  rewrite generate_summary_fast_eq.
  destruct (List.length (Py.split text) <? 3).
  - eauto using len_short_summary.
  - destruct (get_summary_cached text m) as [[[s|]|] m'];
      eauto using len_capped_summary, len_fallback_summary.
Qed.

(** [process_comment_async] is its two helpers run on the truncated text. *)
Lemma process_comment_async_eq (now st T : string) (m : OptimizedAIModels) :
  exists l sc s m1 m2,
    let raw := if 300 <? Py.len T then Py.slice_to 300 T else T in
    analyze_sentiment_fast raw m = (Returns (l, sc), m1)
    /\ generate_summary_fast raw m1 = (Returns s, m2)
    /\ Py.len s <= 50
    /\ process_comment_async now st T m =
         (Returns {| timestamp := now; stakeholder_type := st; raw_text := raw;
                     sentiment_label := l; sentiment_score := sc; summary := s |},
          m2).
Proof.
  destruct (analyze_sentiment_fast_returns
              (if 300 <? Py.len T then Py.slice_to 300 T else T) m)
    as ([l sc] & m1 & Ha).
  destruct (generate_summary_fast_returns
              (if 300 <? Py.len T then Py.slice_to 300 T else T) m1)
    as (s & m2 & Hs & Hlen).
  exists l, sc, s, m1, m2. cbv zeta. repeat split; try assumption.
  unfold process_comment_async, bind. rewrite Ha, Hs. reflexivity.
Qed.

Lemma len_raw_text_truncated (T : string) :
  Py.len (if 300 <? Py.len T then Py.slice_to 300 T else T) <= 300.
Proof.
  destruct (Nat.ltb_spec 300 (Py.len T)); [rewrite len_slice_to|]; lia.
Qed.

(** The write stores what it is given, cut to the two limits, under the next
    id; it raises only when the store refuses the write. *)
Lemma save_comment_to_db_fast_eq (data : comment_data) (db : Database) :
  save_comment_to_db_fast data db =
    if accepting db then
      (Returns (S (lastrowid db)),
       {| comments := comments db ++
            [ {| row_id := S (lastrowid db);
                 row_data :=
                   {| timestamp := timestamp data;
                      stakeholder_type := stakeholder_type data;
                      raw_text := Py.slice_to 300 (raw_text data);
                      sentiment_label := sentiment_label data;
                      sentiment_score := sentiment_score data;
                      summary := Py.slice_to 50 (summary data) |} |} ];
          lastrowid := S (lastrowid db);
          accepting := accepting db |})
    else (Raises, db).
Proof.
  unfold save_comment_to_db_fast.
  destruct (accepting db); cbn [negb raw_text summary]; [|reflexivity].
  assert (H300 : (Py.len (Py.slice_to 300 (raw_text data)) <=? 300) = true)
    by (apply Nat.leb_le; rewrite len_slice_to; lia).
  assert (H50 : (Py.len (Py.slice_to 50 (summary data)) <=? 50) = true)
    by (apply Nat.leb_le; rewrite len_slice_to; lia).
  rewrite H300, H50. reflexivity.
Qed.


(** ** Each helper leaves the other analyzer's cache and counter alone *)

Lemma get_sentiment_cached_frame (text : string) (m m' : OptimizedAIModels) r :
  get_sentiment_cached text m = (r, m') ->
  summary_cache m' = summary_cache m /\ summary_calls m' = summary_calls m.
Proof.
  destruct (dict_get (hash text) (sentiment_cache m)) as [v|] eqn:Hget.
  - rewrite (get_sentiment_cached_hit _ _ _ Hget). intros [= _ <-]. auto.
  - rewrite (get_sentiment_cached_miss _ _ Hget).
    destruct (sentiment_analyzer _ _); intros [= _ <-]; auto.
Qed.

Lemma analyze_sentiment_fast_frame (text : string) (m m' : OptimizedAIModels) r :
  analyze_sentiment_fast text m = (r, m') ->
  summary_cache m' = summary_cache m /\ summary_calls m' = summary_calls m.
Proof.
  rewrite analyze_sentiment_fast_eq.
  destruct (get_sentiment_cached text m) as [o m1] eqn:Hget.
  apply get_sentiment_cached_frame in Hget.
  destruct o; intros [= _ <-]; exact Hget.
Qed.

Lemma get_summary_cached_frame (text : string) (m m' : OptimizedAIModels) r :
  get_summary_cached text m = (r, m') ->
  sentiment_cache m' = sentiment_cache m /\ sentiment_calls m' = sentiment_calls m.
Proof.
  destruct (dict_get (hash text) (summary_cache m)) as [v|] eqn:Hget.
  - rewrite (get_summary_cached_hit _ _ _ Hget). intros [= _ <-]. auto.
  - rewrite (get_summary_cached_miss _ _ Hget).
    destruct (summarizer _ _); intros [= _ <-]; auto.
Qed.

Lemma generate_summary_fast_frame (text : string) (m m' : OptimizedAIModels) r :
  generate_summary_fast text m = (r, m') ->
  sentiment_cache m' = sentiment_cache m /\ sentiment_calls m' = sentiment_calls m.
Proof.
  rewrite generate_summary_fast_eq.
  destruct (List.length (Py.split text) <? 3).
  - intros [= _ <-]. auto.
  - destruct (get_summary_cached text m) as [o m1] eqn:Hget.
    apply get_summary_cached_frame in Hget.
    destruct o as [[s|]|]; intros [= _ <-]; exact Hget.
Qed.

(** [submit_comment] raises exactly when the store refuses the write. *)
Lemma submit_comment_eq (now st T : string) (m : OptimizedAIModels) (db : Database) :
  exists data m',
    process_comment_async now st T m = (Returns data, m')
    /\ submit_comment now st T (m, db) =
         if accepting db then
           (Returns {| id := S (lastrowid db); response := data; created_at := now |},
            (m', {| comments := comments db ++
                      [ {| row_id := S (lastrowid db); row_data := data |} ];
                    lastrowid := S (lastrowid db);
                    accepting := accepting db |}))
         else (Raises, (m', db)).
Proof.
  destruct (process_comment_async_eq now st T m) as (l & sc & s & m1 & m2 & H).
  cbv zeta in H. destruct H as (_ & _ & Hlen & Hp).
  pose proof (len_raw_text_truncated T) as Hraw.
  set (raw := if 300 <? Py.len T then Py.slice_to 300 T else T) in *.
  eexists _, m2. split; [exact Hp|].
  unfold submit_comment. rewrite Hp, save_comment_to_db_fast_eq.
  destruct (accepting db); [|reflexivity].
  unfold make_CommentResponse.
  cbn [raw_text summary timestamp stakeholder_type sentiment_label sentiment_score].
  rewrite (slice_to_all 300 raw) by exact Hraw.
  rewrite (slice_to_all 50 s) by exact Hlen.
  apply Nat.leb_le in Hraw, Hlen. rewrite Hraw, Hlen. reflexivity.
Qed.


(** ** Facts about dictionaries and the cache block *)

Lemma dict_get_set_eq {V} (k : Z) (v : V) (d : dict V) :
  dict_get k (dict_set k v d) = Some v.
Proof.
  induction d as [|[k' v'] d IH]; simpl.
  - now rewrite Z.eqb_refl.
  - destruct (Z.eqb_spec k' k) as [->|Hne]; simpl.
    + now rewrite Z.eqb_refl.
    + destruct (Z.eqb_spec k' k); [contradiction | exact IH].
Qed.

Lemma dict_get_set_ne {V} (k k' : Z) (v : V) (d : dict V) :
  k <> k' -> dict_get k' (dict_set k v d) = dict_get k' d.
Proof.
  intros Hne. induction d as [|[k0 v0] d IH]; simpl.
  - destruct (Z.eqb_spec k k'); [contradiction | reflexivity].
  - destruct (Z.eqb_spec k0 k) as [->|H0]; simpl.
    + destruct (Z.eqb_spec k k'); [contradiction | reflexivity].
    + now rewrite IH.
Qed.

Lemma dict_get_None {V} (k : Z) (d : dict V) :
  dict_get k d = None <-> k ∉ dict_keys d.
Proof.
  induction d as [|[k' v'] d IH]; simpl.
  - split; [intros _; apply not_elem_of_nil | reflexivity].
  - rewrite not_elem_of_cons. destruct (Z.eqb_spec k' k) as [->|Hne].
    + split; [discriminate | intros [H _]; contradiction].
    + rewrite IH. split; [intros H; split; [congruence | exact H] | intros [_ H]; exact H].
Qed.

Lemma dict_get_Some {V} (k : Z) (v : V) (d : dict V) :
  dict_wf d -> (k, v) ∈ d -> dict_get k d = Some v.
Proof.
  unfold dict_wf. induction d as [|[k' v'] d IH]; simpl; intros Hwf Hin.
  - now apply elem_of_nil in Hin.
  - apply NoDup_cons in Hwf as [Hk' Hwf].
    apply elem_of_cons in Hin as [[= <- <-]|Hin].
    + now rewrite Z.eqb_refl.
    + destruct (Z.eqb_spec k' k) as [->|Hne]; [|now apply IH].
      exfalso. apply Hk'. apply list_elem_of_fmap. now exists (k, v).
Qed.

(** A new key goes to the end. *)
Lemma dict_set_new {V} (k : Z) (v : V) (d : dict V) :
  k ∉ dict_keys d -> dict_set k v d = d ++ [(k, v)].
Proof.
  induction d as [|[k' v'] d IH]; simpl; intros Hk; [reflexivity|].
  apply not_elem_of_cons in Hk as [Hne Hk].
  destruct (Z.eqb_spec k' k); [congruence|]. now rewrite IH.
Qed.

Lemma dict_keys_set {V} (k : Z) (v : V) (d : dict V) :
  dict_keys (dict_set k v d) =
    if bool_decide (k ∈ dict_keys d) then dict_keys d else dict_keys d ++ [k].
Proof.
  induction d as [|[k' v'] d IH]; simpl; [reflexivity|].
  destruct (Z.eqb_spec k' k) as [->|Hne]; simpl.
  - rewrite bool_decide_eq_true_2 by apply list_elem_of_here. reflexivity.
  - rewrite IH. destruct (bool_decide_reflect (k ∈ dict_keys d)) as [Hin|Hnin].
    + rewrite bool_decide_eq_true_2 by (now apply list_elem_of_further). reflexivity.
    + rewrite bool_decide_eq_false_2; [reflexivity|].
      rewrite not_elem_of_cons. split; [congruence | exact Hnin].
Qed.

Lemma dict_len_set {V} (k : Z) (v : V) (d : dict V) :
  dict_len d <= dict_len (dict_set k v d) <= S (dict_len d).
Proof.
  assert (Hk : forall d' : dict V, dict_len d' = List.length (dict_keys d'))
    by (intros d'; unfold dict_len, dict_keys; now rewrite length_fmap).
  rewrite !Hk, dict_keys_set. destruct (bool_decide _); [lia|].
  rewrite length_app. simpl. lia.
Qed.

Lemma dict_wf_set {V} (k : Z) (v : V) (d : dict V) :
  dict_wf d -> dict_wf (dict_set k v d).
Proof.
  unfold dict_wf. rewrite dict_keys_set. intros Hwf.
  destruct (bool_decide_reflect (k ∈ dict_keys d)) as [Hin|Hnin]; [exact Hwf|].
  apply NoDup_app. split; [exact Hwf|]. split.
  - intros x Hx Hx'. apply list_elem_of_singleton in Hx' as ->. contradiction.
  - apply NoDup_singleton.
Qed.

(** The eviction loop deletes the first [n] keys one by one: what is left is
    the dictionary without its first [n] entries. *)
Lemma evict_oldest {V} (n : nat) (d : dict V) :
  fold_left (fun c key => dict_del key c) (take n (dict_keys d)) d = drop n d.
Proof.
  revert d. induction n as [|n IH]; intros [|[k v] d]; simpl; try reflexivity.
  rewrite Z.eqb_refl. apply IH.
Qed.

Lemma cache_store_eq {V} (k : Z) (v : V) (cache : dict V) :
  cache_store k v cache =
    if 1000 <? dict_len (dict_set k v cache)
    then drop 100 (dict_set k v cache)
    else dict_set k v cache.
Proof. unfold cache_store. now rewrite evict_oldest. Qed.

Lemma dict_wf_drop {V} (n : nat) (d : dict V) : dict_wf d -> dict_wf (drop n d).
Proof.
  unfold dict_wf, dict_keys. rewrite <- (take_drop n d) at 1.
  rewrite fmap_app. intros H. apply NoDup_app in H. tauto.
Qed.

Lemma cache_store_wf {V} (k : Z) (v : V) (cache : dict V) :
  dict_wf cache -> dict_wf (cache_store k v cache).
Proof.
  intros Hwf. rewrite cache_store_eq.
  destruct (1000 <? _); [apply dict_wf_drop|]; now apply dict_wf_set.
Qed.

(** The bound is an invariant of the block. *)
Lemma cache_store_bound {V} (k : Z) (v : V) (cache : dict V) :
  dict_len cache <= 1000 -> dict_len (cache_store k v cache) <= 1000.
Proof.
  intros Hlen. rewrite cache_store_eq.
  pose proof (dict_len_set k v cache) as Hset.
  destruct (Nat.ltb_spec 1000 (dict_len (dict_set k v cache))) as [Hgt|Hle].
  - unfold dict_len in *. rewrite length_drop. lia.
  - exact Hle.
Qed.

(** A stored result is found again: the new entry is the newest, and the
    eviction takes the oldest. *)
Lemma dict_get_cache_store {V} (k : Z) (v : V) (cache : dict V) :
  dict_get k cache = None -> dict_get k (cache_store k v cache) = Some v.
Proof.
  intros Hmiss. apply dict_get_None in Hmiss.
  rewrite cache_store_eq, (dict_set_new _ _ _ Hmiss).
  destruct (Nat.ltb_spec 1000 (dict_len (cache ++ [(k, v)]))) as [Hgt|Hle].
  - unfold dict_len in Hgt. rewrite length_app in Hgt. simpl in Hgt.
    rewrite drop_app_le by lia.
    assert (Hk : k ∉ dict_keys (drop 100 cache)).
    { intros Hin. apply Hmiss. unfold dict_keys in *.
      rewrite <- (take_drop 100 cache), fmap_app. apply elem_of_app. now right. }
    rewrite <- (dict_set_new k v _ Hk). apply dict_get_set_eq.
  - rewrite <- (dict_set_new k v _ Hmiss). apply dict_get_set_eq.
Qed.

Lemma put_all_bound {V} (puts : list (Z * V)) (cache : dict V) :
  dict_len cache <= 1000 -> dict_len (put_all puts cache) <= 1000.
Proof.
  revert cache. induction puts as [|[k v] puts IH]; intros cache Hlen; simpl.
  - exact Hlen.
  - apply IH. now apply cache_store_bound.
Qed.

(** The keys stay pairwise distinct: the list is a dictionary throughout. *)
Lemma put_all_wf {V} (puts : list (Z * V)) (cache : dict V) :
  dict_wf cache -> dict_wf (put_all puts cache).
Proof.
  revert cache. induction puts as [|[k v] puts IH]; intros cache Hwf; simpl.
  - exact Hwf.
  - apply IH. now apply cache_store_wf.
Qed.

(** Below the limit nothing is evicted: new keys line up in arrival order. *)
Lemma put_all_fill {V} (kvs : list (Z * V)) (cache : dict V) :
  dict_wf (cache ++ kvs) ->
  dict_len cache + List.length kvs <= 1000 ->
  put_all kvs cache = cache ++ kvs.
Proof.
  revert cache. induction kvs as [|[k v] kvs IH]; intros cache Hwf Hlen; simpl.
  - now rewrite app_nil_r.
  - simpl in Hlen.
    assert (Hk : k ∉ dict_keys cache).
    { unfold dict_wf, dict_keys in Hwf. rewrite fmap_app in Hwf.
      apply NoDup_app in Hwf as (_ & Hdisj & _). intros Hin.
      apply (Hdisj k Hin). simpl. apply list_elem_of_here. }
    assert (Hstore : cache_store k v cache = cache ++ [(k, v)]).
    { rewrite cache_store_eq, (dict_set_new _ _ _ Hk).
      destruct (Nat.ltb_spec 1000 (dict_len (cache ++ [(k, v)]))) as [Hgt|_];
        [|reflexivity].
      unfold dict_len in *. rewrite length_app in Hgt. simpl in Hgt. lia. }
    rewrite Hstore, IH.
    + now rewrite <- app_assoc.
    + now rewrite <- app_assoc.
    + unfold dict_len in *. rewrite length_app. simpl. lia.
Qed.

(** C4. The capacity and eviction contract of each result cache (both run
    the same block, [cache_store], under the lock). Starting from an empty
    cache, after any run of stores the cache holds at most 1000 entries.
    Storing 1001 distinct keys evicts on the last store exactly the 100 keys
    stored first: what is left is the run without its first 100 entries, 901
    of them (1000 - 100 + 1); the first 100 keys are no longer found, every
    later one still is; up to the 1000th store nothing was evicted. The
    order is that of insertion, not of access: a hit in
    [get_sentiment_cached] or [get_summary_cached] returns the stored result
    and leaves the caches as they were. The two getters put through this
    very block: on a miss on which the analyzer returns, the cache
    afterwards is [cache_store] of the key and the result on the cache
    before, and nothing else of the state changes but the count of
    invocations; when the analyzer raises nothing is stored. So a getter
    never takes a cache of at most 1000 entries beyond 1000. *)
Theorem cache_capacity_and_fifo_eviction
    {V : Type} (kvs : list (Z * V)) :
  NoDup (dict_keys kvs) ->
  List.length kvs = 1001 ->
  (forall puts : list (Z * V), dict_len (put_all puts []) <= 1000)
  /\ put_all (take 1000 kvs) [] = take 1000 kvs
  /\ put_all kvs [] = drop 100 kvs
  /\ dict_len (put_all kvs []) = 901
  /\ dict_len (put_all kvs []) <= 1000 - 100 + 1
  /\ (forall k, k ∈ take 100 (dict_keys kvs) -> dict_get k (put_all kvs []) = None)
  /\ (forall k v, (k, v) ∈ drop 100 kvs -> dict_get k (put_all kvs []) = Some v)
  /\ (forall text m r,
        dict_get (hash text) (sentiment_cache m) = Some r ->
        get_sentiment_cached text m = (Returns r, m))
  /\ (forall text m r,
        dict_get (hash text) (summary_cache m) = Some r ->
        get_summary_cached text m = (Returns r, m))
  /\ (forall text m,
        dict_get (hash text) (sentiment_cache m) = None ->
        get_sentiment_cached text m =
          match sentiment_analyzer (sentiment_calls m) text with
          | Returns result =>
              (Returns result,
               {| sentiment_cache :=
                    cache_store (hash text) result (sentiment_cache m);
                  summary_cache := summary_cache m;
                  sentiment_calls := S (sentiment_calls m);
                  summary_calls := summary_calls m |})
          | Raises =>
              (Raises,
               {| sentiment_cache := sentiment_cache m;
                  summary_cache := summary_cache m;
                  sentiment_calls := S (sentiment_calls m);
                  summary_calls := summary_calls m |})
          end)
  /\ (forall text m,
        dict_get (hash text) (summary_cache m) = None ->
        get_summary_cached text m =
          match summarizer (summary_calls m) text with
          | Returns result =>
              (Returns result,
               {| sentiment_cache := sentiment_cache m;
                  summary_cache :=
                    cache_store (hash text) result (summary_cache m);
                  sentiment_calls := sentiment_calls m;
                  summary_calls := S (summary_calls m) |})
          | Raises =>
              (Raises,
               {| sentiment_cache := sentiment_cache m;
                  summary_cache := summary_cache m;
                  sentiment_calls := sentiment_calls m;
                  summary_calls := S (summary_calls m) |})
          end)
  /\ (forall text m,
        dict_len (sentiment_cache m) <= 1000 ->
        dict_len (sentiment_cache (snd (get_sentiment_cached text m))) <= 1000)
  /\ (forall text m,
        dict_len (summary_cache m) <= 1000 ->
        dict_len (summary_cache (snd (get_summary_cached text m))) <= 1000).
Proof.
  intros Hnodup Hlen.
  assert (Hfill : put_all (take 1000 kvs) [] = take 1000 kvs).
  { rewrite put_all_fill; [reflexivity| |].
    - simpl. unfold dict_wf, dict_keys in *. rewrite <- (take_drop 1000 kvs) in Hnodup.
      rewrite fmap_app in Hnodup. apply NoDup_app in Hnodup. tauto.
    - unfold dict_len. simpl. rewrite length_take. lia. }
  assert (Hall : put_all kvs [] = drop 100 kvs).
  { destruct (drop 1000 kvs) as [|[k v] tl] eqn:Hdrop.
    { apply (f_equal (@List.length _)) in Hdrop. rewrite length_drop in Hdrop.
      simpl in Hdrop. lia. }
    assert (tl = []) as ->.
    { apply (f_equal (@List.length _)) in Hdrop. rewrite length_drop in Hdrop.
      simpl in Hdrop. destruct tl; [reflexivity | simpl in Hdrop; lia]. }
    assert (Hsplit : kvs = take 1000 kvs ++ [(k, v)])
      by (now rewrite <- Hdrop, take_drop).
    rewrite Hsplit at 1. unfold put_all. rewrite fold_left_app.
    fold (put_all (take 1000 kvs) (@nil (Z * V))). rewrite Hfill. simpl.
    assert (Hk : k ∉ dict_keys (take 1000 kvs)).
    { unfold dict_keys in *. rewrite Hsplit, fmap_app in Hnodup.
      apply NoDup_app in Hnodup as (_ & Hdisj & _). intros Hin.
      apply (Hdisj k Hin). simpl. apply list_elem_of_here. }
    rewrite cache_store_eq, (dict_set_new _ _ _ Hk), <- Hsplit.
    destruct (Nat.ltb_spec 1000 (dict_len kvs)) as [_|Hle]; [reflexivity|].
    unfold dict_len in Hle. lia. }
  assert (Hwf : dict_wf (drop 100 kvs)) by (now apply dict_wf_drop).
  split; [intros puts; apply put_all_bound; simpl; lia|].
  split; [exact Hfill|]. split; [exact Hall|]. rewrite Hall.
  assert (Hsize : dict_len (drop 100 kvs) = 901)
    by (unfold dict_len; rewrite length_drop; lia).
  split; [exact Hsize|]. split; [rewrite Hsize; lia|].
  split; [|split; [|split; [|split; [|split; [|split; [|split]]]]]].
  - intros k Hin. apply dict_get_None. intros Hin'.
    unfold dict_keys in *. rewrite <- (take_drop 100 kvs), fmap_app in Hnodup.
    apply NoDup_app in Hnodup as (_ & Hdisj & _).
    rewrite <- fmap_take in Hin. exact (Hdisj k Hin Hin').
  - intros k v Hin. now apply dict_get_Some.
  - intros text m r. apply get_sentiment_cached_hit.
  - intros text m r. apply get_summary_cached_hit.
  - intros text m. apply get_sentiment_cached_miss.
  - intros text m. apply get_summary_cached_miss.
  - intros text m Hbound.
    destruct (dict_get (hash text) (sentiment_cache m)) as [r|] eqn:Hget.
    + rewrite (get_sentiment_cached_hit _ _ _ Hget). exact Hbound.
    + rewrite (get_sentiment_cached_miss _ _ Hget).
      destruct (sentiment_analyzer (sentiment_calls m) text);
        cbn [snd sentiment_cache]; [now apply cache_store_bound | exact Hbound].
  - intros text m Hbound.
    destruct (dict_get (hash text) (summary_cache m)) as [r|] eqn:Hget.
    + rewrite (get_summary_cached_hit _ _ _ Hget). exact Hbound.
    + rewrite (get_summary_cached_miss _ _ Hget).
      destruct (summarizer (summary_calls m) text);
        cbn [snd summary_cache]; [now apply cache_store_bound | exact Hbound].
Qed.

(** ** A second call with the same text *)

(** After a miss on which the analyzer returned, the same text hits. *)
Lemma get_sentiment_cached_again (text : string) (m : OptimizedAIModels) r :
  dict_get (hash text) (sentiment_cache m) = None ->
  sentiment_analyzer (sentiment_calls m) text = Returns r ->
  exists m1,
    get_sentiment_cached text m = (Returns r, m1)
    /\ sentiment_calls m1 = S (sentiment_calls m)
    /\ dict_get (hash text) (sentiment_cache m1) = Some r.
Proof.
  intros Hmiss Hret. rewrite (get_sentiment_cached_miss _ _ Hmiss), Hret.
  eexists. split; [reflexivity|]. cbn [sentiment_calls sentiment_cache].
  split; [reflexivity|]. now apply dict_get_cache_store.
Qed.

Lemma get_summary_cached_again (text : string) (m : OptimizedAIModels) r :
  dict_get (hash text) (summary_cache m) = None ->
  summarizer (summary_calls m) text = Returns r ->
  exists m1,
    get_summary_cached text m = (Returns r, m1)
    /\ summary_calls m1 = S (summary_calls m)
    /\ dict_get (hash text) (summary_cache m1) = Some r.
Proof.
  intros Hmiss Hret. rewrite (get_summary_cached_miss _ _ Hmiss), Hret.
  eexists. split; [reflexivity|]. cbn [summary_calls summary_cache].
  split; [reflexivity|]. now apply dict_get_cache_store.
Qed.

(** C5, as the code has it. Take a text whose key is in neither cache, and
    analyzers that return on it (they raise nothing). Processing the text
    twice in a row invokes the sentiment analyzer exactly once. It invokes
    the summarizer exactly once when the text (cut to 300 characters) has
    three words or more, and not at all when it has fewer: such a text never
    reaches the summarizer or its cache. The second call changes neither
    cache nor counter, and both calls return the same label, score and
    summary. *)
Theorem second_call_served_from_cache
    (now now' st st' T : string) (m : OptimizedAIModels)
    (r_sentiment : sentiment_result) (r_summary : summary_result) :
  let raw := if 300 <? Py.len T then Py.slice_to 300 T else T in
  dict_get (hash raw) (sentiment_cache m) = None ->
  sentiment_analyzer (sentiment_calls m) raw = Returns r_sentiment ->
  (3 <= List.length (Py.split raw) ->
   dict_get (hash raw) (summary_cache m) = None
   /\ summarizer (summary_calls m) raw = Returns r_summary) ->
  exists d1 m1 d2,
    process_comment_async now st T m = (Returns d1, m1)
    /\ process_comment_async now' st' T m1 = (Returns d2, m1)
    /\ sentiment_calls m1 = S (sentiment_calls m)
    /\ summary_calls m1 =
         (if List.length (Py.split raw) <? 3 then summary_calls m
          else S (summary_calls m))
    /\ sentiment_label d2 = sentiment_label d1
    /\ sentiment_score d2 = sentiment_score d1
    /\ summary d2 = summary d1.
Proof.
  intros raw Hmiss Hret Hsum.
  destruct (get_sentiment_cached_again _ _ _ Hmiss Hret) as (ma & Hget & Hcalls & Hhit).
  destruct (get_sentiment_cached_frame _ _ _ _ Hget) as [Hfc Hfn].
  assert (Ha1 : analyze_sentiment_fast raw m = (Returns (read_sentiment r_sentiment), ma))
    by (now rewrite analyze_sentiment_fast_eq, Hget).
  assert (Ha2 : forall m', sentiment_cache m' = sentiment_cache ma ->
            analyze_sentiment_fast raw m' = (Returns (read_sentiment r_sentiment), m')).
  { intros m' Hc. rewrite analyze_sentiment_fast_eq.
    rewrite (get_sentiment_cached_hit raw m' r_sentiment); [reflexivity|].
    now rewrite Hc. }
  assert (Hgen : exists s m1,
            generate_summary_fast raw ma = (Returns s, m1)
            /\ generate_summary_fast raw m1 = (Returns s, m1)
            /\ summary_calls m1 =
                 (if List.length (Py.split raw) <? 3 then summary_calls m
                  else S (summary_calls m))).
  { rewrite !generate_summary_fast_eq.
    destruct (Nat.ltb_spec (List.length (Py.split raw)) 3) as [Hshort|Hlong].
    - exists (short_summary raw), ma.
      rewrite generate_summary_fast_eq.
      assert ((List.length (Py.split raw) <? 3) = true) as -> by (now apply Nat.ltb_lt).
      auto.
    - destruct (Hsum Hlong) as [Hmiss' Hret'].
      rewrite <- Hfc in Hmiss'. rewrite <- Hfn in Hret'.
      destruct (get_summary_cached_again _ _ _ Hmiss' Hret') as (mb & Hg & Hn & Hh).
      rewrite Hg. 
      assert (Hg2 : get_summary_cached raw mb = (Returns r_summary, mb))
        by (now apply get_summary_cached_hit).
      destruct r_summary as [s|]; eexists _, mb;
        (split; [reflexivity|]); rewrite generate_summary_fast_eq;
        assert ((List.length (Py.split raw) <? 3) = false) as ->
          by (now apply Nat.ltb_ge);
        rewrite Hg2; (split; [reflexivity|]); rewrite Hn; now rewrite Hfn. }
  destruct Hgen as (s & m1 & Hg1 & Hg2 & Hn).
  destruct (generate_summary_fast_frame _ _ _ _ Hg1) as [Hgc Hgn].
  destruct (read_sentiment r_sentiment) as [l sc] eqn:Hread.
  eexists _, m1, _. split; [|split].
  - unfold process_comment_async, bind. fold raw. rewrite Ha1, Hg1. reflexivity.
  - unfold process_comment_async, bind. fold raw.
    rewrite (Ha2 m1 Hgc), Hg2. reflexivity.
  - cbn [sentiment_label sentiment_score summary].
    rewrite Hgn, Hcalls, Hn. auto.
Qed.

(** A call that returned is repeated as a hit. *)
Lemma get_sentiment_cached_stable (text : string) (m m1 : OptimizedAIModels) r :
  get_sentiment_cached text m = (Returns r, m1) ->
  get_sentiment_cached text m1 = (Returns r, m1).
Proof.
  destruct (dict_get (hash text) (sentiment_cache m)) as [v|] eqn:Hget.
  - rewrite (get_sentiment_cached_hit _ _ _ Hget). intros [= <- <-].
    now apply get_sentiment_cached_hit.
  - destruct (sentiment_analyzer (sentiment_calls m) text) as [v|] eqn:Hret.
    + destruct (get_sentiment_cached_again _ _ _ Hget Hret) as (m2 & -> & _ & Hhit).
      intros [= <- <-]. now apply get_sentiment_cached_hit.
    + rewrite (get_sentiment_cached_miss _ _ Hget), Hret. discriminate.
Qed.

Lemma get_summary_cached_stable (text : string) (m m1 : OptimizedAIModels) r :
  get_summary_cached text m = (Returns r, m1) ->
  get_summary_cached text m1 = (Returns r, m1).
Proof.
  destruct (dict_get (hash text) (summary_cache m)) as [v|] eqn:Hget.
  - rewrite (get_summary_cached_hit _ _ _ Hget). intros [= <- <-].
    now apply get_summary_cached_hit.
  - destruct (summarizer (summary_calls m) text) as [v|] eqn:Hret.
    + destruct (get_summary_cached_again _ _ _ Hget Hret) as (m2 & -> & _ & Hhit).
      intros [= <- <-]. now apply get_summary_cached_hit.
    + rewrite (get_summary_cached_miss _ _ Hget), Hret. discriminate.
Qed.

(** ** The short-text rule *)

(** C8. A text of fewer than three whitespace-separated words is not
    summarized: [generate_summary_fast] returns the text itself when it has
    at most 50 characters, and its first 47 characters followed by an
    ellipsis (50 characters in all) when it is longer; the state - both
    caches and both invocation counters - is left exactly as it was, whatever
    the summarizer and the summary cache are. In particular ["Good idea."]
    (two words) is its own summary, also through [process_comment_async]. *)
Theorem short_text_skips_summarization (m : OptimizedAIModels) :
  (forall text : string,
     List.length (Py.split text) < 3 ->
     generate_summary_fast text m =
       (Returns (if Py.len text <=? 50 then text
                 else Py.slice_to 47 text +:+ "..."), m)
     /\ (50 < Py.len text ->
         Py.len (Py.slice_to 47 text +:+ "...") = 50))
  /\ generate_summary_fast "Good idea." m = (Returns "Good idea.", m)
  /\ (forall now st : string,
        exists data m',
          process_comment_async now st "Good idea." m = (Returns data, m')
          /\ summary data = "Good idea."
          /\ summary_cache m' = summary_cache m
          /\ summary_calls m' = summary_calls m).
Proof.
  assert (Hgen : forall text : string,
            List.length (Py.split text) < 3 ->
            generate_summary_fast text m =
              (Returns (if Py.len text <=? 50 then text
                        else Py.slice_to 47 text +:+ "..."), m)).
  { intros text Hshort. rewrite generate_summary_fast_eq.
    assert ((List.length (Py.split text) <? 3) = true) as ->
      by (now apply Nat.ltb_lt).
    unfold short_summary. destruct (Nat.leb_spec (Py.len text) 50) as [Hle|Hgt].
    - now rewrite slice_to_all.
    - reflexivity. }
  assert (Hgood : forall m0, generate_summary_fast "Good idea." m0
                             = (Returns "Good idea."%string, m0)).
  { intros m0. rewrite generate_summary_fast_eq. reflexivity. }
  split; [|split].
  - intros text Hshort. split; [now apply Hgen|].
    intros Hlong. rewrite len_append, len_slice_to.
    change (Py.len "...") with 3. lia.
  - apply Hgood.
  - intros now st.
    destruct (process_comment_async_eq now st "Good idea." m)
      as (l & sc & s & m1 & m2 & H).
    cbv zeta in H. change (if 300 <? Py.len "Good idea." then _ else _)
      with "Good idea."%string in H.
    destruct H as (Ha & Hs & _ & Hp).
    rewrite Hgood in Hs. injection Hs as <- <-.
    destruct (analyze_sentiment_fast_frame _ _ _ _ Ha) as [Hc Hn].
    eexists _, m1. split; [exact Hp|]. cbn [summary]. auto.
Qed.

(** ** The keyword classifier *)

Lemma lower_char_idempotent (c : ascii) :
  Py.lower_char (Py.lower_char c) = Py.lower_char c.
Proof. destruct c as [[] [] [] [] [] [] [] []]; reflexivity. Qed.

Lemma lower_idempotent (s : string) : Py.lower (Py.lower s) = Py.lower s.
Proof.
  induction s as [|c s IH]; simpl; [reflexivity|].
  now rewrite lower_char_idempotent, IH.
Qed.

Ltac below_24 d H :=
  do 24 (destruct d as [|d]; [vm_compute; repeat split; reflexivity|]);
  exfalso; lia.

(** On binary64 the three values are 0.7999999999999999 for a difference of
    one, 0.8999999999999999 for two, and the cap 0.95 from three on. *)
Lemma confidence_values (d : nat) :
  1 <= d <= 23 ->
  confidence d =
    if d =? 1 then 0.7999999999999999%float else
    if d =? 2 then 0.8999999999999999%float else 0.95%float.
Proof.
  intros [H1 H]. destruct d as [|d]; [lia|].
  do 23 (destruct d as [|d]; [vm_compute; reflexivity|]). exfalso; lia.
Qed.

Lemma confidence_commutes (d : nat) :
  d <= 23 ->
  confidence d = Py.min 0.95 (0.7 + 0.1 * Py.float_of_nat d)%float.
Proof. intros H. below_24 d H. Qed.

Lemma confidence_valid (d : nat) : d <= 23 -> valid_score (confidence d).
Proof. intros H. unfold valid_score. below_24 d H. Qed.

(** The size of the intersection of the token set with a marker set is the
    number of marker words among the tokens. *)
Lemma size_intersection_markers (tokens markers : list string) :
  NoDup markers ->
  size ((list_to_set tokens : gset string) ∩ list_to_set markers)
  = List.length (List.filter (fun w => bool_decide (w ∈ tokens)) markers).
Proof.
  intros Hnodup.
  assert (Heq : (list_to_set tokens : gset string) ∩ list_to_set markers
                = list_to_set (List.filter (fun w => bool_decide (w ∈ tokens)) markers)).
  { apply set_eq. intros w.
    rewrite elem_of_intersection, !elem_of_list_to_set.
    rewrite (list_elem_of_In (List.filter _ _) w), filter_In.
    rewrite bool_decide_eq_true, <- list_elem_of_In. tauto. }
  rewrite Heq. apply size_list_to_set.
  apply NoDup_ListNoDup, List.NoDup_filter, NoDup_ListNoDup, Hnodup.
Qed.

Lemma filter_length_le {A} (f : A -> bool) (l : list A) :
  List.length (List.filter f l) <= List.length l.
Proof. induction l as [|x l IH]; simpl; [lia|]. destruct (f x); simpl; lia. Qed.

Lemma keywords_distinct : NoDup positive_words /\ NoDup negative_words.
Proof. split; apply (bool_decide_unpack _); vm_compute; exact I. Qed.

Lemma marker_hits_bound (tokens : list string) :
  marker_hits positive_words tokens <= 22
  /\ marker_hits negative_words tokens <= 23.
Proof. split; apply filter_length_le. Qed.

(** The counts of the code are the counts of the spec. *)
Lemma FastSentimentAnalyzer_eq (text : string) (p n : nat) :
  p = marker_hits positive_words (Py.split (Py.lower text)) ->
  n = marker_hits negative_words (Py.split (Py.lower text)) ->
  FastSentimentAnalyzer text =
    if n <? p then Scores [ {| label := "POSITIVE"; score := confidence (p - n) |} ]
    else if p <? n then Scores [ {| label := "NEGATIVE"; score := confidence (n - p) |} ]
    else Scores [ {| label := "NEUTRAL"; score := 0.6%float |} ].
Proof.
  unfold marker_hits. intros Hp Hn.
  unfold FastSentimentAnalyzer, positive_keywords, negative_keywords.
  rewrite !size_intersection_markers by apply keywords_distinct.
  cbv zeta. rewrite <- Hp, <- Hn. unfold confidence.
  destruct (n <? p); [reflexivity|]. destruct (p <? n); reflexivity.
Qed.

(** C6, as the code has it. The keyword classifier is the spec's heuristic
    classifier applied to the whitespace tokens of the lowercased text (the
    text is lowercased first; on the text as given the two differ): with [p]
    and [n] the numbers of positive and negative marker words among those
    tokens, the artifact read from its result is positive when [p > n],
    negative when [n > p], neutral when [p = n], with confidence
    [min(0.95, 0.7 + 0.1 * |p - n|)] computed on binary64 when [p <> n] and
    0.6 on a tie. The two marker sets are disjoint. *)
Theorem FastSentimentAnalyzer_is_keyword_classifier (text : string) :
  read_sentiment (FastSentimentAnalyzer text)
  = HeuristicKeywordClassifier (Py.split (Py.lower text))
  /\ positive_keywords ## negative_keywords.
Proof.
  split.
  - destruct (marker_hits_bound (Py.split (Py.lower text))) as [Hp Hn].
    rewrite (FastSentimentAnalyzer_eq text _ _ eq_refl eq_refl).
    unfold HeuristicKeywordClassifier. cbv zeta.
    set (p := marker_hits positive_words _) in *.
    set (n := marker_hits negative_words _) in *.
    destruct (n <? p); [|destruct (p <? n)].
    + rewrite <- confidence_commutes by lia. reflexivity.
    + rewrite <- confidence_commutes by lia. reflexivity.
    + reflexivity.
  - apply (bool_decide_unpack _). vm_compute. exact I.
Qed.

(** C10. The keyword classifier does not see case: a text and its lowercased
    form get the same result, label and confidence alike, since the text is
    lowercased before it is split and matched. *)
Theorem FastSentimentAnalyzer_case_insensitive (text : string) :
  FastSentimentAnalyzer text = FastSentimentAnalyzer (Py.lower text)
  /\ read_sentiment (FastSentimentAnalyzer text)
     = read_sentiment (FastSentimentAnalyzer (Py.lower text)).
Proof.
  assert (H : FastSentimentAnalyzer text = FastSentimentAnalyzer (Py.lower text)).
  { unfold FastSentimentAnalyzer. now rewrite lower_idempotent. }
  split; [exact H | now rewrite <- H].
Qed.

(** ** The sentiment artifact *)

(** The order of the floats: [<] is transitive and irreflexive. *)
Lemma SFltb_trans (a b c : spec_float) :
  SFltb a b = true -> SFltb b c = true -> SFltb a c = true.
Proof.
  clear. unfold SFltb, SFcompare.
  destruct a as [sa|sa| |sa ma ea], b as [sb|sb| |sb mb eb],
           c as [sc|sc| |sc mc ec];
    try discriminate; try reflexivity;
    repeat match goal with s : bool |- _ => destruct s end;
    try discriminate; try reflexivity;
    destruct (Z.compare_spec ea eb), (Z.compare_spec eb ec),
             (Z.compare_spec ea ec);
    try discriminate; try reflexivity; try lia; subst;
    rewrite ?Pos.compare_cont_spec in *; unfold Pos.switch_Eq in *;
    destruct (Pos.compare_spec ma mb), (Pos.compare_spec mb mc),
             (Pos.compare_spec ma mc);
    cbn; try discriminate; try reflexivity; try lia.
Qed.

Lemma SFltb_irrefl (a : spec_float) : SFltb a a = false.
Proof.
  clear. unfold SFltb, SFcompare.
  destruct a as [sa|sa| |sa ma ea]; try reflexivity;
    destruct sa; try reflexivity;
    rewrite Z.compare_refl, Pos.compare_cont_spec, Pos.compare_refl; reflexivity.
Qed.

Lemma float_ltb_trans (a b c : float) :
  (a <? b)%float = true -> (b <? c)%float = true -> (a <? c)%float = true.
Proof. clear. rewrite !ltb_spec. apply SFltb_trans. Qed.

Lemma float_ltb_irrefl (a : float) : (a <? a)%float = false.
Proof. clear. rewrite ltb_spec. apply SFltb_irrefl. Qed.

(** No entry has a greater score than the one [max] picks. *)
Lemma max_by_score_greatest (best : entry) (results : list entry) (y : entry) :
  y ∈ best :: results ->
  (score (max_by_score best results) <? score y)%float = false.
Proof.
  clear.
  assert (Hgen : forall results best (seen : list entry),
            (forall z, z ∈ seen -> (score best <? score z)%float = false) ->
            forall z, z ∈ seen ++ results ->
                      (score (max_by_score best results) <? score z)%float = false).
  { clear. induction results as [|x rest IH]; intros best seen Hseen z Hz.
    - rewrite app_nil_r in Hz. cbn [max_by_score]. auto.
    - cbn [max_by_score].
      apply (IH _ (seen ++ [x])); [|now rewrite <- app_assoc].
      intros w Hw. apply elem_of_app in Hw as [Hw|Hw].
      + destruct (score best <? score x)%float eqn:Hlt; [|auto].
        destruct (score x <? score w)%float eqn:Hxw; [|reflexivity].
        rewrite <- (Hseen w Hw). symmetry.
        exact (float_ltb_trans _ _ _ Hlt Hxw).
      + apply list_elem_of_singleton in Hw as ->.
        destruct (score best <? score x)%float eqn:Hlt;
          [apply float_ltb_irrefl | exact Hlt]. }
  intros Hy. apply (Hgen results best [best]); [|exact Hy].
  intros z Hz. apply list_elem_of_singleton in Hz as ->. apply float_ltb_irrefl.
Qed.

Lemma max_by_score_elem (best : entry) (results : list entry) :
  max_by_score best results ∈ best :: results.
Proof.
  revert best. induction results as [|x rest IH]; intros best; simpl.
  - apply list_elem_of_here.
  - specialize (IH (if (score best <? score x)%float then x else best)).
    apply elem_of_cons in IH as [->|IH].
    + destruct (score best <? score x)%float;
        [apply list_elem_of_further, list_elem_of_here | apply list_elem_of_here].
    + now apply list_elem_of_further, list_elem_of_further.
Qed.

(** The artifact is the fallback or the mapped label and the score of one of
    the entries: nothing else is checked. *)
Lemma read_sentiment_cases (r : sentiment_result) :
  read_sentiment r = ("neutral"%string, 0.5%float)
  \/ exists results e,
       (r = Scores results \/ exists others, r = Nested (results :: others))
       /\ e ∈ results
       /\ read_sentiment r =
            (default (Py.lower (label e)) (label_mapping (label e)), score e).
Proof.
  destruct r as [[|x rest]|[|[|x rest] others]|]; cbn [read_sentiment]; auto.
  - right. exists (x :: rest), (max_by_score x rest).
    split; [auto|]. split; [apply max_by_score_elem | reflexivity].
  - right. exists (x :: rest), (max_by_score x rest).
    split; [eauto|]. split; [apply max_by_score_elem | reflexivity].
Qed.

Lemma fallback_sentiment_valid : valid_label "neutral" /\ valid_score 0.5.
Proof. split; [right; left; reflexivity | split; reflexivity]. Qed.

Lemma read_sentiment_ok (r : sentiment_result) :
  result_ok r ->
  valid_label (fst (read_sentiment r)) /\ valid_score (snd (read_sentiment r)).
Proof.
  intros Hok. destruct (read_sentiment_cases r)
    as [->|(results & e & Hr & He & ->)]; [exact fallback_sentiment_valid|].
  cbn [fst snd]. assert (Hall : Forall entry_ok results).
  { destruct Hr as [->|[others ->]]; exact Hok. }
  rewrite Forall_forall in Hall. exact (Hall e He).
Qed.

Lemma FastSentimentAnalyzer_ok (text : string) :
  result_ok (FastSentimentAnalyzer text).
Proof.
  destruct (marker_hits_bound (Py.split (Py.lower text))) as [Hp Hn].
  rewrite (FastSentimentAnalyzer_eq text _ _ eq_refl eq_refl).
  set (p := marker_hits positive_words _) in *.
  set (n := marker_hits negative_words _) in *.
  destruct (n <? p); [|destruct (p <? n)]; cbn [result_ok];
    apply Forall_singleton; split; cbn [label score].
  - left. reflexivity.
  - apply confidence_valid. lia.
  - right. right. reflexivity.
  - apply confidence_valid. lia.
  - right. left. reflexivity.
  - split; reflexivity.
Qed.

Lemma cache_store_ok (k : Z) (r : sentiment_result) (cache : dict sentiment_result) :
  result_ok r -> cache_ok cache -> cache_ok (cache_store k r cache).
Proof.
  unfold cache_ok. intros Hr Hc. rewrite cache_store_eq.
  assert (Hset : Forall (fun kv => result_ok (snd kv)) (dict_set k r cache)).
  { clear -Hr Hc. induction Hc as [|[k' v'] d Hv Hd IH]; simpl.
    - now constructor.
    - destruct (Z.eqb k' k); constructor; auto. }
  destruct (1000 <? _); [now apply Forall_drop | exact Hset].
Qed.

Lemma dict_get_ok (k : Z) (r : sentiment_result) (cache : dict sentiment_result) :
  cache_ok cache -> dict_get k cache = Some r -> result_ok r.
Proof.
  unfold cache_ok. induction 1 as [|[k' v'] d Hv Hd IH]; simpl; [discriminate|].
  destruct (Z.eqb k' k); [intros [= <-]; exact Hv | exact IH].
Qed.

(** C9, as the code has it. [analyze_sentiment_fast] always returns an
    artifact, and this is what it is. From a result [r] (the cached one on a
    hit, the analyzer's on a miss) it is the reading of [r]: [neutral], [0.5]
    when [r] cannot be read, and otherwise the label (mapped by the table,
    or else lowercased) and the score of the entry that [max] picks, an
    entry than which none has a greater score, both passed on unchecked. When the analyzer
    raises it is [neutral], [0.5]. So the label is one of positive, neutral,
    negative and the score lies in [0, 1] whenever every entry the analyzer
    returns, and every entry already in the cache, has such a label and
    score; the cache then keeps that property. The results of the fallback
    keyword classifier always are of this kind. *)
Theorem sentiment_artifact_valid (text : string) (m : OptimizedAIModels) :
  (forall r,
     dict_get (hash text) (sentiment_cache m) = Some r ->
     analyze_sentiment_fast text m = (Returns (read_sentiment r), m))
  /\ (forall r,
        dict_get (hash text) (sentiment_cache m) = None ->
        sentiment_analyzer (sentiment_calls m) text = Returns r ->
        fst (analyze_sentiment_fast text m) = Returns (read_sentiment r))
  /\ (dict_get (hash text) (sentiment_cache m) = None ->
      sentiment_analyzer (sentiment_calls m) text = Raises ->
      fst (analyze_sentiment_fast text m) = Returns ("neutral"%string, 0.5%float))
  /\ (forall r, unreadable r -> read_sentiment r = ("neutral"%string, 0.5%float))
  /\ (forall x rest others,
        read_sentiment (Scores (x :: rest))
        = (default (Py.lower (label (max_by_score x rest)))
                   (label_mapping (label (max_by_score x rest))),
           score (max_by_score x rest))
        /\ read_sentiment (Nested ((x :: rest) :: others))
           = read_sentiment (Scores (x :: rest))
        /\ max_by_score x rest ∈ x :: rest
        /\ forall y, y ∈ x :: rest ->
                     (score (max_by_score x rest) <? score y)%float = false)
  /\ ((forall n t r, sentiment_analyzer n t = Returns r -> result_ok r) ->
      cache_ok (sentiment_cache m) ->
      exists l sc m',
        analyze_sentiment_fast text m = (Returns (l, sc), m')
        /\ valid_label l /\ valid_score sc
        /\ cache_ok (sentiment_cache m'))
  /\ (forall t, result_ok (FastSentimentAnalyzer t)).
Proof.
  split; [|split; [|split; [|split; [|split; [|split]]]]].
  - intros r Hget. rewrite analyze_sentiment_fast_eq.
    rewrite (get_sentiment_cached_hit _ _ _ Hget). reflexivity.
  - intros r Hget Hret. rewrite analyze_sentiment_fast_eq.
    rewrite (get_sentiment_cached_miss _ _ Hget), Hret. reflexivity.
  - intros Hget Hraise. rewrite analyze_sentiment_fast_eq.
    rewrite (get_sentiment_cached_miss _ _ Hget), Hraise. reflexivity.
  - intros r Hbad.
    destruct r as [[|x l]|[|[|x l] ls]|]; try reflexivity; destruct Hbad.
  - intros x rest others. split; [reflexivity|]. split; [reflexivity|].
    split; [apply max_by_score_elem|].
    intros y Hy. apply max_by_score_greatest, Hy.
  - intros Hanalyzer Hcache. rewrite analyze_sentiment_fast_eq.
    destruct (dict_get (hash text) (sentiment_cache m)) as [r|] eqn:Hget.
    + rewrite (get_sentiment_cached_hit _ _ _ Hget).
      destruct (read_sentiment r) as [l sc] eqn:Hread.
      pose proof (read_sentiment_ok r (dict_get_ok _ _ _ Hcache Hget)) as Hok.
      rewrite Hread in Hok. exists l, sc, m. tauto.
    + rewrite (get_sentiment_cached_miss _ _ Hget).
      destruct (sentiment_analyzer (sentiment_calls m) text) as [r|] eqn:Hret.
      * destruct (read_sentiment r) as [l sc] eqn:Hread.
        pose proof (read_sentiment_ok r (Hanalyzer _ _ _ Hret)) as Hok.
        rewrite Hread in Hok. destruct Hok as [Hl Hs].
        eexists l, sc, _. split; [reflexivity|].
        cbn [sentiment_cache]. split; [exact Hl|]. split; [exact Hs|].
        apply cache_store_ok; eauto.
      * eexists _, _, _. split; [reflexivity|]. cbn [sentiment_cache].
        destruct fallback_sentiment_valid. tauto.
  - exact FastSentimentAnalyzer_ok.
Qed.

(** ** The truncation summarizer *)

Lemma rstrip_ends (s : string) :
  Py.rstrip s = EmptyString \/ ends_nonspace (Py.rstrip s) = true.
Proof.
  induction s as [|c s IH]; simpl; [now left|].
  destruct (Py.rstrip s) as [|c' r] eqn:Hr; simpl.
  - destruct (Py.isspace c) eqn:Hc; simpl; [now left | right; simpl; now rewrite Hc].
  - rewrite andb_false_r. right. simpl. destruct IH as [IH|IH]; [discriminate|].
    exact IH.
Qed.

Lemma strip_ends (s : string) :
  Py.strip s = EmptyString \/ ends_nonspace (Py.strip s) = true.
Proof. apply rstrip_ends. Qed.

Lemma rstrip_of_ends_nonspace (s : string) :
  ends_nonspace s = true -> Py.rstrip s = s.
Proof.
  induction s as [|c s IH]; simpl; [discriminate|].
  destruct s as [|c' s']; simpl in *.
  - intros Hc. apply negb_true_iff in Hc. now rewrite Hc.
  - intros H. rewrite (IH H). now rewrite andb_false_r.
Qed.

Lemma lstrip_ends_nonspace (s : string) :
  ends_nonspace s = true -> ends_nonspace (Py.lstrip s) = true.
Proof.
  induction s as [|c s IH]; [discriminate|].
  intros H. cbn [Py.lstrip]. destruct (Py.isspace c) eqn:Hc; [|exact H].
  apply IH. cbn [ends_nonspace] in H.
  destruct s as [|c' s']; [now rewrite Hc in H | exact H].
Qed.

Lemma ends_nonspace_not_blank (s : string) :
  ends_nonspace s = true -> Py.is_empty (Py.strip s) = false.
Proof.
  intros H. apply lstrip_ends_nonspace in H. unfold Py.strip.
  rewrite (rstrip_of_ends_nonspace _ H). now destruct (Py.lstrip s).
Qed.

Lemma ends_nonspace_snoc (piece : string) (a : ascii) :
  ends_nonspace (piece +:+ String a EmptyString) = negb (Py.isspace a).
Proof.
  induction piece as [|c piece IH]; [reflexivity|].
  change (String c piece +:+ String a "") with (String c (piece +:+ String a "")).
  simpl. destruct (piece +:+ String a "") eqn:Happ; [|exact IH].
  destruct piece; discriminate.
Qed.

(** Splitting on a punctuation mark followed by a space always leaves a piece
    that is not blank when the text ends in a character that is not
    whitespace: the last piece ends in it. *)
Lemma split_sep_go_has_sentence (c1 c2 : ascii) (s : string) :
  Py.isspace c2 = true ->
  forall (skip : nat) (piece : string),
    ends_nonspace (drop_chars skip s) = true ->
    Exists (fun p => Py.is_empty (Py.strip p) = false)
           (Py.split_sep_go (String c1 (String c2 EmptyString)) skip piece s).
Proof.
  intros Hc2. induction s as [|a rest IH]; intros skip piece Hends.
  - destruct skip; discriminate.
  - destruct skip as [|k]; [|exact (IH k piece Hends)].
    cbn [drop_chars] in Hends.
    cbn [Py.split_sep_go].
    destruct (String.prefix (String c1 (String c2 "")) (String a rest)) eqn:Hpre.
    + apply Exists_cons_tl. change (Py.len (String c1 (String c2 "")) - 1) with 1.
      apply IH. cbn [String.prefix] in Hpre.
      destruct (ascii_dec c1 a) as [->|]; [|discriminate].
      destruct rest as [|b rest']; cbn [String.prefix] in Hpre; [discriminate|].
      destruct (ascii_dec c2 b) as [->|]; [|discriminate].
      cbn [drop_chars]. cbn [ends_nonspace Py.is_empty] in Hends.
      destruct rest' as [|b' rest'']; [now rewrite Hc2 in Hends | exact Hends].
    + destruct rest as [|b rest'].
      * cbn [Py.split_sep_go]. apply Exists_cons_hd.
        apply ends_nonspace_not_blank. rewrite ends_nonspace_snoc.
        exact Hends.
      * apply IH. exact Hends.
Qed.

Lemma sentences_of_nonempty (text : string) :
  ends_nonspace text = true ->
  existsb (fun d => Py.contains d text) [". "; "! "; "? "] = true ->
  sentences_of [". "; "! "; "? "] text <> [].
Proof.
  intros Hends Hfound.
  assert (Hpieces : forall c1,
            map Py.strip
              (List.filter (fun s => negb (Py.is_empty (Py.strip s)))
                 (Py.split_sep (String c1 " ") text)) <> []).
  { intros c1 Hnil. apply map_eq_nil in Hnil.
    pose proof (split_sep_go_has_sentence c1 " " text eq_refl 0 "" Hends) as Hex.
    apply Exists_exists in Hex as (p & Hin & Hp).
    assert (Hin' : In p (List.filter (fun s => negb (Py.is_empty (Py.strip s)))
                           (Py.split_sep (String c1 " ") text))).
    { apply filter_In. split; [now apply list_elem_of_In | now rewrite Hp]. }
    rewrite Hnil in Hin'. exact Hin'. }
  cbn [sentences_of existsb] in *.
  destruct (Py.contains ". " text); [apply Hpieces|].
  destruct (Py.contains "! " text); [apply Hpieces|].
  destruct (Py.contains "? " text); [apply Hpieces | discriminate].
Qed.

Lemma sentences_of_first_delimiter (text : string) :
  sentences_of [". "; "! "; "? "] text =
    match first_delimiter text with
    | Some d => sentences_on d text
    | None => []
    end.
Proof.
  unfold first_delimiter. cbn [sentences_of List.find].
  destruct (Py.contains ". " text); [reflexivity|].
  destruct (Py.contains "! " text); [reflexivity|].
  destruct (Py.contains "? " text); reflexivity.
Qed.

Lemma first_delimiter_found (text : string) :
  existsb (fun d => Py.contains d text) [". "; "! "; "? "]
  = match first_delimiter text with Some _ => true | None => false end.
Proof.
  unfold first_delimiter. cbn [existsb List.find].
  destruct (Py.contains ". " text); [reflexivity|].
  destruct (Py.contains "! " text); [reflexivity|].
  destruct (Py.contains "? " text); reflexivity.
Qed.

Lemma sentences_on_head (delimiter text summary : string) (others : list string) :
  sentences_on delimiter text = summary :: others -> 1 <= Py.len summary.
Proof.
  unfold sentences_on. induction (Py.split_sep delimiter text) as [|p l IH];
    simpl; [discriminate|].
  destruct (Py.is_empty (Py.strip p)) eqn:Hp; simpl; [exact IH|].
  intros [= <- _]. destruct (Py.strip p); [discriminate | unfold Py.len; simpl; lia].
Qed.

(** C7, as the code has it. The truncation summarizer works on the text
    stripped of surrounding whitespace. With nothing left it answers
    ["No content"]. A stripped text of at most 50 characters is the summary.
    A longer one is split on the first of [". "], ["! "], ["? "] (a mark
    followed by a space, tried in that order) that occurs in it; the summary
    is the first piece that is not blank, stripped, and cut to its first 47
    characters and an ellipsis when it is longer than 47. When none of the
    three occurs the summary is the first 47 characters and an ellipsis. No
    summary is longer than 50 characters. *)
Theorem FastSummarizer_cases (text : string) :
  let t := Py.strip text in
  Py.len (FastSummarizer text) <= 50
  /\ (Py.len t = 0 -> FastSummarizer text = "No content"%string)
  /\ (1 <= Py.len t <= 50 -> FastSummarizer text = t)
  /\ (50 < Py.len t ->
      match first_delimiter t with
      | Some d =>
          exists summary others,
            sentences_on d t = summary :: others
            /\ 1 <= Py.len summary
            /\ FastSummarizer text =
                 (if 47 <? Py.len summary
                  then Py.slice_to 47 summary +:+ "..." else summary)
      | None => FastSummarizer text = Py.slice_to 47 t +:+ "..."
      end).
Proof.
  intros t.
  assert (Hguard : Py.is_empty text || (Py.len (Py.strip text) =? 0)
                   = (Py.len t =? 0)).
  { destruct text; reflexivity. }
  assert (Hlong : 50 < Py.len t ->
            match first_delimiter t with
            | Some d =>
                exists summary others,
                  sentences_on d t = summary :: others
                  /\ 1 <= Py.len summary
                  /\ FastSummarizer text =
                       (if 47 <? Py.len summary
                        then Py.slice_to 47 summary +:+ "..." else summary)
            | None => FastSummarizer text = Py.slice_to 47 t +:+ "..."
            end).
  { intros Hlen. unfold FastSummarizer. rewrite Hguard. fold t.
    assert ((Py.len t =? 0) = false) as -> by (apply Nat.eqb_neq; lia).
    assert ((Py.len t <=? 50) = false) as -> by (apply Nat.leb_gt; lia).
    assert ((47 <? Py.len t) = true) as -> by (apply Nat.ltb_lt; lia).
    assert (Hends : ends_nonspace t = true).
    { destruct (strip_ends text) as [He|He]; [|exact He].
      fold t in He. rewrite He in Hlen. unfold Py.len in Hlen. simpl in Hlen. lia. }
    pose proof (sentences_of_nonempty t Hends) as Hne.
    rewrite first_delimiter_found in Hne.
    rewrite sentences_of_first_delimiter in *.
    destruct (first_delimiter t) as [d|]; [|reflexivity].
    destruct (sentences_on d t) as [|summary others] eqn:Hs;
      [now exfalso; apply Hne|].
    exists summary, others. split; [reflexivity|].
    split; [exact (sentences_on_head _ _ _ _ Hs) | reflexivity]. }
  split; [|split; [|split]].
  - destruct (Nat.ltb_spec 50 (Py.len t)) as [Hgt|Hle].
    + specialize (Hlong Hgt). destruct (first_delimiter t) as [d|].
      * destruct Hlong as (summary & others & _ & _ & ->).
        apply (len_ellipsis 47). lia.
      * rewrite Hlong, len_append, len_slice_to. change (Py.len "...") with 3. lia.
    + unfold FastSummarizer. rewrite Hguard. fold t.
      destruct (Py.len t =? 0); [unfold Py.len; simpl; lia|].
      assert ((Py.len t <=? 50) = true) as -> by (now apply Nat.leb_le).
      exact Hle.
  - intros H0. unfold FastSummarizer. rewrite Hguard, H0. reflexivity.
  - intros [H1 H50]. unfold FastSummarizer. rewrite Hguard. fold t.
    assert ((Py.len t =? 0) = false) as -> by (apply Nat.eqb_neq; lia).
    assert ((Py.len t <=? 50) = true) as -> by (now apply Nat.leb_le).
    reflexivity.
  - exact Hlong.
Qed.

(** ** Further facts *)

(** On binary64 the keyword classifier has four confidences, one for each
    size of the difference between the two counts of marker words among the
    lowercased tokens: 0.6 on a tie, 0.7999999999999999 for a difference of
    one, 0.8999999999999999 for two, and the cap 0.95 from three on
    ([0.7 + 0.1] and [0.7 + 0.2] fall just short of 0.8 and 0.9). The label
    is [POSITIVE] when the positive count is the greater, [NEGATIVE] when
    the negative count is, [NEUTRAL] on a tie. *)
Theorem FastSentimentAnalyzer_confidences (text : string) :
  let p := marker_hits positive_words (Py.split (Py.lower text)) in
  let n := marker_hits negative_words (Py.split (Py.lower text)) in
  let d := if n <? p then p - n else n - p in
  FastSentimentAnalyzer text =
    Scores [ {| label := if n <? p then "POSITIVE"
                         else if p <? n then "NEGATIVE" else "NEUTRAL";
                score := if d =? 0 then 0.6%float
                         else if d =? 1 then 0.7999999999999999%float
                         else if d =? 2 then 0.8999999999999999%float
                         else 0.95%float |} ].
Proof.
  cbv zeta.
  destruct (marker_hits_bound (Py.split (Py.lower text))) as [Hp Hn].
  rewrite (FastSentimentAnalyzer_eq text _ _ eq_refl eq_refl).
  set (p := marker_hits positive_words _) in *.
  set (n := marker_hits negative_words _) in *.
  assert (Hconf : forall d, 1 <= d <= 23 ->
            confidence d =
              if d =? 0 then 0.6%float
              else if d =? 1 then 0.7999999999999999%float
              else if d =? 2 then 0.8999999999999999%float
              else 0.95%float).
  { intros d Hd. rewrite (confidence_values d Hd).
    destruct (Nat.eqb_spec d 0); [lia | reflexivity]. }
  destruct (Nat.ltb_spec n p) as [Hnp|Hnp]; [|destruct (Nat.ltb_spec p n) as [Hpn|Hpn]].
  - rewrite Hconf by lia. reflexivity.
  - rewrite Hconf by lia. reflexivity.
  - assert (n - p = 0) as -> by lia. reflexivity.
Qed.


(** ** More of the analyzers and the caches *)

(** The keyword classifier sees a text only through the set of its lowercased
    tokens: two texts with the same tokens, in whatever order and however
    often, get the same result. Repeating a marker word changes nothing. *)
Theorem FastSentimentAnalyzer_token_set (text1 text2 : string) :
  (forall w, w ∈ Py.split (Py.lower text1) <-> w ∈ Py.split (Py.lower text2)) ->
  FastSentimentAnalyzer text1 = FastSentimentAnalyzer text2.
Proof.
  intros Hsame.
  assert (Hset : (list_to_set (Py.split (Py.lower text1)) : gset string)
                 = list_to_set (Py.split (Py.lower text2))).
  { apply set_eq. intros w. rewrite !elem_of_list_to_set. apply Hsame. }
  unfold FastSentimentAnalyzer. cbv zeta. rewrite Hset. reflexivity.
Qed.

(** A result that cannot be read is cached all the same. After a miss on
    which the analyzer returned such a result, [analyze_sentiment_fast]
    answers [neutral], [0.5], and so does every later call for the text,
    from the cache, without asking the analyzer again. An analyzer that
    raised is asked again: the next call gets what the analyzer answers
    then. *)
Theorem unreadable_result_is_cached (text : string) (m : OptimizedAIModels) :
  dict_get (hash text) (sentiment_cache m) = None ->
  (forall r,
     sentiment_analyzer (sentiment_calls m) text = Returns r ->
     unreadable r ->
     exists m1,
       analyze_sentiment_fast text m = (Returns ("neutral"%string, 0.5%float), m1)
       /\ sentiment_calls m1 = S (sentiment_calls m)
       /\ analyze_sentiment_fast text m1
          = (Returns ("neutral"%string, 0.5%float), m1))
  /\ (sentiment_analyzer (sentiment_calls m) text = Raises ->
      exists m1,
        analyze_sentiment_fast text m = (Returns ("neutral"%string, 0.5%float), m1)
        /\ sentiment_cache m1 = sentiment_cache m
        /\ sentiment_calls m1 = S (sentiment_calls m)
        /\ forall r,
             sentiment_analyzer (S (sentiment_calls m)) text = Returns r ->
             fst (analyze_sentiment_fast text m1) = Returns (read_sentiment r)).
Proof.
  intros Hmiss. split.
  - intros r Hret Hbad.
    destruct (get_sentiment_cached_again _ _ _ Hmiss Hret) as (m1 & Hget & Hn & Hhit).
    assert (Hread : read_sentiment r = ("neutral"%string, 0.5%float)).
    { destruct r as [[|x l]|[|[|x l] ls]|]; try reflexivity; destruct Hbad. }
    exists m1. rewrite !analyze_sentiment_fast_eq, Hget.
    rewrite (get_sentiment_cached_hit _ _ _ Hhit), Hread. auto.
  - intros Hraise. rewrite analyze_sentiment_fast_eq.
    rewrite (get_sentiment_cached_miss _ _ Hmiss), Hraise.
    eexists. split; [reflexivity|]. cbn [sentiment_cache sentiment_calls].
    split; [reflexivity|]. split; [reflexivity|].
    intros r Hret. rewrite analyze_sentiment_fast_eq.
    rewrite get_sentiment_cached_miss by exact Hmiss.
    cbn [sentiment_calls]. rewrite Hret. reflexivity.
Qed.

(** The caches are addressed by the hash alone: the text is not compared. A
    second text with the same hash as one already stored gets the stored
    result, and the analyzer is never asked about it. *)
Theorem colliding_texts_share_results
    (text1 text2 : string) (m : OptimizedAIModels) (r : sentiment_result) :
  hash text1 = hash text2 ->
  dict_get (hash text1) (sentiment_cache m) = None ->
  sentiment_analyzer (sentiment_calls m) text1 = Returns r ->
  exists m1,
    get_sentiment_cached text1 m = (Returns r, m1)
    /\ get_sentiment_cached text2 m1 = (Returns r, m1)
    /\ analyze_sentiment_fast text2 m1 = (Returns (read_sentiment r), m1).
Proof.
  intros Hcoll Hmiss Hret.
  destruct (get_sentiment_cached_again _ _ _ Hmiss Hret) as (m1 & Hget & _ & Hhit).
  exists m1. split; [exact Hget|].
  rewrite Hcoll in Hhit.
  rewrite analyze_sentiment_fast_eq, (get_sentiment_cached_hit _ _ _ Hhit). auto.
Qed.

(** ** The summaries of [FastSummarizer] *)

Lemma lstrip_of_starts_nonspace (s : string) :
  starts_nonspace s = true -> Py.lstrip s = s.
Proof.
  destruct s as [|c s]; [discriminate|]. simpl. intros H.
  apply negb_true_iff in H. now rewrite H.
Qed.

Lemma lstrip_starts (s : string) :
  Py.lstrip s = EmptyString \/ starts_nonspace (Py.lstrip s) = true.
Proof.
  induction s as [|c s IH]; [now left|]. simpl.
  destruct (Py.isspace c) eqn:Hc; [exact IH|]. right. simpl. now rewrite Hc.
Qed.

Lemma rstrip_starts (s : string) :
  Py.rstrip s = EmptyString \/ starts_nonspace (Py.rstrip s) = starts_nonspace s.
Proof.
  destruct s as [|c s]; [now left|]. simpl.
  destruct (Py.isspace c && Py.is_empty (Py.rstrip s)); [now left | now right].
Qed.

Lemma strip_shape (s : string) :
  Py.strip s = EmptyString
  \/ (starts_nonspace (Py.strip s) = true /\ ends_nonspace (Py.strip s) = true).
Proof.
  destruct (strip_ends s) as [He|He]; [now left|]. right. split; [|exact He].
  unfold Py.strip in *. destruct (rstrip_starts (Py.lstrip s)) as [Hr|Hr].
  - rewrite Hr in He. discriminate.
  - rewrite Hr. destruct (lstrip_starts s) as [Hl|Hl]; [|exact Hl].
    rewrite Hl in He. discriminate.
Qed.

Lemma strip_fixed (s : string) :
  starts_nonspace s = true -> ends_nonspace s = true -> Py.strip s = s.
Proof.
  intros Hs He. unfold Py.strip. rewrite (lstrip_of_starts_nonspace _ Hs).
  now apply rstrip_of_ends_nonspace.
Qed.

Lemma ends_nonspace_append (a b : string) :
  b <> EmptyString -> ends_nonspace (a +:+ b) = ends_nonspace b.
Proof.
  intros Hb. induction a as [|c a IH]; [reflexivity|].
  change (String c a +:+ b) with (String c (a +:+ b)). cbn [ends_nonspace].
  destruct (a +:+ b) eqn:Hab; [|exact IH].
  destruct a; [simpl in Hab; contradiction | discriminate].
Qed.

(** A text of 48 characters or more, cut to 47 and an ellipsis: 50
    characters, and it begins and ends as a stripped text does when the text
    began so. *)
Lemma ellipsis_shape (s : string) :
  47 < Py.len s ->
  starts_nonspace s = true ->
  Py.len (Py.slice_to 47 s +:+ "...") = 50
  /\ starts_nonspace (Py.slice_to 47 s +:+ "...") = true
  /\ ends_nonspace (Py.slice_to 47 s +:+ "...") = true.
Proof.
  intros Hlen Hs. split; [|split].
  - rewrite len_append, len_slice_to. change (Py.len "...") with 3. lia.
  - destruct s as [|c s]; [discriminate|]. exact Hs.
  - rewrite ends_nonspace_append by discriminate. reflexivity.
Qed.

Lemma sentences_on_head_shape (delimiter text summary : string) (others : list string) :
  sentences_on delimiter text = summary :: others ->
  starts_nonspace summary = true /\ ends_nonspace summary = true.
Proof.
  unfold sentences_on. induction (Py.split_sep delimiter text) as [|p l IH];
    simpl; [discriminate|].
  destruct (Py.is_empty (Py.strip p)) eqn:Hp; simpl; [exact IH|].
  intros [= <- _]. destruct (strip_shape p) as [He|He]; [|exact He].
  rewrite He in Hp. discriminate.
Qed.

Lemma FastSummarizer_unfold (text : string) :
  FastSummarizer text =
    if Py.len (Py.strip text) =? 0 then "No content"%string
    else if Py.len (Py.strip text) <=? 50 then Py.strip text
    else match sentences_of [". "; "! "; "? "] (Py.strip text) with
         | summary :: _ =>
             if 47 <? Py.len summary
             then Py.slice_to 47 summary +:+ "..." else summary
         | [] =>
             if 47 <? Py.len (Py.strip text)
             then Py.slice_to 47 (Py.strip text) +:+ "..." else Py.strip text
         end.
Proof. unfold FastSummarizer. destruct text; reflexivity. Qed.

Lemma FastSummarizer_shape (text : string) :
  1 <= Py.len (FastSummarizer text) <= 50
  /\ starts_nonspace (FastSummarizer text) = true
  /\ ends_nonspace (FastSummarizer text) = true.
Proof.
  clear hash sentiment_analyzer summarizer.
  rewrite FastSummarizer_unfold. set (t := Py.strip text).
  destruct (Nat.eqb_spec (Py.len t) 0) as [H0|H0];
    [split; [unfold Py.len; simpl; lia | split; reflexivity]|].
  assert (Ht : starts_nonspace t = true /\ ends_nonspace t = true).
  { destruct (strip_shape text) as [He|He]; [|exact He].
    fold t in He. rewrite He in H0. now contradiction H0. }
  destruct (Nat.leb_spec (Py.len t) 50) as [H50|H50]; [split; [lia | exact Ht]|].
  rewrite sentences_of_first_delimiter.
  assert (Hcut : forall s, 47 < Py.len s -> starts_nonspace s = true ->
            1 <= Py.len (Py.slice_to 47 s +:+ "...") <= 50
            /\ starts_nonspace (Py.slice_to 47 s +:+ "...") = true
            /\ ends_nonspace (Py.slice_to 47 s +:+ "...") = true).
  { intros s Hs Hst. destruct (ellipsis_shape s Hs Hst) as (-> & ? & ?).
    split; [lia | tauto]. }
  assert (Hnone : 1 <= Py.len (if 47 <? Py.len t
                               then Py.slice_to 47 t +:+ "..." else t) <= 50
                  /\ starts_nonspace (if 47 <? Py.len t
                                      then Py.slice_to 47 t +:+ "..." else t) = true
                  /\ ends_nonspace (if 47 <? Py.len t
                                    then Py.slice_to 47 t +:+ "..." else t) = true).
  { assert ((47 <? Py.len t) = true) as -> by (apply Nat.ltb_lt; lia).
    apply Hcut; [lia | tauto]. }
  destruct (first_delimiter t) as [d|]; [|exact Hnone].
  destruct (sentences_on d t) as [|summary others] eqn:Hs; [exact Hnone|].
  pose proof (sentences_on_head _ _ _ _ Hs) as Hlen.
  pose proof (sentences_on_head_shape _ _ _ _ Hs) as Hshape.
  destruct (Nat.ltb_spec 47 (Py.len summary)) as [Hgt|Hle].
  - apply Hcut; tauto.
  - split; [lia | exact Hshape].
Qed.

(** Every summary of [FastSummarizer] has between 1 and 50 characters and no
    whitespace at either end, and the summarizer leaves it as it is:
    summarizing a summary changes nothing. *)
Theorem FastSummarizer_idempotent (text : string) :
  1 <= Py.len (FastSummarizer text) <= 50
  /\ Py.strip (FastSummarizer text) = FastSummarizer text
  /\ FastSummarizer (FastSummarizer text) = FastSummarizer text.
Proof.
  destruct (FastSummarizer_shape text) as (Hlen & Hs & He).
  assert (Hstrip : Py.strip (FastSummarizer text) = FastSummarizer text)
    by (now apply strip_fixed).
  split; [exact Hlen|]. split; [exact Hstrip|].
  rewrite (FastSummarizer_unfold (FastSummarizer text)), Hstrip.
  assert ((Py.len (FastSummarizer text) =? 0) = false) as ->
    by (apply Nat.eqb_neq; lia).
  assert ((Py.len (FastSummarizer text) <=? 50) = true) as ->
    by (apply Nat.leb_le; lia).
  reflexivity.
Qed.

(** ** The table of comments *)

Lemma strictly_increasing_NoDup (l : list nat) : StronglySorted lt l -> NoDup l.
Proof.
  induction 1 as [|x l Hs IH Hall]; [constructor|].
  apply NoDup_cons. split; [|exact IH].
  intros Hin. rewrite Forall_forall in Hall. specialize (Hall x Hin). lia.
Qed.

(** One accepted write of a record within the limits: the record itself goes
    last under the next id, and the ids stay in order. *)
Lemma save_within_limits (data : comment_data) (db : Database) :
  accepting db = true ->
  within_limits data ->
  db_ok db ->
  exists db',
    save_comment_to_db_fast data db = (Returns (S (lastrowid db)), db')
    /\ comments db' =
         comments db ++ [ {| row_id := S (lastrowid db); row_data := data |} ]
    /\ lastrowid db' = S (lastrowid db)
    /\ accepting db' = true
    /\ db_ok db'.
Proof.
  intros Hacc [Hraw Hsum] [Hsorted Hmax].
  rewrite save_comment_to_db_fast_eq, Hacc.
  rewrite (slice_to_all 300) by exact Hraw. rewrite (slice_to_all 50) by exact Hsum.
  eexists. split; [reflexivity|]. cbn [comments lastrowid accepting].
  assert (Heta : {| timestamp := timestamp data;
                    stakeholder_type := stakeholder_type data;
                    raw_text := raw_text data;
                    sentiment_label := sentiment_label data;
                    sentiment_score := sentiment_score data;
                    summary := summary data |} = data) by (now destruct data).
  rewrite Heta. split; [reflexivity|]. split; [reflexivity|]. split; [reflexivity|].
  unfold db_ok. cbn [comments lastrowid]. split.
  - rewrite fmap_app. apply StronglySorted_app_2.
    + intros x1 x2 Hx1 Hx2. apply list_elem_of_fmap in Hx1 as (r & -> & Hr).
      apply list_elem_of_singleton in Hx2 as ->. cbn [row_id].
      rewrite Forall_forall in Hmax. specialize (Hmax r Hr). lia.
    + exact Hsorted.
    + repeat constructor.
  - apply Forall_app. split.
    + eapply Forall_impl; [exact Hmax|]. intros r Hr. simpl in Hr. lia.
    + repeat constructor.
Qed.

Lemma save_batch_rows
    (results : list comment_data) (processed : list CommentResponse)
    (db : Database) :
  accepting db = true ->
  Forall within_limits results ->
  db_ok db ->
  exists db',
    save_batch results processed db =
      (Returns (processed ++
                imap (fun i d => {| id := S (lastrowid db) + i;
                                    response := d;
                                    created_at := timestamp d |}) results),
       db')
    /\ comments db' =
         comments db ++
         imap (fun i d => {| row_id := S (lastrowid db) + i; row_data := d |}) results
    /\ lastrowid db' = lastrowid db + List.length results
    /\ db_ok db'
    /\ NoDup (row_id <$> comments db').
Proof.
  intros Hacc Hall. revert processed db Hacc.
  induction Hall as [|d results Hd Hall IH]; intros processed db Hacc Hok.
  - exists db. cbn [save_batch imap]. unfold ret. rewrite !app_nil_r.
    split; [reflexivity|]. split; [reflexivity|]. split; [simpl; lia|].
    split; [exact Hok|]. apply strictly_increasing_NoDup, Hok.
  - destruct (save_within_limits d db Hacc Hd Hok)
      as (db1 & Hsave & Hrows & Hlast & Hacc1 & Hok1).
    destruct (IH (processed ++
                  [ {| id := S (lastrowid db); response := d;
                       created_at := timestamp d |} ]) db1 Hacc1 Hok1)
      as (db' & Hrun & Hrows' & Hlast' & Hok' & Hnodup).
    assert (Hresp : imap (fun i d0 => {| id := S (lastrowid db1) + i;
                                         response := d0;
                                         created_at := timestamp d0 |}) results
                    = imap ((fun i d0 => {| id := S (lastrowid db) + i;
                                            response := d0;
                                            created_at := timestamp d0 |}) ∘ S)
                        results).
    { apply imap_ext. intros i x _. cbn. rewrite Hlast. f_equal. lia. }
    assert (Hrow : imap (fun i d0 => {| row_id := S (lastrowid db1) + i;
                                        row_data := d0 |}) results
                   = imap ((fun i d0 => {| row_id := S (lastrowid db) + i;
                                           row_data := d0 |}) ∘ S) results).
    { apply imap_ext. intros i x _. cbn. rewrite Hlast. f_equal. lia. }
    exists db'. split; [|split; [|split; [|split]]].
    + cbn [save_batch]. unfold bind at 1. rewrite Hsave.
      unfold make_CommentResponse.
      destruct Hd as [Hraw Hsum]. apply Nat.leb_le in Hraw, Hsum.
      rewrite Hraw, Hsum. cbn [andb]. rewrite Hrun, <- app_assoc.
      rewrite imap_cons, Nat.add_0_r, Hresp. reflexivity.
    + rewrite Hrows', Hrows, <- app_assoc, imap_cons, Nat.add_0_r, Hrow.
      reflexivity.
    + rewrite Hlast', Hlast. simpl. lia.
    + exact Hok'.
    + exact Hnodup.
Qed.

Lemma stored_as_refl (k : nat) (d : comment_data) :
  stored_as {| row_id := k; row_data := d |} d.
Proof.
  unfold stored_as, stored_score, PrimFloat.is_nan. cbn [row_data].
  repeat (split; [reflexivity|]).
  destruct (sentiment_score d =? sentiment_score d)%float eqn:He;
    cbn [negb]; [exact He | reflexivity].
Qed.

(** The table is append-only and its ids are never reused. Saving a run of
    records within the limits into a store that accepts writes appends one
    row for each, in order, under the ids [lastrowid + 1], [lastrowid + 2],
    ...; each row holds the texts of its record, and of its score the
    number, or NULL when the score is a NaN; the answers carry the same ids
    in the same order; the rows that were there stay in front, unchanged;
    and the ids of the table remain strictly increasing, hence pairwise
    distinct. *)
Theorem save_batch_appends_in_order
    (results : list comment_data) (processed : list CommentResponse)
    (db : Database) :
  accepting db = true ->
  Forall within_limits results ->
  db_ok db ->
  exists db' new,
    save_batch results processed db =
      (Returns (processed ++
                imap (fun i d => {| id := S (lastrowid db) + i;
                                    response := d;
                                    created_at := timestamp d |}) results),
       db')
    /\ comments db' = comments db ++ new
    /\ row_id <$> new = imap (fun i _ => S (lastrowid db) + i) results
    /\ Forall2 stored_as new results
    /\ lastrowid db' = lastrowid db + List.length results
    /\ db_ok db'
    /\ NoDup (row_id <$> comments db').
Proof.
  intros Hacc Hall Hok.
  destruct (save_batch_rows results processed db Hacc Hall Hok)
    as (db' & Hrun & Hrows & Hlast & Hok' & Hnodup).
  exists db', (imap (fun i d => {| row_id := S (lastrowid db) + i; row_data := d |})
                    results).
  split; [exact Hrun|]. split; [exact Hrows|].
  split; [|split; [|split; [exact Hlast | split; [exact Hok' | exact Hnodup]]]].
  - generalize (S (lastrowid db)) as k. clear.
    induction results as [|d results IH]; intros k; [reflexivity|].
    rewrite !imap_cons, fmap_cons. cbn [row_id]. f_equal.
    rewrite (imap_ext _ (fun i d0 => {| row_id := S k + i; row_data := d0 |}));
      [|intros i x _; cbn; f_equal; lia].
    rewrite IH. apply imap_ext. intros i x _. cbn. lia.
  - generalize (S (lastrowid db)) as k. clear.
    induction results as [|d results IH]; intros k; [constructor|].
    rewrite imap_cons. constructor; [apply stored_as_refl|].
    rewrite (imap_ext _ (fun i d0 => {| row_id := S k + i; row_data := d0 |}));
      [apply IH | intros i x _; cbn; f_equal; lia].
Qed.

(** ** The batches of [submit_bulk_comments] *)

Lemma range_go_lookup (fuel i stop step k j : nat) :
  range_go fuel i stop step !! k = Some j -> j = i + step * k /\ j < stop.
Proof.
  revert i k. induction fuel as [|fuel IH]; intros i k; cbn [range_go];
    [discriminate|].
  destruct (Nat.ltb_spec i stop) as [Hlt|Hge]; [|discriminate].
  destruct k as [|k]; cbn.
  - intros [= <-]. split; [lia | exact Hlt].
  - intros Hk. apply IH in Hk as [-> Hj]. split; [lia | exact Hj].
Qed.

Lemma range_go_length (fuel i stop : nat) :
  stop - i <= fuel ->
  List.length (range_go fuel i stop 10) = (stop - i + 9) / 10.
Proof.
  revert i. induction fuel as [|fuel IH]; intros i Hfuel; cbn [range_go].
  - replace (stop - i) with 0 by lia. reflexivity.
  - destruct (Nat.ltb_spec i stop) as [Hlt|Hge].
    + cbn [List.length]. rewrite IH by lia.
      destruct (Nat.le_gt_cases (stop - i) 10) as [Hle|Hgt].
      * replace (stop - (i + 10)) with 0 by lia. cbn [Nat.add].
        change (9 / 10) with 0.
        apply (Nat.div_unique _ 10 1 (stop - i + 9 - 10)); lia.
      * replace (stop - i + 9) with (stop - (i + 10) + 9 + 1 * 10) by lia.
        rewrite Nat.div_add by lia. lia.
    + replace (stop - i) with 0 by lia. reflexivity.
Qed.

Lemma range_go_chunks {A} (df : list A) (fuel i : nat) :
  List.length df - i <= fuel ->
  concat (map (fun j => take 10 (drop j df)) (range_go fuel i (List.length df) 10))
  = drop i df.
Proof.
  revert i. induction fuel as [|fuel IH]; intros i Hfuel; cbn [range_go].
  - cbn. symmetry. apply drop_ge. lia.
  - destruct (Nat.ltb_spec i (List.length df)) as [Hlt|Hge].
    + cbn [map concat]. rewrite IH by lia.
      rewrite <- (take_drop 10 (drop i df)) at 2. rewrite drop_drop. reflexivity.
    + cbn. symmetry. apply drop_ge. lia.
Qed.

Lemma batches_concat (df : list csv_row) : concat (batches df) = df.
Proof.
  unfold batches, range_step. cbv zeta.
  rewrite range_go_chunks by lia. reflexivity.
Qed.

(** The batches cut the frame into consecutive runs of 10 rows: batch [k] is
    the rows [10 k] to [10 k + 9], the last batch may be shorter but none is
    empty; put end to end they are the frame, every row once and in order;
    and their number is the [total_batches] the answer reports. *)
Theorem bulk_batches_partition (df : list csv_row) :
  concat (batches df) = df
  /\ List.length (batches df) = total_batches df
  /\ forall k batch,
       batches df !! k = Some batch ->
       batch = take 10 (drop (10 * k) df)
       /\ 1 <= List.length batch <= 10.
Proof.
  split; [apply batches_concat|].
  unfold batches, total_batches, range_step. cbv zeta. split.
  - rewrite length_map, range_go_length by lia.
    f_equal. lia.
  - intros k batch Hk. rewrite list_lookup_fmap in Hk.
    destruct (range_go _ _ _ _ !! k) as [j|] eqn:Hj; [|discriminate].
    apply range_go_lookup in Hj as [-> Hlt]. cbn in Hk. injection Hk as <-.
    split; [reflexivity|]. rewrite length_take, length_drop. lia.
Qed.

Lemma omap_concat {A B} (f : A -> option B) (ls : list (list A)) :
  omap f (concat ls) = concat (map (omap f) ls).
Proof.
  induction ls as [|l ls IH]; [reflexivity|].
  cbn [concat map]. rewrite omap_app, IH. reflexivity.
Qed.

Lemma omap_length_le {A B} (f : A -> option B) (l : list A) :
  List.length (omap f l) <= List.length l.
Proof.
  induction l as [|x l IH]; [reflexivity|]. cbn. destruct (f x); cbn; lia.
Qed.

(** Cutting the frame into batches changes neither which rows are processed
    nor their order. A row is processed at most once; every call of
    [process_comment_async] the upload makes has one of the four stakeholder
    types and a text of at most 300 characters; and, whatever the other
    calls have done to the caches by then, it returns a record with that
    very text and stakeholder type, within the two limits. *)
Theorem bulk_tasks_selected (df : list csv_row) :
  concat (map batch_tasks (batches df)) = batch_tasks df
  /\ List.length (batch_tasks df) <= List.length df
  /\ forall st text,
       (st, text) ∈ batch_tasks df ->
       st ∈ ["citizen"; "business"; "ngo"; "academic"]%string
       /\ Py.len text <= 300
       /\ forall now m,
            exists data m',
              process_comment_async now st text m = (Returns data, m')
              /\ stakeholder_type data = st
              /\ raw_text data = text
              /\ within_limits data.
Proof.
  split; [|split].
  - unfold batch_tasks. rewrite <- omap_concat.
    rewrite batches_concat. reflexivity.
  - apply omap_length_le.
  - intros st text Hin. unfold batch_tasks in Hin.
    apply list_elem_of_omap in Hin as (row & _ & Hrow).
    unfold bulk_task in Hrow.
    destruct (isna (csv_raw_text row) || isna (csv_stakeholder_type row));
      [discriminate|].
    destruct (is_stakeholder (csv_stakeholder_type row)) eqn:Hs;
      cbn [negb] in Hrow; [|discriminate].
    assert (Hst : st = cell_str (csv_stakeholder_type row))
      by (apply (f_equal (fun o => from_option fst st o)) in Hrow; now symmetry).
    assert (Htext : text = Py.slice_to 300 (cell_str (csv_raw_text row)))
      by (apply (f_equal (fun o => from_option snd text o)) in Hrow; now symmetry).
    clear Hrow. subst st text.
    destruct (csv_stakeholder_type row) as [|s|s]; cbn [is_stakeholder] in Hs;
      try discriminate.
    cbn [cell_str].
    assert (Hlen : Py.len (Py.slice_to 300 (cell_str (csv_raw_text row))) <= 300)
      by (rewrite len_slice_to; lia).
    split; [|split; [exact Hlen|]].
    + apply existsb_exists in Hs as (x & Hx & Heq).
      apply String.eqb_eq in Heq as ->. apply list_elem_of_In. exact Hx.
    + intros now m.
      destruct (process_comment_async_eq now s
                  (Py.slice_to 300 (cell_str (csv_raw_text row))) m)
        as (l & sc & s' & m1 & m2 & H).
      cbv zeta in H. destruct H as (_ & _ & Hsum & Hp).
      set (raw := Py.slice_to 300 (cell_str (csv_raw_text row))) in *.
      assert (Hraw : (if 300 <? Py.len raw then Py.slice_to 300 raw else raw) = raw).
      { destruct (Nat.ltb_spec 300 (Py.len raw)); [lia | reflexivity]. }
      rewrite Hraw in Hp. eexists _, m2. split; [exact Hp|].
      cbn [stakeholder_type raw_text]. split; [reflexivity|].
      split; [reflexivity|]. split; cbn [raw_text summary]; assumption.
Qed.

(** ** The window of [get_recent_logs] *)

Lemma slice_from_last {A} (lines : Z) (l : list A) :
  (0 < lines)%Z ->
  slice_from (- lines) l = drop (List.length l - Z.to_nat lines) l.
Proof.
  intros Hpos. unfold slice_from. cbv zeta.
  destruct (Z.ltb_spec (- lines) 0) as [_|H]; [|lia]. f_equal. lia.
Qed.

Lemma slice_from_skip {A} (lines : Z) (l : list A) :
  (lines <= 0)%Z -> slice_from (- lines) l = drop (Z.to_nat (- lines)) l.
Proof.
  intros Hneg. unfold slice_from. cbv zeta.
  destruct (Z.ltb_spec (- lines) 0) as [H|_]; [lia|].
  destruct (Z.min_spec (- lines) (Z.of_nat (List.length l))) as [[_ ->]|[Hle ->]];
    [reflexivity|].
  rewrite Nat2Z.id, !drop_ge by lia. reflexivity.
Qed.

Lemma read_log_file_length (lines : Z) (log_file : string) (f : log_file_state) :
  (0 < lines)%Z ->
  List.length (read_log_file lines log_file f) <= Z.to_nat lines.
Proof.
  intros Hpos. destruct f as [| |file_lines]; cbn [read_log_file List.length];
    [lia | lia |].
  cbv zeta. rewrite length_map.
  destruct (Z.ltb_spec lines (Z.of_nat (List.length file_lines))) as [Hlt|Hge];
    [|lia].
  rewrite slice_from_last, length_drop by exact Hpos. lia.
Qed.

Lemma read_log_file_last (lines : Z) (log_file : string) (file_lines : list string) :
  (0 < lines <= Z.of_nat (List.length file_lines))%Z ->
  read_log_file lines log_file (Readable file_lines)
  = map (fun line => LogLine log_file (Py.strip line))
        (drop (List.length file_lines - Z.to_nat lines) file_lines).
Proof.
  intros [Hpos Hle]. cbn [read_log_file]. cbv zeta.
  destruct (Z.ltb_spec lines (Z.of_nat (List.length file_lines))) as [Hlt|Hge].
  - rewrite slice_from_last by exact Hpos. reflexivity.
  - replace (List.length file_lines - Z.to_nat lines) with 0 by lia. reflexivity.
Qed.

(** Asked for [lines] >= 1 lines, the endpoint returns at most [lines]
    entries, although it has read up to [lines] of each file
    ([total_entries] goes up to [2 * lines]): the last [lines] of the two
    files' entries put end to end. So as soon as [error.log] has [lines]
    lines, the answer is those lines and nothing of [app.log], whatever it
    holds. *)
Theorem get_recent_logs_window
    (lines : Z) (app_log error_log : log_file_state) :
  (0 < lines)%Z ->
  List.length (logs (get_recent_logs lines app_log error_log)) <= Z.to_nat lines
  /\ total_entries (get_recent_logs lines app_log error_log) <= 2 * Z.to_nat lines
  /\ forall file_lines,
       error_log = Readable file_lines ->
       (lines <= Z.of_nat (List.length file_lines))%Z ->
       logs (get_recent_logs lines app_log error_log)
       = map (fun line => LogLine "logs/error.log" (Py.strip line))
             (drop (List.length file_lines - Z.to_nat lines) file_lines).
Proof.
  intros Hpos. unfold get_recent_logs. cbv zeta. cbn [logs total_entries].
  pose proof (read_log_file_length lines "logs/app.log" app_log Hpos) as Ha.
  pose proof (read_log_file_length lines "logs/error.log" error_log Hpos) as He.
  rewrite slice_from_last by exact Hpos. split; [|split].
  - rewrite length_drop. lia.
  - rewrite length_app. lia.
  - intros file_lines -> Hle.
    rewrite (read_log_file_last lines "logs/error.log") in * by lia.
    set (mine := map _ _) in *.
    assert (Hlen : List.length mine = Z.to_nat lines).
    { unfold mine. rewrite length_map, length_drop. lia. }
    rewrite length_app, Hlen.
    replace (List.length (read_log_file lines "logs/app.log" app_log)
             + Z.to_nat lines - Z.to_nat lines)
      with (List.length (read_log_file lines "logs/app.log" app_log) + 0) by lia.
    rewrite drop_app_add. reflexivity.
Qed.

(** Asked for 0 lines the endpoint returns every line of both files, not
    none: [file_lines[-0:]] and [logs[-0:]] are the whole lists. Asked for
    [-n] lines it leaves out the first [n] lines of each file and then the
    first [n] entries of what is left. *)
Theorem get_recent_logs_nonpositive
    (lines : Z) (app_lines error_lines : list string) :
  (lines <= 0)%Z ->
  get_recent_logs lines (Readable app_lines) (Readable error_lines)
  = (let n := Z.to_nat (- lines) in
     let entries :=
       map (fun line => LogLine "logs/app.log" (Py.strip line)) (drop n app_lines)
       ++ map (fun line => LogLine "logs/error.log" (Py.strip line))
              (drop n error_lines) in
     {| logs := drop n entries; total_entries := List.length entries |})
  /\ (lines = 0%Z ->
      logs (get_recent_logs lines (Readable app_lines) (Readable error_lines))
      = map (fun line => LogLine "logs/app.log" (Py.strip line)) app_lines
        ++ map (fun line => LogLine "logs/error.log" (Py.strip line)) error_lines).
Proof.
  intros Hneg.
  assert (Hread : forall log_file file_lines,
            read_log_file lines log_file (Readable file_lines)
            = map (fun line => LogLine log_file (Py.strip line))
                  (drop (Z.to_nat (- lines)) file_lines)).
  { intros log_file file_lines. cbn [read_log_file]. cbv zeta.
    destruct (Z.ltb_spec lines (Z.of_nat (List.length file_lines))) as [Hlt|Hge].
    - rewrite slice_from_skip by exact Hneg. reflexivity.
    - replace (Z.to_nat (- lines)) with 0 by lia. reflexivity. }
  assert (Heq : get_recent_logs lines (Readable app_lines) (Readable error_lines)
                = (let n := Z.to_nat (- lines) in
                   let entries :=
                     map (fun line => LogLine "logs/app.log" (Py.strip line))
                         (drop n app_lines)
                     ++ map (fun line => LogLine "logs/error.log" (Py.strip line))
                            (drop n error_lines) in
                   {| logs := drop n entries;
                      total_entries := List.length entries |})).
  { unfold get_recent_logs. cbv zeta.
    rewrite !Hread, slice_from_skip by exact Hneg. reflexivity. }
  split; [exact Heq|]. intros ->. rewrite Heq. reflexivity.
Qed.

(** ** The counts of [PerformanceMonitor] *)

Lemma dd_lookup_set_eq {V} (k : string) (v : V) (d : defaultdict V) :
  dd_lookup k (dd_set k v d) = Some v.
Proof.
  induction d as [|[k' v'] d IH]; cbn.
  - now rewrite String.eqb_refl.
  - destruct (String.eqb k' k) eqn:Hk; cbn; now rewrite Hk.
Qed.

Lemma dd_lookup_set_ne {V} (k k' : string) (v : V) (d : defaultdict V) :
  k <> k' -> dd_lookup k' (dd_set k v d) = dd_lookup k' d.
Proof.
  intros Hne. induction d as [|[k0 v0] d IH]; cbn.
  - destruct (String.eqb_spec k k'); [contradiction | reflexivity].
  - destruct (String.eqb_spec k0 k) as [->|Hk]; cbn.
    + destruct (String.eqb_spec k k'); [contradiction | reflexivity].
    + destruct (String.eqb_spec k0 k'); [reflexivity | exact IH].
Qed.

Lemma dd_lookup_app {V} (k : string) (d d' : defaultdict V) :
  dd_lookup k (d ++ d') =
    match dd_lookup k d with Some v => Some v | None => dd_lookup k d' end.
Proof.
  induction d as [|[k0 v0] d IH]; cbn; [reflexivity|].
  destruct (String.eqb k0 k); [reflexivity | exact IH].
Qed.

Lemma dd_get_set {V} (dflt : V) (k k' : string) (v : V) (d : defaultdict V) :
  dd_get dflt k' (dd_set k v d) = if String.eqb k k' then v else dd_get dflt k' d.
Proof.
  unfold dd_get. destruct (String.eqb_spec k k') as [->|Hne].
  - now rewrite dd_lookup_set_eq.
  - now rewrite dd_lookup_set_ne.
Qed.

Lemma dd_get_touch {V} (dflt : V) (k k' : string) (d : defaultdict V) :
  dd_get dflt k' (dd_touch dflt k d) = dd_get dflt k' d.
Proof.
  unfold dd_get, dd_touch. destruct (dd_lookup k d) eqn:Hk; [reflexivity|].
  rewrite dd_lookup_app. destruct (dd_lookup k' d) eqn:Hk'; [reflexivity|].
  cbn. destruct (String.eqb k k'); reflexivity.
Qed.

Lemma dd_lookup_keys {V} (k : string) (d : defaultdict V) :
  k ∈ (fst <$> d) <-> is_Some (dd_lookup k d).
Proof.
  clear hash sentiment_analyzer summarizer.
  induction d as [|[k0 v0] d IH]; cbn.
  - rewrite elem_of_nil. split; [tauto | intros [? [=]]].
  - rewrite elem_of_cons, IH. destruct (String.eqb_spec k0 k) as [->|Hne].
    + split; [eauto | now left].
    + split; [intros [->|H]; [contradiction | exact H] | now right].
Qed.

Lemma dd_set_keys {V} (k : string) (v : V) (d : defaultdict V) :
  fst <$> dd_set k v d
  = if bool_decide (k ∈ (fst <$> d)) then fst <$> d else (fst <$> d) ++ [k].
Proof.
  induction d as [|[k0 v0] d IH]; cbn; [reflexivity|].
  destruct (String.eqb_spec k0 k) as [->|Hne]; cbn.
  - rewrite bool_decide_eq_true_2 by now left. reflexivity.
  - rewrite IH. destruct (bool_decide (k ∈ (fst <$> d))) eqn:Hd.
    + apply bool_decide_eq_true_1 in Hd.
      rewrite bool_decide_eq_true_2 by now right. reflexivity.
    + apply bool_decide_eq_false_1 in Hd.
      rewrite bool_decide_eq_false_2; [reflexivity|].
      rewrite elem_of_cons. intros [->|H]; [now apply Hne | now apply Hd].
Qed.

Lemma dd_touch_keys {V} (dflt : V) (k : string) (d : defaultdict V) :
  fst <$> dd_touch dflt k d
  = if bool_decide (k ∈ (fst <$> d)) then fst <$> d else (fst <$> d) ++ [k].
Proof.
  unfold dd_touch. destruct (dd_lookup k d) eqn:Hk.
  - rewrite bool_decide_eq_true_2; [reflexivity|].
    apply dd_lookup_keys. rewrite Hk. eauto.
  - rewrite bool_decide_eq_false_2; [now rewrite fmap_app|].
    rewrite dd_lookup_keys, Hk. intros [? [=]].
Qed.

Lemma list_sum_dd_set (k : string) (v : nat) (d : defaultdict nat) :
  list_sum (map snd (dd_set k v d)) + dd_get 0 k d = list_sum (map snd d) + v.
Proof.
  unfold dd_get. induction d as [|[k0 v0] d IH]; [cbn; lia|].
  cbn [dd_set dd_lookup]. destruct (String.eqb k0 k).
  - cbn. lia.
  - change (list_sum (map snd ((k0, v0) :: dd_set k v d)))
      with (v0 + list_sum (map snd (dd_set k v d))).
    change (list_sum (map snd ((k0, v0) :: d))) with (v0 + list_sum (map snd d)).
    lia.
Qed.

Lemma list_sum_dd_touch (k : string) (d : defaultdict nat) :
  list_sum (map snd (dd_touch 0 k d)) = list_sum (map snd d).
Proof.
  unfold dd_touch. destruct (dd_lookup k d); [reflexivity|].
  rewrite map_app, list_sum_app. cbn. lia.
Qed.

Lemma deque_append_last {A} (maxlen : nat) (x : A) (l : list A) :
  deque_append maxlen x (drop (List.length l - maxlen) l)
  = drop (List.length (l ++ [x]) - maxlen) (l ++ [x]).
Proof.
  unfold deque_append. cbv zeta.
  rewrite <- drop_app_le by lia. rewrite drop_drop.
  f_equal. rewrite length_drop, !length_app. cbn. lia.
Qed.

Lemma omap_snoc {A B} (f : A -> option B) (l : list A) (x : A) :
  omap f (l ++ [x]) = omap f l ++ match f x with Some y => [y] | None => [] end.
Proof. rewrite omap_app. cbn. destruct (f x); reflexivity. Qed.

Lemma monitor_run_snoc (calls : list monitor_call) (c : monitor_call)
    (pm : PerformanceMonitor) :
  monitor_run (calls ++ [c]) pm = monitor_step (monitor_run calls pm) c.
Proof. unfold monitor_run. now rewrite fold_left_app. Qed.

Lemma get_endpoint_stats_state (e : string) (pm : PerformanceMonitor) :
  max_history (snd (get_endpoint_stats e pm)) = max_history pm
  /\ response_times (snd (get_endpoint_stats e pm))
     = dd_touch [] e (response_times pm)
  /\ (forall e', dd_get 0 e' (request_counts (snd (get_endpoint_stats e pm)))
                 = dd_get 0 e' (request_counts pm))
  /\ (forall e', dd_get 0 e' (error_counts (snd (get_endpoint_stats e pm)))
                 = dd_get 0 e' (error_counts pm))
  /\ list_sum (map snd (request_counts (snd (get_endpoint_stats e pm))))
     = list_sum (map snd (request_counts pm))
  /\ list_sum (map snd (error_counts (snd (get_endpoint_stats e pm))))
     = list_sum (map snd (error_counts pm)).
Proof.
  unfold get_endpoint_stats. cbv zeta.
  destruct (dd_get [] e (response_times pm)) as [|first rest].
  - cbn [snd max_history response_times request_counts error_counts].
    repeat split; reflexivity.
  - destruct (true_div _ _); cbn [snd max_history response_times request_counts
                                   error_counts];
      repeat split; auto using dd_get_touch, list_sum_dd_touch.
Qed.

(** The state of a monitor after any run of calls, endpoint by endpoint: the
    two counters are the numbers of requests and of failed requests recorded
    for the endpoint, and the history is the last [max_history] of the
    endpoint's requests, in order. *)
Lemma monitor_run_state (max_history0 : nat) (calls : list monitor_call) (e : string) :
  let pm := monitor_run calls (new_PerformanceMonitor max_history0) in
  max_history pm = max_history0
  /\ dd_get 0 e (request_counts pm) = List.length (records_of e calls)
  /\ dd_get 0 e (error_counts pm)
     = List.length (List.filter is_error (records_of e calls))
  /\ dd_get [] e (response_times pm)
     = drop (List.length (records_of e calls) - max_history0) (records_of e calls).
Proof.
  cbv zeta. induction calls as [|c calls IH] using rev_ind; [now cbn|].
  rewrite monitor_run_snoc. destruct IH as (Hmax & Hreq & Herr & Htimes).
  set (pm := monitor_run calls (new_PerformanceMonitor max_history0)) in *.
  unfold records_of in *. rewrite omap_snoc. fold (records_of e calls) in *.
  destruct c as [now endpoint rt sc|endpoint|]; cbn [monitor_step].
  - unfold record_request. cbv zeta.
    cbn [max_history request_counts error_counts response_times].
    split; [exact Hmax|]. rewrite !dd_get_set.
    assert (Herrs : dd_get 0 e
                      (if (400 <=? sc)%Z
                       then dd_set endpoint (dd_get 0 endpoint (error_counts pm) + 1)
                              (error_counts pm)
                       else error_counts pm)
                    = if String.eqb endpoint e && (400 <=? sc)%Z
                      then dd_get 0 e (error_counts pm) + 1
                      else dd_get 0 e (error_counts pm)).
    { destruct (400 <=? sc)%Z; [|now rewrite andb_false_r].
      rewrite dd_get_set, andb_true_r.
      destruct (String.eqb_spec endpoint e) as [->|]; reflexivity. }
    rewrite Herrs. clear Herrs.
    destruct (String.eqb_spec endpoint e) as [->|Hne]; cbn [andb].
    + rewrite Hreq, Herr, Htimes, Hmax. rewrite length_app. cbn [List.length].
      split; [lia|]. split.
      * rewrite List.filter_app, length_app. cbn [List.filter].
        change (is_error {| request_timestamp := now; response_time := rt;
                            status_code := sc |}) with (400 <=? sc)%Z.
        destruct (400 <=? sc)%Z; cbn [List.length]; lia.
      * rewrite deque_append_last. rewrite length_app. reflexivity.
    + rewrite !app_nil_r. auto.
  - rewrite !app_nil_r.
    destruct (get_endpoint_stats_state endpoint pm)
      as (Hm & Hrt & Hrq & Her & _ & _).
    rewrite Hm, Hrt, Hrq, Her, dd_get_touch. auto.
  - rewrite !app_nil_r. auto.
Qed.

(** Whatever has been done to a monitor before, [get_endpoint_stats] returns:
    the history it divides by is not empty, and a history that is not empty
    has a request counted. It reports the requests and the failed requests
    of the endpoint ever recorded, which are never fewer, and the last 10
    requests at most. A monitor that keeps no history ([max_history = 0])
    reports zeros whatever was recorded. The call itself changes no count,
    but an endpoint asked about is from then on among the endpoints
    monitored. *)
Theorem get_endpoint_stats_returns
    (max_history0 : nat) (calls : list monitor_call) (e : string) :
  let pm := monitor_run calls (new_PerformanceMonitor max_history0) in
  let records := records_of e calls in
  let errors := List.length (List.filter is_error records) in
  exists stats pm',
    get_endpoint_stats e pm = (Returns stats, pm')
    /\ errors <= List.length records
    /\ (if Nat.min (List.length records) max_history0 =? 0
        then request_count stats = 0 /\ error_count stats = 0
             /\ recent_requests stats = None
        else request_count stats = List.length records
             /\ error_count stats = errors
             /\ recent_requests stats
                = Some (drop (List.length records - Nat.min max_history0 10) records))
    /\ (forall e',
          dd_get 0 e' (request_counts pm') = dd_get 0 e' (request_counts pm)
          /\ dd_get 0 e' (error_counts pm') = dd_get 0 e' (error_counts pm)
          /\ dd_get [] e' (response_times pm') = dd_get [] e' (response_times pm))
    /\ e ∈ (fst <$> response_times pm').
Proof.
  cbv zeta.
  destruct (monitor_run_state max_history0 calls e) as (Hmax & Hreq & Herr & Htimes).
  cbv zeta in Hmax, Hreq, Herr, Htimes.
  set (pm := monitor_run calls (new_PerformanceMonitor max_history0)) in *.
  set (records := records_of e calls) in *.
  assert (Hle : List.length (List.filter is_error records) <= List.length records)
    by apply filter_length_le.
  assert (Hpm' : forall e',
            dd_get 0 e' (request_counts (snd (get_endpoint_stats e pm)))
            = dd_get 0 e' (request_counts pm)
            /\ dd_get 0 e' (error_counts (snd (get_endpoint_stats e pm)))
               = dd_get 0 e' (error_counts pm)
            /\ dd_get [] e' (response_times (snd (get_endpoint_stats e pm)))
               = dd_get [] e' (response_times pm)).
  { intros e'. destruct (get_endpoint_stats_state e pm) as (_ & Hrt & Hrq & Her & _).
    rewrite Hrt, Hrq, Her, dd_get_touch. auto. }
  assert (Hin : e ∈ (fst <$> response_times (snd (get_endpoint_stats e pm)))).
  { destruct (get_endpoint_stats_state e pm) as (_ & -> & _).
    rewrite dd_touch_keys. destruct (bool_decide _) eqn:Hd.
    - now apply bool_decide_eq_true_1 in Hd.
    - rewrite elem_of_app, list_elem_of_singleton. now right. }
  revert Hpm' Hin. unfold get_endpoint_stats. cbv zeta.
  rewrite Htimes, Hreq, Herr.
  destruct (drop (List.length records - max_history0) records) as [|first rest] eqn:Hd.
  - intros Hpm' Hin. eexists _, _. split; [reflexivity|]. split; [exact Hle|].
    cbn [snd] in Hpm', Hin. split; [|split; [exact Hpm' | exact Hin]].
    apply (f_equal List.length) in Hd. rewrite length_drop in Hd. cbn in Hd.
    replace (Nat.min (List.length records) max_history0) with 0 by lia.
    cbn. auto.
  - apply (f_equal List.length) in Hd as Hlen. rewrite length_drop in Hlen.
    cbn [List.length] in Hlen.
    unfold true_div.
    destruct (Nat.eqb_spec (List.length records) 0) as [H0|Hpos]; [lia|].
    intros Hpm' Hin. eexists _, _. split; [reflexivity|]. split; [exact Hle|].
    cbn [snd] in Hpm', Hin. split; [|split; [exact Hpm' | exact Hin]].
    destruct (Nat.eqb_spec (Nat.min (List.length records) max_history0) 0)
      as [Hz|_]; [lia|].
    cbn [request_count error_count recent_requests].
    split; [reflexivity|]. split; [reflexivity|]. f_equal.
    rewrite <- Hd. unfold slice_from. cbv zeta. rewrite length_drop.
    destruct (Z.ltb_spec (-10) 0) as [_|?]; [|lia].
    rewrite drop_drop. f_equal. lia.
Qed.

Lemma monitor_run_totals (max_history0 : nat) (calls : list monitor_call) :
  let pm := monitor_run calls (new_PerformanceMonitor max_history0) in
  list_sum (map snd (request_counts pm)) = List.length (recorded calls)
  /\ list_sum (map snd (error_counts pm))
     = List.length (List.filter is_error (recorded calls))
  /\ NoDup (fst <$> response_times pm)
  /\ forall e, e ∈ (fst <$> response_times pm) <-> e ∈ named_endpoints calls.
Proof.
  cbv zeta. induction calls as [|c calls IH] using rev_ind.
  - cbn. split; [reflexivity|]. split; [reflexivity|]. split; [constructor|].
    intros e. reflexivity.
  - rewrite monitor_run_snoc. destruct IH as (Hreq & Herr & Hnodup & Hkeys).
    set (pm := monitor_run calls (new_PerformanceMonitor max_history0)) in *.
    unfold recorded, named_endpoints in *. rewrite !omap_snoc.
    fold (recorded calls) in *. fold (named_endpoints calls) in *.
    assert (Hgrow : forall k,
              NoDup (if bool_decide (k ∈ (fst <$> response_times pm))
                     then fst <$> response_times pm
                     else (fst <$> response_times pm) ++ [k])
              /\ forall e,
                   e ∈ (if bool_decide (k ∈ (fst <$> response_times pm))
                        then fst <$> response_times pm
                        else (fst <$> response_times pm) ++ [k])
                   <-> e ∈ named_endpoints calls ++ [k]).
    { intros k. destruct (bool_decide _) eqn:Hd.
      - apply bool_decide_eq_true_1 in Hd. split; [exact Hnodup|].
        intros e. rewrite elem_of_app, list_elem_of_singleton, <- Hkeys.
        split; [now left | intros [H| ->]; assumption].
      - apply bool_decide_eq_false_1 in Hd. split.
        + apply NoDup_app. split; [exact Hnodup|]. split.
          * intros x Hx Hx'. apply list_elem_of_singleton in Hx' as ->. now apply Hd.
          * apply NoDup_singleton.
        + intros e. rewrite !elem_of_app, Hkeys. reflexivity. }
    destruct c as [now endpoint rt sc|endpoint|]; cbn [monitor_step].
    + unfold record_request. cbv zeta.
      cbn [request_counts error_counts response_times].
      rewrite dd_set_keys. split; [|split; [|apply Hgrow]].
      * pose proof (list_sum_dd_set endpoint
                      (dd_get 0 endpoint (request_counts pm) + 1)
                      (request_counts pm)).
        rewrite length_app. cbn [List.length]. lia.
      * rewrite List.filter_app, length_app. cbn [List.filter].
        change (is_error {| request_timestamp := now; response_time := rt;
                            status_code := sc |}) with (400 <=? sc)%Z.
        destruct (400 <=? sc)%Z; cbn [List.length]; [|lia].
        pose proof (list_sum_dd_set endpoint
                      (dd_get 0 endpoint (error_counts pm) + 1)
                      (error_counts pm)).
        lia.
    + destruct (get_endpoint_stats_state endpoint pm)
        as (_ & Hrt & _ & _ & Hrq & Her).
      rewrite Hrt, Hrq, Her, dd_touch_keys, !app_nil_r.
      split; [exact Hreq|]. split; [exact Herr|]. apply Hgrow.
    + rewrite !app_nil_r. auto.
Qed.

(** [get_overall_stats] returns after any run of calls. Its totals are the
    numbers of all requests and of all failed requests ever recorded, the
    second never above the first. The endpoints it counts as monitored are
    those a call has named, each once: an endpoint that was only asked about
    with [get_endpoint_stats] counts like one that served requests. *)
Theorem get_overall_stats_returns (max_history0 : nat) (calls : list monitor_call) :
  exists stats endpoints,
    get_overall_stats (monitor_run calls (new_PerformanceMonitor max_history0))
    = Returns stats
    /\ total_requests stats = List.length (recorded calls)
    /\ total_errors stats = List.length (List.filter is_error (recorded calls))
    /\ total_errors stats <= total_requests stats
    /\ endpoints_monitored stats = List.length endpoints
    /\ NoDup endpoints
    /\ forall e, e ∈ endpoints <-> e ∈ named_endpoints calls.
Proof.
  destruct (monitor_run_totals max_history0 calls) as (Hreq & Herr & Hnodup & Hkeys).
  cbv zeta in Hreq, Herr, Hnodup, Hkeys.
  set (pm := monitor_run calls (new_PerformanceMonitor max_history0)) in *.
  assert (Hle : List.length (List.filter is_error (recorded calls))
                <= List.length (recorded calls)) by apply filter_length_le.
  unfold get_overall_stats. cbv zeta. rewrite Hreq, Herr. unfold true_div.
  destruct (Nat.ltb_spec 0 (List.length (recorded calls))) as [Hpos|Hzero].
  - destruct (Nat.eqb_spec (List.length (recorded calls)) 0) as [?|_]; [lia|].
    eexists _, (fst <$> response_times pm). split; [reflexivity|].
    cbn [total_requests total_errors endpoints_monitored].
    rewrite length_fmap. auto 10.
  - eexists _, (fst <$> response_times pm). split; [reflexivity|].
    cbn [total_requests total_errors endpoints_monitored].
    rewrite length_fmap. auto 10.
Qed.

(** ** The error handlers and [monitor_performance] *)

(** The call [log_error_safely(e, name, context=c)] the handlers make gives
    [context] two values, one by position and one by keyword: it raises
    [TypeError] before anything is logged, whatever the exception and the
    two strings, so the handler ends with that [TypeError] and its
    [HTTPException] is never raised. The calls with two positional arguments
    and no keyword (those of the health and monitoring routes) do bind, and
    so does a call that names its context by keyword only. *)
Theorem error_handler_raises_TypeError (A : Type) (name c detail : string) :
  log_error_safely [ExceptionObject; Str name] [("context", Str c)]
  = Err (TypeError "got multiple values for argument")
  /\ @error_handler A name c detail
     = Err (TypeError "got multiple values for argument")
  /\ @error_handler A name c detail <> Err (HTTPException 500 detail)
  /\ log_error_safely [ExceptionObject; Str name] [] = Ok tt
  /\ log_error_safely [ExceptionObject] [("context", Str c)] = Ok tt.
Proof.
  split; [reflexivity|]. split; [reflexivity|]. split; [discriminate|].
  split; reflexivity.
Qed.

Lemma monitor_performance_counts {S A} (endpoint_name : option string)
    (func_name : string) (func : S -> result A * S) (now : string) (rt : float)
    (s : S) (pm : PerformanceMonitor) (e : string) :
  let out := monitor_performance endpoint_name func_name func now rt (s, pm) in
  let endpoint := endpoint_of endpoint_name func_name in
  let status := match fst (func s) with Ok _ => 200%Z | Err x => status_of x end in
  fst out = fst (func s)
  /\ fst (snd out) = snd (func s)
  /\ dd_get 0 e (request_counts (snd (snd out)))
     = dd_get 0 e (request_counts pm)
       + (if String.eqb endpoint e then 1 else 0)
  /\ dd_get 0 e (error_counts (snd (snd out)))
     = dd_get 0 e (error_counts pm)
       + (if String.eqb endpoint e && (400 <=? status)%Z then 1 else 0).
Proof.
  cbv zeta. unfold monitor_performance. destruct (func s) as [r s'].
  cbn [fst snd]. split; [reflexivity|]. split; [reflexivity|].
  set (endpoint := endpoint_of endpoint_name func_name).
  unfold record_request. cbv zeta. cbn [request_counts error_counts].
  rewrite dd_get_set. split.
  - destruct (String.eqb endpoint e) eqn:He; [|lia].
    apply String.eqb_eq in He as ->. reflexivity.
  - destruct (400 <=? _)%Z; [|rewrite andb_false_r; lia].
    rewrite dd_get_set, andb_true_r.
    destruct (String.eqb endpoint e) eqn:He; [|lia].
    apply String.eqb_eq in He as ->. reflexivity.
Qed.

(** [submit_comment] under its monitor. What the body returns is the
    route's answer. Whenever the body raises, and so whenever the store
    refuses the write, what leaves the route is the [TypeError] of its
    handler, never an [HTTPException]: the answer "Error processing
    comment" is not given. The caches and the table are left as the body
    left them. Either way the monitor counts one more request for
    [submit_comment], and one more error exactly when the body raised (the
    [TypeError] carries no status, so 500 is recorded); the counts of the
    other endpoints stay. *)
Theorem submit_comment_endpoint_outcome
    (now st T recorded_at : string) (response_time : float)
    (m : OptimizedAIModels) (db : Database) (pm : PerformanceMonitor) :
  let body := submit_comment now st T (m, db) in
  let out := submit_comment_endpoint now st T recorded_at response_time
               ((m, db), pm) in
  fst out = match fst body with
            | Returns r => Ok r
            | Raises => Err (TypeError "got multiple values for argument")
            end
  /\ fst (snd out) = snd body
  /\ (accepting db = false ->
      fst out = Err (TypeError "got multiple values for argument"))
  /\ (forall status detail, fst out <> Err (HTTPException status detail))
  /\ forall e,
       dd_get 0 e (request_counts (snd (snd out)))
       = dd_get 0 e (request_counts pm)
         + (if String.eqb "submit_comment" e then 1 else 0)
       /\ dd_get 0 e (error_counts (snd (snd out)))
          = dd_get 0 e (error_counts pm)
            + (if String.eqb "submit_comment" e
                  && match fst body with Returns _ => false | Raises => true end
               then 1 else 0).
Proof.
  cbv zeta. unfold submit_comment_endpoint.
  set (func := fun s : OptimizedAIModels * Database =>
                 match submit_comment now st T s with
                 | (Returns r, s') => (Ok r, s')
                 | (Raises, s') =>
                     (error_handler "submit_comment" "comment_processing"
                        "Error processing comment", s')
                 end).
  assert (Hfunc : fst (func (m, db))
                  = match fst (submit_comment now st T (m, db)) with
                    | Returns r => Ok r
                    | Raises => Err (TypeError "got multiple values for argument")
                    end
                  /\ snd (func (m, db)) = snd (submit_comment now st T (m, db))).
  { unfold func. destruct (submit_comment now st T (m, db)) as [[r|] s'];
      split; reflexivity. }
  destruct Hfunc as [Hfunc Hstate].
  destruct (monitor_performance_counts (Some "submit_comment") "submit_comment"
              func recorded_at response_time (m, db) pm EmptyString)
    as (Hout & Hst & _).
  rewrite Hout, Hst, Hfunc, Hstate.
  split; [reflexivity|]. split; [reflexivity|]. split; [|split].
  - intros Hacc.
    destruct (submit_comment_eq now st T m db) as (data & m' & _ & Hsubmit).
    rewrite Hsubmit, Hacc. reflexivity.
  - intros status detail.
    destruct (fst (submit_comment now st T (m, db))); discriminate.
  - intros e.
    destruct (monitor_performance_counts (Some "submit_comment") "submit_comment"
                func recorded_at response_time (m, db) pm e)
      as (_ & _ & Hreq & Herr).
    cbv zeta in Hreq, Herr. rewrite Hreq, Herr, Hfunc. split; [reflexivity|].
    destruct (fst (submit_comment now st T (m, db))); cbn [status_of];
      [now rewrite !andb_false_r | reflexivity].
Qed.

(** ** The sentiment cache under several threads *)

(** A thread that runs alone, from the lookup to the end, does what
    [get_sentiment_cached] does: the same result, or the same exception, and
    the same caches and counters afterwards. *)
Theorem single_thread_is_get_sentiment_cached (text : string) (m : OptimizedAIModels) :
  run_threads [0; 0; 0] ([AtLookup text], m)
  = ([Finished (fst (get_sentiment_cached text m))],
     snd (get_sentiment_cached text m)).
Proof.
  unfold run_threads. cbn [fold_left schedule_step lookup list_lookup thread_step].
  destruct (dict_get (hash text) (sentiment_cache m)) as [r|] eqn:Hk.
  - rewrite (get_sentiment_cached_hit _ _ _ Hk). reflexivity.
  - rewrite (get_sentiment_cached_miss _ _ Hk). cbn.
    unfold call_sentiment_analyzer.
    destruct (sentiment_analyzer (sentiment_calls m) text); reflexivity.
Qed.

Lemma thread_step_invariant (t : thread) (m : OptimizedAIModels) :
  dict_wf (sentiment_cache m) ->
  dict_len (sentiment_cache m) <= 1000 ->
  dict_wf (sentiment_cache (snd (thread_step t m)))
  /\ dict_len (sentiment_cache (snd (thread_step t m))) <= 1000
  /\ summary_cache (snd (thread_step t m)) = summary_cache m
  /\ sentiment_calls (snd (thread_step t m))
     + (if may_call (fst (thread_step t m)) then 1 else 0)
     <= sentiment_calls m + (if may_call t then 1 else 0)
  /\ sentiment_calls m <= sentiment_calls (snd (thread_step t m)).
Proof.
  intros Hwf Hlen. destruct t as [text|text|text r|o]; cbn [thread_step].
  - destruct (dict_get _ _); cbn; repeat split; auto; lia.
  - unfold call_sentiment_analyzer.
    destruct (sentiment_analyzer _ _); cbn; repeat split; auto; lia.
  - cbn [fst snd set_sentiment_cache sentiment_cache summary_cache
          sentiment_calls may_call].
    split; [now apply cache_store_wf|]. split; [now apply cache_store_bound|].
    split; [reflexivity|]. lia.
  - cbn. repeat split; auto; lia.
Qed.

Lemma pending_insert (threads : list thread) (i : nat) (t t' : thread) :
  threads !! i = Some t ->
  List.length (List.filter may_call (<[i := t']> threads))
  + (if may_call t then 1 else 0)
  = List.length (List.filter may_call threads) + (if may_call t' then 1 else 0).
Proof.
  revert i. induction threads as [|x threads IH]; intros i Hi; [discriminate|].
  destruct i as [|i]; cbn in Hi |- *.
  - injection Hi as ->. destruct (may_call t), (may_call t'); cbn; lia.
  - specialize (IH i Hi). destruct (may_call x); cbn; [f_equal|]; exact IH.
Qed.

(** Whatever the threads and however they are scheduled, the cache never
    grows beyond 1000 entries and its keys stay distinct; the summary cache
    is not touched; and each thread invokes the analyzer at most once, so
    the invocations a schedule adds are at most the threads that had not yet
    got past the call. *)
Theorem sentiment_cache_bounded_under_any_schedule
    (schedule : list nat) (threads : list thread) (m : OptimizedAIModels) :
  dict_wf (sentiment_cache m) ->
  dict_len (sentiment_cache m) <= 1000 ->
  let '(threads', m') := run_threads schedule (threads, m) in
  dict_wf (sentiment_cache m')
  /\ dict_len (sentiment_cache m') <= 1000
  /\ summary_cache m' = summary_cache m
  /\ List.length threads' = List.length threads
  /\ sentiment_calls m <= sentiment_calls m'
  /\ sentiment_calls m' + List.length (List.filter may_call threads')
     <= sentiment_calls m + List.length (List.filter may_call threads).
Proof.
  revert threads m. unfold run_threads.
  induction schedule as [|i schedule IH]; intros threads m Hwf Hlen.
  - cbn. repeat split; auto.
  - cbn [fold_left]. unfold schedule_step at 2.
    destruct (threads !! i) as [t|] eqn:Hi; [|now apply IH].
    destruct (thread_step_invariant t m Hwf Hlen)
      as (Hwf1 & Hlen1 & Hsum1 & Hcalls1 & Hmono1).
    pose proof (pending_insert threads i t (fst (thread_step t m)) Hi) as Hpend.
    destruct (thread_step t m) as [t' m1]. cbn [fst snd] in *.
    specialize (IH (<[i := t']> threads) m1 Hwf1 Hlen1).
    destruct (fold_left schedule_step schedule (<[i := t']> threads, m1))
      as [threads' m'].
    destruct IH as (Hwf' & Hlen' & Hsum' & Hn' & Hmono' & Hcalls').
    rewrite length_insert in Hn'.
    repeat split; auto; try congruence; lia.
Qed.

(** Two threads that look the same text up before either has stored it both
    miss, both invoke the analyzer, and both store: the analyzer is invoked
    twice for one text, each caller gets the answer of its own invocation,
    and the cache keeps the answer stored last. *)
Theorem concurrent_misses_invoke_twice
    (text : string) (m : OptimizedAIModels) (r1 r2 : sentiment_result) :
  dict_get (hash text) (sentiment_cache m) = None ->
  dict_len (sentiment_cache m) <= 1000 ->
  sentiment_analyzer (sentiment_calls m) text = Returns r1 ->
  sentiment_analyzer (S (sentiment_calls m)) text = Returns r2 ->
  exists m',
    run_threads [0; 1; 0; 1; 0; 1] ([AtLookup text; AtLookup text], m)
    = ([Finished (Returns r1); Finished (Returns r2)], m')
    /\ sentiment_calls m' = sentiment_calls m + 2
    /\ dict_get (hash text) (sentiment_cache m') = Some r2
    /\ get_sentiment_cached text m' = (Returns r2, m').
Proof.
  intros Hmiss Hlen Hr1 Hr2. unfold run_threads. cbn [fold_left].
  cbn [schedule_step lookup list_lookup thread_step insert list_insert].
  rewrite Hmiss.
  cbn [schedule_step lookup list_lookup thread_step insert list_insert].
  rewrite Hmiss.
  cbn [schedule_step lookup list_lookup thread_step insert list_insert].
  unfold call_sentiment_analyzer at 1. rewrite Hr1.
  cbn [schedule_step lookup list_lookup thread_step insert list_insert].
  unfold call_sentiment_analyzer at 1. cbn [sentiment_calls]. rewrite Hr2.
  cbn [schedule_step lookup list_lookup thread_step insert list_insert].
  eexists. split; [reflexivity|].
  cbn [set_sentiment_cache sentiment_cache sentiment_calls summary_cache
       summary_calls].
  split; [lia|].
  pose proof (dict_get_cache_store (hash text) r1 (sentiment_cache m) Hmiss) as H1.
  pose proof (cache_store_bound (hash text) r1 (sentiment_cache m) Hlen) as Hb.
  set (c1 := cache_store (hash text) r1 (sentiment_cache m)) in *.
  assert (Hc2 : cache_store (hash text) r2 c1 = dict_set (hash text) r2 c1).
  { rewrite cache_store_eq.
    assert (Hsame : dict_len (dict_set (hash text) r2 c1) = dict_len c1).
    { unfold dict_len. rewrite <- !(length_fmap fst).
      fold (dict_keys (dict_set (hash text) r2 c1)). rewrite dict_keys_set.
      rewrite bool_decide_eq_true_2; [reflexivity|].
      destruct (decide (hash text ∈ dict_keys c1)) as [Hin|Hnin]; [exact Hin|].
      apply dict_get_None in Hnin. congruence. }
    rewrite Hsame.
    destruct (Nat.ltb_spec 1000 (dict_len c1)); [lia | reflexivity]. }
  assert (Hget : dict_get (hash text) (cache_store (hash text) r2 c1) = Some r2)
    by (rewrite Hc2; apply dict_get_set_eq).
  split; [exact Hget|].
  apply get_sentiment_cached_hit. exact Hget.
Qed.

(** ** The words of the word cloud *)

Lemma append_cons (c : ascii) (a b : string) :
  String c a +:+ b = String c (a +:+ b).
Proof. reflexivity. Qed.

Lemma append_assoc (a b c : string) : (a +:+ b) +:+ c = a +:+ (b +:+ c).
Proof.
  induction a as [|x a IH]; [reflexivity|]. now rewrite !append_cons, IH.
Qed.

Lemma append_empty_r (a : string) : a +:+ EmptyString = a.
Proof. induction a as [|x a IH]; [reflexivity|]. now rewrite append_cons, IH. Qed.

Lemma no_space_append (a b : string) :
  no_space (a +:+ b) = no_space a && no_space b.
Proof.
  induction a as [|x a IH]; [reflexivity|].
  rewrite append_cons. cbn [no_space]. rewrite IH. apply andb_assoc.
Qed.

Lemma lower_append (a b : string) :
  Py.lower (a +:+ b) = Py.lower a +:+ Py.lower b.
Proof.
  induction a as [|x a IH]; [reflexivity|].
  rewrite append_cons. cbn [Py.lower]. now rewrite append_cons, IH.
Qed.

(** Reading on after a space: the word read so far, if any, is complete. *)
Lemma split_go_space (word s t : string) :
  Py.split_go word (s +:+ String " " t)
  = Py.split_go word s ++ Py.split_go EmptyString t.
Proof.
  revert word. induction s as [|c s IH]; intros word.
  - change (EmptyString +:+ String " " t) with (String " " t).
    cbn. destruct (Py.is_empty word); reflexivity.
  - rewrite append_cons. cbn [Py.split_go]. destruct (Py.isspace c).
    + destruct (Py.is_empty word); cbn [app]; now rewrite IH.
    + apply IH.
Qed.

Lemma split_go_word (word w : string) :
  no_space w = true ->
  Py.split_go word w =
    if Py.is_empty (word +:+ w) then [] else [word +:+ w].
Proof.
  revert word. induction w as [|c w IH]; intros word Hw.
  - cbn [Py.split_go]. rewrite append_empty_r. reflexivity.
  - cbn [no_space] in Hw. apply andb_true_iff in Hw as [Hc Hw].
    apply negb_true_iff in Hc. cbn [Py.split_go]. rewrite Hc, (IH _ Hw).
    rewrite append_assoc. reflexivity.
Qed.

Lemma split_go_words (word s : string) :
  no_space word = true -> Forall is_word (Py.split_go word s).
Proof.
  revert word. induction s as [|c s IH]; intros word Hword; cbn [Py.split_go].
  - destruct word; cbn; constructor; [split; [discriminate | exact Hword] | constructor].
  - destruct (Py.isspace c) eqn:Hc.
    + destruct word as [|x word]; cbn [Py.is_empty]; [now apply IH|].
      constructor; [split; [discriminate | exact Hword] | now apply IH].
    + apply IH. rewrite no_space_append, Hword. cbn [no_space andb].
      now rewrite Hc.
Qed.

Lemma split_go_lowered (word s : string) :
  Py.lower word = word ->
  Forall (fun w => Py.lower w = w) (Py.split_go word (Py.lower s)).
Proof.
  revert word. induction s as [|c s IH]; intros word Hword;
    cbn [Py.lower Py.split_go].
  - destruct (Py.is_empty word); repeat constructor. exact Hword.
  - destruct (Py.isspace (Py.lower_char c)).
    + destruct (Py.is_empty word); [now apply IH|].
      constructor; [exact Hword | now apply IH].
    + apply IH. rewrite lower_append, Hword. cbn [Py.lower].
      now rewrite lower_char_idempotent.
Qed.

Lemma split_join_words (ws : list string) :
  Forall is_word ws -> Py.split (join " " ws) = ws.
Proof.
  unfold Py.split, join. induction 1 as [|w ws [Hne Hw] Hall IH]; [reflexivity|].
  destruct ws as [|w2 ws].
  - cbn [String.concat]. rewrite (split_go_word _ _ Hw).
    change (EmptyString +:+ w) with w. destruct w; [contradiction | reflexivity].
  - change (String.concat " " (w :: w2 :: ws))
      with (w +:+ String " " (String.concat " " (w2 :: ws))).
    rewrite split_go_space, IH, (split_go_word _ _ Hw).
    change (EmptyString +:+ w) with w. destruct w; [contradiction | reflexivity].
Qed.

Lemma lower_join_lowered (ws : list string) :
  Forall (fun w => Py.lower w = w) ws -> Py.lower (join " " ws) = join " " ws.
Proof.
  unfold join. induction 1 as [|w ws Hw Hall IH]; [reflexivity|].
  destruct ws as [|w2 ws]; [exact Hw|].
  change (String.concat " " (w :: w2 :: ws))
    with (w +:+ String " " (String.concat " " (w2 :: ws))).
  rewrite lower_append, Hw. cbn [Py.lower]. rewrite IH. reflexivity.
Qed.

Lemma Forall_filter {A} (P : A -> Prop) (f : A -> bool) (l : list A) :
  Forall P l -> Forall P (List.filter f l).
Proof.
  induction 1 as [|x l Hx Hall IH]; cbn; [constructor|].
  destruct (f x); [constructor|]; assumption.
Qed.

Lemma Forall_filter_true {A} (f : A -> bool) (l : list A) :
  Forall (fun x => f x = true) (List.filter f l).
Proof.
  induction l as [|x l IH]; cbn; [constructor|].
  destruct (f x) eqn:Hx; [constructor|]; assumption.
Qed.

Lemma filter_filter_same {A} (f : A -> bool) (l : list A) :
  List.filter f (List.filter f l) = List.filter f l.
Proof.
  induction l as [|x l IH]; cbn; [reflexivity|].
  destruct (f x) eqn:Hx; cbn; [rewrite Hx, IH|]; auto.
Qed.

Lemma split_clean_text (text : string) :
  Py.split (clean_text text) = List.filter kept_word (Py.split (Py.lower text)).
Proof.
  unfold clean_text. cbv zeta. fold kept_word.
  apply split_join_words, Forall_filter, split_go_words. reflexivity.
Qed.

(** The cleaned text read back word by word is the kept words of the
    lowercased text, in order: each has more than 3 characters, is no stop
    word and is in lower case. Cleaning a cleaned text changes nothing. *)
Theorem clean_text_idempotent (text : string) :
  Py.split (clean_text text) = List.filter kept_word (Py.split (Py.lower text))
  /\ Forall (fun word => 3 < Py.len word /\ (word ∉ stop_words)
                         /\ Py.lower word = word)
            (Py.split (clean_text text))
  /\ clean_text (clean_text text) = clean_text text.
Proof.
  pose proof (split_clean_text text) as Hsplit.
  assert (Hlow : Forall (fun w => Py.lower w = w)
                   (List.filter kept_word (Py.split (Py.lower text))))
    by (apply Forall_filter, split_go_lowered; reflexivity).
  split; [exact Hsplit|]. split.
  - rewrite Hsplit.
    pose proof (Forall_filter_true kept_word (Py.split (Py.lower text))) as Hkept.
    rewrite Forall_forall in Hkept, Hlow. apply Forall_forall. intros w Hin.
    specialize (Hkept w Hin). specialize (Hlow w Hin).
    unfold kept_word in Hkept. apply andb_true_iff in Hkept as [Hstop Hlen].
    apply negb_true_iff, bool_decide_eq_false_1 in Hstop.
    apply Nat.ltb_lt in Hlen. auto.
  - unfold clean_text at 1. cbv zeta. fold kept_word.
    assert (Hl : Py.lower (clean_text text) = clean_text text).
    { unfold clean_text. cbv zeta. fold kept_word. now apply lower_join_lowered. }
    rewrite Hl, Hsplit, filter_filter_same. reflexivity.
Qed.

Lemma split_lower_join (texts : list string) :
  Py.split (Py.lower (join " " texts))
  = flat_map (fun t => Py.split (Py.lower t)) texts.
Proof.
  unfold join. induction texts as [|t texts IH]; [reflexivity|].
  destruct texts as [|t2 texts].
  - cbn [String.concat flat_map]. now rewrite app_nil_r.
  - change (String.concat " " (t :: t2 :: texts))
      with (t +:+ String " " (String.concat " " (t2 :: texts))).
    rewrite lower_append. cbn [Py.lower].
    change (Py.lower_char " ") with " "%char.
    unfold Py.split in *. rewrite split_go_space, IH. reflexivity.
Qed.

Lemma flat_map_nonempty (texts : list string) :
  flat_map (fun t => Py.split (Py.lower t))
    (List.filter (fun row => negb (Py.is_empty row)) texts)
  = flat_map (fun t => Py.split (Py.lower t)) texts.
Proof.
  induction texts as [|t texts IH]; [reflexivity|].
  destruct t as [|c t]; cbn [List.filter Py.is_empty negb flat_map].
  - exact IH.
  - now rewrite IH.
Qed.

Lemma filter_flat_map {A B} (f : B -> bool) (g : A -> list B) (l : list A) :
  List.filter f (flat_map g l) = flat_map (fun x => List.filter f (g x)) l.
Proof.
  induction l as [|x l IH]; [reflexivity|].
  cbn [flat_map]. now rewrite List.filter_app, IH.
Qed.

(** The words of the cloud are the words of the comments, comment by
    comment in the order the rows are fetched: the texts are joined by
    spaces, so no word runs over from one comment into the next, and of each
    text the lowercased words that [clean_text] keeps remain. *)
Theorem wordcloud_words_by_comment (sentiment_filter : option string) (db : Database) :
  Py.split (clean_text (get_comments_text sentiment_filter db))
  = flat_map (fun row => List.filter kept_word (Py.split (Py.lower row)))
      (select_raw_text sentiment_filter db).
Proof.
  rewrite split_clean_text, <- filter_flat_map. f_equal.
  unfold get_comments_text. cbv zeta.
  destruct (select_raw_text sentiment_filter db) as [|row rows] eqn:Hrows;
    [reflexivity|].
  rewrite split_lower_join. apply flat_map_nonempty.
Qed.

(** ** The errors of [generate_wordcloud] *)

Section WordCloudErrors.

Variable render_wordcloud : string -> string -> string -> outcome unit.
Variable path_exists : string -> bool.
Variable new_generator : outcome unit.
Variable readable : bool.

Lemma generate_basic_wordcloud_blank (text filename : string)
    (sentiment : option string) :
  Py.strip text = EmptyString ->
  generate_basic_wordcloud render_wordcloud text filename sentiment = None.
Proof. unfold generate_basic_wordcloud. now intros ->. Qed.

(** What the route answers. When the generator cannot be made (the import
    or the directory fails), the second handler runs, and what leaves the
    route is its [TypeError]: the answer 500 "Error generating word cloud"
    is never given. Otherwise: a filter that is not one of the three labels
    is ignored, the cloud being that of all comments; with no text to draw
    from, or when the comments cannot be read, the answer is 404; with a
    text of whitespace alone it is 500 "Failed to generate word cloud", as
    when the library fails or the file is not there. These [HTTPException]s
    pass the first handler. So the route answers with a file that exists,
    with 404, with 500 "Failed to generate word cloud", or with the
    [TypeError]. *)
Theorem generate_wordcloud_errors (sentiment : option string) (db : Database) :
  let route := generate_wordcloud render_wordcloud path_exists new_generator
                 readable in
  (new_generator = Raises ->
   route sentiment db = Err (TypeError "got multiple values for argument"))
  /\ (forall s, sentiment = Some s ->
       s ∉ ["positive"; "negative"; "neutral"]%string ->
       route sentiment db = route None db)
  /\ (new_generator = Returns tt ->
      readable = false \/ get_comments_text None db = EmptyString ->
      route None db = Err (HTTPException 404 "No comments available for word cloud"))
  /\ (new_generator = Returns tt -> readable = true ->
      get_comments_text None db <> EmptyString ->
      Py.strip (get_comments_text None db) = EmptyString ->
      route None db = Err (HTTPException 500 "Failed to generate word cloud"))
  /\ ((exists path, route sentiment db = Ok path /\ path_exists path = true)
      \/ (exists detail, route sentiment db = Err (HTTPException 404 detail))
      \/ route sentiment db = Err (HTTPException 500 "Failed to generate word cloud")
      \/ (new_generator = Raises
          /\ route sentiment db = Err (TypeError "got multiple values for argument")))
  /\ route sentiment db <> Err (HTTPException 500 "Error generating word cloud").
Proof.
  cbv zeta.
  assert (Hcases :
    (exists path,
       generate_wordcloud render_wordcloud path_exists new_generator readable
         sentiment db = Ok path /\ path_exists path = true)
    \/ (exists detail,
          generate_wordcloud render_wordcloud path_exists new_generator readable
            sentiment db = Err (HTTPException 404 detail))
    \/ generate_wordcloud render_wordcloud path_exists new_generator readable
         sentiment db = Err (HTTPException 500 "Failed to generate word cloud")
    \/ (new_generator = Raises
        /\ generate_wordcloud render_wordcloud path_exists new_generator readable
             sentiment db = Err (TypeError "got multiple values for argument"))).
  { unfold generate_wordcloud, generate_wordcloud_try. cbv zeta.
    destruct new_generator as [[]|]; [|right; right; right; split; reflexivity].
    destruct (match sentiment with
              | Some s => negb (Py.is_empty s) && existsb (String.eqb s) _
              | None => false
              end).
    - destruct (Py.is_empty (if readable then get_comments_text sentiment db
                             else EmptyString));
        [right; left; eauto|].
      destruct (generate_basic_wordcloud _ _ _ _) as [path|];
        [|now right; right; left].
      destruct (path_exists path) eqn:Hp; [left; eauto | now right; right; left].
    - destruct (Py.is_empty (if readable then get_comments_text None db
                             else EmptyString));
        [right; left; eauto|].
      destruct (generate_basic_wordcloud _ _ _ _) as [path|];
        [|now right; right; left].
      destruct (path_exists path) eqn:Hp; [left; eauto | now right; right; left]. }
  split; [|split; [|split; [|split; [|split; [exact Hcases|]]]]].
  - intros Hgen. unfold generate_wordcloud, generate_wordcloud_try.
    rewrite Hgen. reflexivity.
  - intros s -> Hs. unfold generate_wordcloud, generate_wordcloud_try.
    assert (Hno : existsb (String.eqb s) ["positive"; "negative"; "neutral"]%string
                  = false).
    { destruct (existsb _ _) eqn:He; [|reflexivity].
      apply existsb_exists in He as (x & Hx & Heq).
      apply String.eqb_eq in Heq as ->. apply list_elem_of_In in Hx. contradiction. }
    rewrite Hno, andb_false_r. reflexivity.
  - intros Hgen Hempty. unfold generate_wordcloud, generate_wordcloud_try.
    cbv zeta. rewrite Hgen.
    assert ((if readable then get_comments_text None db else EmptyString)
            = EmptyString) as ->
      by (destruct Hempty as [->| ->]; [reflexivity | now destruct readable]).
    reflexivity.
  - intros Hgen Hread Hne Hblank. unfold generate_wordcloud, generate_wordcloud_try.
    cbv zeta. rewrite Hgen, Hread.
    destruct (get_comments_text None db) as [|c text] eqn:Htext; [contradiction|].
    cbn [Py.is_empty]. now rewrite generate_basic_wordcloud_blank.
  - destruct Hcases as [(path & -> & _)|[(detail & ->)|[->|[_ ->]]]]; discriminate.
Qed.

End WordCloudErrors.

(** ** The shares of [get_dashboard_stats] *)

Lemma sentiment_counts_fold (l : string) (rows : list comment_row)
    (counts : defaultdict nat) :
  dd_get 0 l
    (fold_left
       (fun counts r =>
          let l := sentiment_label (row_data r) in
          dd_set l (dd_get 0 l counts + 1) counts)
       rows counts)
  = dd_get 0 l counts
    + List.length
        (List.filter (fun r => String.eqb (sentiment_label (row_data r)) l) rows).
Proof.
  revert counts. induction rows as [|r rows IH]; intros counts; cbn [fold_left].
  - cbn. lia.
  - rewrite IH. cbv zeta. rewrite dd_get_set. cbn [List.filter].
    destruct (String.eqb_spec (sentiment_label (row_data r)) l) as [->|Hne].
    + cbn [List.length]. lia.
    + reflexivity.
Qed.

Lemma three_labels_count (rows : list comment_row) :
  let count l :=
    List.length
      (List.filter (fun r => String.eqb (sentiment_label (row_data r)) l) rows) in
  count "positive"%string + count "negative"%string + count "neutral"%string
  <= List.length rows
  /\ (count "positive"%string + count "negative"%string + count "neutral"%string
      = List.length rows
      <-> Forall (fun r => valid_label (sentiment_label (row_data r))) rows).
Proof.
  cbv zeta. induction rows as [|r rows [IHle IHeq]]; cbn [List.filter List.length].
  - split; [lia|]. split; [constructor | reflexivity].
  - assert (Hcase :
      (valid_label (sentiment_label (row_data r))
       /\ (if String.eqb (sentiment_label (row_data r)) "positive" then 1 else 0)
          + (if String.eqb (sentiment_label (row_data r)) "negative" then 1 else 0)
          + (if String.eqb (sentiment_label (row_data r)) "neutral" then 1 else 0)
          = 1)
      \/ (~ valid_label (sentiment_label (row_data r))
          /\ (if String.eqb (sentiment_label (row_data r)) "positive" then 1 else 0)
             + (if String.eqb (sentiment_label (row_data r)) "negative" then 1 else 0)
             + (if String.eqb (sentiment_label (row_data r)) "neutral" then 1 else 0)
             = 0)).
    { unfold valid_label.
      destruct (String.eqb_spec (sentiment_label (row_data r)) "positive") as [->|H1];
        [left; split; [now left | reflexivity]|].
      destruct (String.eqb_spec (sentiment_label (row_data r)) "negative") as [->|H2];
        [left; split; [now right; right | reflexivity]|].
      destruct (String.eqb_spec (sentiment_label (row_data r)) "neutral") as [->|H3];
        [left; split; [now right; left | reflexivity]|].
      right. split; [|reflexivity]. intros [?|[?|?]]; contradiction. }
    set (p := List.length (List.filter _ rows)) in *.
    set (n := List.length (List.filter
                 (fun r => String.eqb (sentiment_label (row_data r)) "negative") rows)) in *.
    set (u := List.length (List.filter
                 (fun r => String.eqb (sentiment_label (row_data r)) "neutral") rows)) in *.
    assert (Hlen : forall (b : bool) (x : comment_row) (l : list comment_row),
              List.length (if b then x :: l else l)
              = (if b then 1 else 0) + List.length l)
      by (intros [] ? ?; reflexivity).
    rewrite !Hlen. fold p n u.
    destruct Hcase as [[Hv H1]|[Hv H0]].
    + split; [lia|]. split.
      * intros Heq. constructor; [exact Hv|]. apply IHeq. lia.
      * intros Hall. inversion Hall as [|? ? _ Hrest]; subst.
        apply IHeq in Hrest. lia.
    + split; [lia|]. split.
      * intros Heq. lia.
      * intros Hall. inversion Hall as [|? ? Hr _]; subst. contradiction.
Qed.

Lemma recent_comments_loop_readable
    (recent_rows : list (comment_row * option string))
    (recent_comments : list CommentResponse) :
  Forall row_readable recent_rows ->
  recent_comments_loop recent_rows recent_comments
  = Returns (recent_comments ++
             map (fun rc => {| id := row_id (fst rc);
                               response := row_data (fst rc);
                               created_at := default EmptyString (snd rc) |})
                 recent_rows).
Proof.
  intros Hall. revert recent_comments.
  induction Hall as [|[row created] rest (Hraw & Hsum & Hnan & Hc) _ IH];
    intros recent_comments; cbn [recent_comments_loop map].
  - now rewrite app_nil_r.
  - cbn [fst snd] in Hraw, Hsum, Hnan, Hc. unfold read_CommentResponse, stored_score.
    rewrite Hnan. destruct created as [c|]; [|contradiction].
    apply Nat.leb_le in Hraw, Hsum. rewrite Hraw, Hsum. cbn [andb].
    rewrite IH, <- app_assoc. reflexivity.
Qed.

Lemma recent_comments_loop_unreadable
    (recent_rows : list (comment_row * option string))
    (recent_comments : list CommentResponse) :
  Exists (fun rc => ~ row_readable rc) recent_rows ->
  recent_comments_loop recent_rows recent_comments = Raises.
Proof.
  intros Hex. revert recent_comments.
  induction recent_rows as [|[row created] rest IH]; intros recent_comments.
  - inversion Hex.
  - cbn [recent_comments_loop].
    destruct (read_CommentResponse row created) as [c|] eqn:Hread; [|reflexivity].
    apply IH. inversion Hex as [? ? Hbad|? ? Hrest]; subst; [|exact Hrest].
    exfalso. apply Hbad. unfold read_CommentResponse, stored_score in Hread.
    unfold row_readable. cbn [fst snd].
    destruct (PrimFloat.is_nan (sentiment_score (row_data row))); [discriminate|].
    destruct created as [c0|]; [|discriminate].
    destruct (Nat.leb_spec (Py.len (raw_text (row_data row))) 300);
      [|discriminate].
    destruct (Nat.leb_spec (Py.len (summary (row_data row))) 50);
      [|discriminate].
    repeat split; try assumption. discriminate.
Qed.

(** [get_dashboard_stats] divides by the number of comments only when there
    is one. On an empty table it answers zeros and no recent comment. On a
    table with rows, when [CommentResponse] takes each of the recent rows,
    it answers the total, the three shares (the number of rows with that
    label over the number of all rows, times 100) and the recent rows in
    the order of the query. When one of the recent rows has a text of more
    than 300 characters, a summary of more than 50, no score or no
    [created_at], and when the connection or a query fails, what leaves the
    route is the [TypeError] of its handler; the route never raises an
    [HTTPException]. Rows with another label count in the total and in no
    share: the three counts together are at most the total, and they are
    the total exactly when every row has one of the three labels. *)
Theorem get_dashboard_stats_shares (readable : bool)
    (recent_rows : list (comment_row * option string)) (db : Database) :
  let total := List.length (comments db) in
  let share l :=
    (Py.float_of_nat (rows_labelled l db) / Py.float_of_nat total * 100)%float in
  let out := get_dashboard_stats readable recent_rows db in
  (readable = true -> total = 0 ->
   out = Ok {| total_comments := 0; positive_percentage := 0%float;
               neutral_percentage := 0%float; negative_percentage := 0%float;
               recent_comments := [] |})
  /\ (readable = true -> total <> 0 -> Forall row_readable recent_rows ->
      out = Ok {| total_comments := total;
                  positive_percentage := share "positive"%string;
                  neutral_percentage := share "neutral"%string;
                  negative_percentage := share "negative"%string;
                  recent_comments :=
                    map (fun rc => {| id := row_id (fst rc);
                                      response := row_data (fst rc);
                                      created_at := default EmptyString (snd rc) |})
                        recent_rows |})
  /\ (total <> 0 -> Exists (fun rc => ~ row_readable rc) recent_rows ->
      out = Err (TypeError "got multiple values for argument"))
  /\ (readable = false ->
      out = Err (TypeError "got multiple values for argument"))
  /\ (forall status detail, out <> Err (HTTPException status detail))
  /\ rows_labelled "positive" db + rows_labelled "negative" db
     + rows_labelled "neutral" db <= total
  /\ (rows_labelled "positive" db + rows_labelled "negative" db
      + rows_labelled "neutral" db = total
      <-> Forall (fun r => valid_label (sentiment_label (row_data r)))
                 (comments db)).
Proof.
  cbv zeta.
  split; [|split; [|split; [|split; [|split;
    [|exact (three_labels_count (comments db))]]]]].
  - intros -> H0. unfold get_dashboard_stats, get_dashboard_stats_try.
    cbv zeta. cbn [negb]. now rewrite H0.
  - intros -> Hne Hall.
    unfold get_dashboard_stats, get_dashboard_stats_try, percentage, true_div.
    cbv zeta. cbn [negb].
    destruct (Nat.eqb_spec (List.length (comments db)) 0) as [?|_]; [contradiction|].
    rewrite (recent_comments_loop_readable _ _ Hall).
    unfold sentiment_counts_of. rewrite !sentiment_counts_fold. reflexivity.
  - intros Hne Hex.
    unfold get_dashboard_stats, get_dashboard_stats_try, percentage, true_div.
    cbv zeta. destruct readable; cbn [negb]; [|reflexivity].
    destruct (Nat.eqb_spec (List.length (comments db)) 0) as [?|_]; [contradiction|].
    rewrite (recent_comments_loop_unreadable _ _ Hex). reflexivity.
  - intros ->. reflexivity.
  - intros status detail. unfold get_dashboard_stats.
    destruct (get_dashboard_stats_try readable recent_rows db); discriminate.
Qed.

(** ** The table over a run of submissions *)

Lemma analyze_sentiment_fast_ok (text : string) (m m' : OptimizedAIModels)
    (l : string) (sc : float) :
  (forall n t r, sentiment_analyzer n t = Returns r -> result_ok r) ->
  cache_ok (sentiment_cache m) ->
  analyze_sentiment_fast text m = (Returns (l, sc), m') ->
  valid_label l /\ valid_score sc /\ cache_ok (sentiment_cache m').
Proof.
  intros Hanalyzer Hcache. rewrite analyze_sentiment_fast_eq.
  destruct (dict_get (hash text) (sentiment_cache m)) as [r|] eqn:Hget.
  - rewrite (get_sentiment_cached_hit _ _ _ Hget).
    pose proof (read_sentiment_ok r (dict_get_ok _ _ _ Hcache Hget)) as Hok.
    destruct (read_sentiment r) as [l0 sc0]. intros [= <- <- <-].
    split; [apply Hok|]. split; [apply Hok | exact Hcache].
  - rewrite (get_sentiment_cached_miss _ _ Hget).
    destruct (sentiment_analyzer (sentiment_calls m) text) as [r|] eqn:Hret.
    + pose proof (read_sentiment_ok r (Hanalyzer _ _ _ Hret)) as Hok.
      destruct (read_sentiment r) as [l0 sc0]. intros [= <- <- <-].
      cbn [sentiment_cache]. split; [apply Hok|]. split; [apply Hok|].
      apply cache_store_ok; eauto.
    + intros [= <- <- <-]. cbn [sentiment_cache].
      destruct fallback_sentiment_valid. auto.
Qed.

Lemma submit_comment_keeps_store (now st T : string)
    (m : OptimizedAIModels) (db : Database) :
  (forall n t r, sentiment_analyzer n t = Returns r -> result_ok r) ->
  store_ok (m, db) ->
  store_ok (snd (submit_comment now st T (m, db)))
  /\ accepting (snd (snd (submit_comment now st T (m, db)))) = accepting db
  /\ List.length (comments (snd (snd (submit_comment now st T (m, db)))))
     = List.length (comments db) + (if accepting db then 1 else 0).
Proof.
  intros Hanalyzer (Hcache & Hrows & Hdb). cbn [fst snd] in Hcache, Hrows, Hdb.
  destruct (process_comment_async_eq now st T m) as (l & sc & s & m1 & m2 & H).
  cbv zeta in H. destruct H as (Ha & Hs & Hlen & Hp).
  pose proof (len_raw_text_truncated T) as Hraw.
  set (raw := if 300 <? Py.len T then Py.slice_to 300 T else T) in *.
  destruct (analyze_sentiment_fast_ok _ _ _ _ _ Hanalyzer Hcache Ha)
    as (Hl & Hsc & Hcache1).
  destruct (generate_summary_fast_frame _ _ _ _ Hs) as [Hframe _].
  destruct (submit_comment_eq now st T m db) as (data & m' & Hproc & Hsubmit).
  rewrite Hp in Hproc.
  assert (Hdata : data = {| timestamp := now; stakeholder_type := st;
                            raw_text := raw; sentiment_label := l;
                            sentiment_score := sc; summary := s |})
    by congruence.
  assert (Hm' : m' = m2) by congruence.
  subst data m'. rewrite Hsubmit. destruct (accepting db) eqn:Hacc.
  - cbn [fst snd comments accepting]. unfold store_ok. cbn [fst snd comments].
    rewrite Hframe. split; [|split; [reflexivity | rewrite length_app; reflexivity]].
    split; [exact Hcache1|].
    assert (Hlimits : within_limits
                        {| timestamp := now; stakeholder_type := st;
                           raw_text := raw; sentiment_label := l;
                           sentiment_score := sc; summary := s |})
      by (split; assumption).
    split.
    + apply Forall_app. split; [exact Hrows|].
      apply Forall_singleton. split; [exact Hl|]. split; [exact Hsc | exact Hlimits].
    + destruct (save_within_limits _ db Hacc Hlimits Hdb)
        as (db' & Hsave & Hc & Hlast & _ & Hok').
      destruct Hok' as [Hsorted' Hmax']. rewrite Hc in Hsorted', Hmax'.
      rewrite Hlast in Hmax'. split; assumption.
  - cbn [fst snd]. unfold store_ok. cbn [fst snd]. rewrite Hframe.
    split; [auto|]. split; [exact Hacc | lia].
Qed.

(** Served one after the other from a state in which every cached result
    and every row is well-formed, by a sentiment analyzer whose results are
    well-formed, any run of submissions leaves every row with one of the
    three labels, a score in [0, 1], at most 300 characters of text and 50 of
    summary, under strictly increasing ids; the rows are one more for each
    request when the store accepts writes; and the three counts of the
    dashboard account for every row. *)
Theorem submissions_keep_store_valid
    (requests : list (string * string * string))
    (m : OptimizedAIModels) (db : Database) :
  (forall n t r, sentiment_analyzer n t = Returns r -> result_ok r) ->
  store_ok (m, db) ->
  store_ok (submit_each requests (m, db))
  /\ List.length (comments (snd (submit_each requests (m, db))))
     = List.length (comments db)
       + (if accepting db then List.length requests else 0)
  /\ rows_labelled "positive" (snd (submit_each requests (m, db)))
     + rows_labelled "negative" (snd (submit_each requests (m, db)))
     + rows_labelled "neutral" (snd (submit_each requests (m, db)))
     = List.length (comments (snd (submit_each requests (m, db)))).
Proof.
  intros Hanalyzer Hok.
  assert (Hrun : store_ok (submit_each requests (m, db))
                 /\ List.length (comments (snd (submit_each requests (m, db))))
                    = List.length (comments db)
                      + (if accepting db then List.length requests else 0)).
  { revert m db Hok. induction requests as [|[[now st] T] requests IH];
      intros m db Hok; cbn [submit_each].
    - split; [exact Hok|]. cbn [snd List.length]. destruct (accepting db); lia.
    - destruct (submit_comment_keeps_store now st T m db Hanalyzer Hok)
        as (Hok1 & Hacc1 & Hlen1).
      destruct (submit_comment now st T (m, db)) as [o [m1 db1]].
      cbn [snd] in *. destruct (IH m1 db1 Hok1) as [Hok' Hlen'].
      split; [exact Hok'|]. rewrite Hlen', Hacc1, Hlen1. cbn [List.length].
      destruct (accepting db); lia. }
  destruct Hrun as [Hok' Hlen']. split; [exact Hok'|]. split; [exact Hlen'|].
  apply (three_labels_count (comments (snd (submit_each requests (m, db))))).
  destruct Hok' as (_ & Hrows & _). eapply Forall_impl; [exact Hrows|].
  intros r Hr. apply Hr.
Qed.

End Backend.

(** ** The cache key *)

(** C3, as the code has it. The key of both caches is [hash(text)], the
    interpreter's keyed hash. Within one run (one hash secret) it is
    deterministic, and the caches rely on just that: a result that
    [get_sentiment_cached] or [get_summary_cached] returned for a text is
    held under the text's key afterwards, and the same call again is a hit
    that returns the same result and changes nothing. Across runs the key is
    not stable, since it depends on the secret of the run: the text
    [Good idea.] has one key under the secret of [PYTHONHASHSEED=0] and
    another under that of [PYTHONHASHSEED=1]. (The empty text has key 0
    under every secret.) *)
Theorem cache_key_deterministic_within_a_run
    (secret : PyHash.HashSecret)
    (sentiment_analyzer : nat -> string -> outcome sentiment_result)
    (summarizer : nat -> string -> outcome summary_result)
    (text : string) (m m1 : OptimizedAIModels) :
  (forall r,
     get_sentiment_cached (PyHash.hash secret) sentiment_analyzer text m
     = (Returns r, m1) ->
     dict_get (PyHash.hash secret text) (sentiment_cache m1) = Some r
     /\ get_sentiment_cached (PyHash.hash secret) sentiment_analyzer text m1
        = (Returns r, m1))
  /\ (forall r,
        get_summary_cached (PyHash.hash secret) summarizer text m
        = (Returns r, m1) ->
        dict_get (PyHash.hash secret text) (summary_cache m1) = Some r
        /\ get_summary_cached (PyHash.hash secret) summarizer text m1
           = (Returns r, m1))
  /\ PyHash.hash secret "" = 0%Z
  /\ PyHash.hash PyHash.seed0 "Good idea." <> PyHash.hash PyHash.seed1 "Good idea.".
Proof.
  split; [|split; [|split]].
  - intros r Hget.
    pose proof (get_sentiment_cached_stable _ _ _ _ _ _ Hget) as Hagain.
    split; [|exact Hagain].
    destruct (dict_get (PyHash.hash secret text) (sentiment_cache m1)) as [v|] eqn:Hk.
    + rewrite (get_sentiment_cached_hit _ _ _ _ _ Hk) in Hagain. congruence.
    + rewrite (get_sentiment_cached_miss _ _ _ _ Hk) in Hagain.
      destruct (sentiment_analyzer _ _); [|discriminate].
      apply (f_equal snd) in Hagain. cbn [snd] in Hagain.
      apply (f_equal sentiment_calls) in Hagain. cbn [sentiment_calls] in Hagain. lia.
  - intros r Hget.
    pose proof (get_summary_cached_stable _ _ _ _ _ _ Hget) as Hagain.
    split; [|exact Hagain].
    destruct (dict_get (PyHash.hash secret text) (summary_cache m1)) as [v|] eqn:Hk.
    + rewrite (get_summary_cached_hit _ _ _ _ _ Hk) in Hagain. congruence.
    + rewrite (get_summary_cached_miss _ _ _ _ Hk) in Hagain.
      destruct (summarizer _ _); [|discriminate].
      apply (f_equal snd) in Hagain. cbn [snd] in Hagain.
      apply (f_equal summary_calls) in Hagain. cbn [summary_calls] in Hagain. lia.
  - reflexivity.
  - vm_compute. discriminate.
Qed.

(** ** The theorems at concrete inputs *)



Lemma cache_capacity_and_fifo_eviction_witness :
  NoDup (dict_keys sample_puts)
  /\ List.length sample_puts = 1001
  /\ put_all sample_puts [] = drop 100 sample_puts
  /\ dict_len (put_all sample_puts []) = 901
  /\ dict_get 0%Z (put_all sample_puts []) = None
  /\ dict_get 99%Z (put_all sample_puts []) = None
  /\ dict_get 100%Z (put_all sample_puts []) = Some 100
  /\ dict_get 1000%Z (put_all sample_puts []) = Some 1000.
Proof.
  assert (Hnodup : NoDup (dict_keys sample_puts))
    by (apply (bool_decide_unpack _); vm_compute; exact I).
  assert (Hlen : List.length sample_puts = 1001) by (vm_compute; reflexivity).
  destruct (cache_capacity_and_fifo_eviction (PyHash.hash PyHash.seed0)
              create_fast_fallback_sentiment create_fast_fallback_summarizer
              sample_puts Hnodup Hlen)
    as (_ & _ & Hall & Hsize & _ & Hgone & Hkept & _).
  split; [exact Hnodup|]. split; [exact Hlen|]. split; [exact Hall|].
  split; [exact Hsize|].
  split; [apply Hgone, (bool_decide_unpack _); vm_compute; exact I|].
  split; [apply Hgone, (bool_decide_unpack _); vm_compute; exact I|].
  split; apply Hkept, (bool_decide_unpack _); vm_compute; exact I.
Defined.

Lemma second_call_served_from_cache_witness :
  exists d1 m1 d2,
    process_comment_async (PyHash.hash PyHash.seed0)
      create_fast_fallback_sentiment create_fast_fallback_summarizer
      "2025-01-01 10:00:00" "citizen" sample_text fresh_models
    = (Returns d1, m1)
    /\ process_comment_async (PyHash.hash PyHash.seed0)
         create_fast_fallback_sentiment create_fast_fallback_summarizer
         "2025-01-01 10:00:05" "business" sample_text m1
       = (Returns d2, m1)
    /\ sentiment_calls m1 = 1
    /\ summary_calls m1 = 1
    /\ sentiment_label d2 = sentiment_label d1
    /\ sentiment_score d2 = sentiment_score d1
    /\ summary d2 = summary d1.
Proof.
  destruct (second_call_served_from_cache (PyHash.hash PyHash.seed0)
              create_fast_fallback_sentiment create_fast_fallback_summarizer
              "2025-01-01 10:00:00" "2025-01-01 10:00:05" "citizen" "business"
              sample_text fresh_models
              (FastSentimentAnalyzer sample_text)
              (SummaryText (FastSummarizer sample_text)))
    as (d1 & m1 & d2 & H1 & H2 & Hn1 & Hn2 & Heq);
    [reflexivity | reflexivity | intros _; split; reflexivity |].
  exists d1, m1, d2. split; [exact H1|]. split; [exact H2|].
  split; [exact Hn1|]. split; [exact Hn2 | exact Heq].
Defined.

Lemma short_text_skips_summarization_witness :
  List.length (Py.split sample_word) < 3
  /\ 50 < Py.len sample_word
  /\ generate_summary_fast (PyHash.hash PyHash.seed0)
       create_fast_fallback_summarizer sample_word fresh_models
     = (Returns "Antidisestablishmentarianism-and-pneumonoultram..."%string,
        fresh_models)
  /\ Py.len "Antidisestablishmentarianism-and-pneumonoultram..." = 50.
Proof.
  assert (Hwords : List.length (Py.split sample_word) < 3) by (vm_compute; lia).
  assert (Hlong : 50 < Py.len sample_word) by (vm_compute; lia).
  destruct (short_text_skips_summarization (PyHash.hash PyHash.seed0)
              create_fast_fallback_sentiment create_fast_fallback_summarizer
              fresh_models) as (Hgen & _ & _).
  destruct (Hgen sample_word Hwords) as [Heq Hlen].
  split; [exact Hwords|]. split; [exact Hlong|].
  split; [exact Heq | exact (Hlen Hlong)].
Defined.

Lemma sentiment_artifact_valid_witness :
  exists l sc m',
    analyze_sentiment_fast (PyHash.hash PyHash.seed0) steady_sentiment
      sample_text fresh_models
    = (Returns (l, sc), m')
    /\ valid_label l /\ valid_score sc.
Proof.
  destruct (sentiment_artifact_valid (PyHash.hash PyHash.seed0) steady_sentiment
              sample_text fresh_models)
    as (_ & _ & _ & _ & _ & Hvalid & _).
  destruct Hvalid as (l & sc & m' & Ha & Hl & Hs & _).
  - intros n t r [= <-]. cbn [result_ok].
    constructor; [split; [right; right; reflexivity | split; reflexivity]|].
    constructor; [split; [left; reflexivity | split; reflexivity]|].
    constructor.
  - constructor.
  - exists l, sc, m'. auto.
Defined.

Lemma cache_key_deterministic_within_a_run_witness :
  exists r m1,
    get_sentiment_cached (PyHash.hash PyHash.seed1) create_fast_fallback_sentiment
      sample_text fresh_models
    = (Returns r, m1)
    /\ dict_get (PyHash.hash PyHash.seed1 sample_text) (sentiment_cache m1) = Some r
    /\ get_sentiment_cached (PyHash.hash PyHash.seed1) create_fast_fallback_sentiment
         sample_text m1
       = (Returns r, m1).
Proof.
  eexists _, _.
  assert (Hget : get_sentiment_cached (PyHash.hash PyHash.seed1)
                   create_fast_fallback_sentiment sample_text fresh_models
                 = (Returns (FastSentimentAnalyzer sample_text),
                    {| sentiment_cache :=
                         [(PyHash.hash PyHash.seed1 sample_text,
                           FastSentimentAnalyzer sample_text)];
                       summary_cache := [];
                       sentiment_calls := 1;
                       summary_calls := 0 |}))
    by reflexivity.
  split; [exact Hget|].
  exact (proj1 (cache_key_deterministic_within_a_run PyHash.seed1
                  create_fast_fallback_sentiment create_fast_fallback_summarizer
                  sample_text fresh_models _) _ Hget).
Defined.

Lemma FastSummarizer_cases_witness :
  50 < Py.len (Py.strip sample_sentences)
  /\ first_delimiter (Py.strip sample_sentences) = Some ". "%string
  /\ FastSummarizer sample_sentences = "The new transport policy is welcome"%string
  /\ Py.len (FastSummarizer sample_sentences) <= 50.
Proof.
  assert (Hlong : 50 < Py.len (Py.strip sample_sentences)) by (vm_compute; lia).
  assert (Hd : first_delimiter (Py.strip sample_sentences) = Some ". "%string)
    by (vm_compute; reflexivity).
  destruct (FastSummarizer_cases sample_sentences) as (Hlen & _ & _ & Hcase).
  specialize (Hcase Hlong). rewrite Hd in Hcase.
  destruct Hcase as (summary & others & Hs & _ & Heq).
  split; [exact Hlong|]. split; [exact Hd|]. split; [|exact Hlen].
  vm_compute in Hs. injection Hs as <- _. rewrite Heq. reflexivity.
Defined.


Lemma FastSentimentAnalyzer_token_set_witness :
  FastSentimentAnalyzer "Good good GOOD idea" = FastSentimentAnalyzer "idea good".
Proof.
  apply FastSentimentAnalyzer_token_set. intros w.
  change (Py.split (Py.lower "Good good GOOD idea"))
    with ["good"; "good"; "good"; "idea"]%string.
  change (Py.split (Py.lower "idea good")) with ["idea"; "good"]%string.
  rewrite !elem_of_cons, !elem_of_nil. tauto.
Defined.

Lemma unreadable_result_is_cached_witness :
  exists m1,
    analyze_sentiment_fast (PyHash.hash PyHash.seed0) (fun _ _ => Returns (Scores []))
      sample_text fresh_models
    = (Returns ("neutral"%string, 0.5%float), m1)
    /\ sentiment_calls m1 = 1
    /\ analyze_sentiment_fast (PyHash.hash PyHash.seed0)
         (fun _ _ => Returns (Scores [])) sample_text m1
       = (Returns ("neutral"%string, 0.5%float), m1).
Proof.
  exact (proj1 (unreadable_result_is_cached (PyHash.hash PyHash.seed0)
                  (fun _ _ => Returns (Scores [])) sample_text fresh_models
                  eq_refl)
           (Scores []) eq_refl I).
Defined.

Lemma colliding_texts_share_results_witness :
  exists m1,
    get_sentiment_cached (fun _ => 0%Z) create_fast_fallback_sentiment
      "I love it" fresh_models
    = (Returns (FastSentimentAnalyzer "I love it"), m1)
    /\ get_sentiment_cached (fun _ => 0%Z) create_fast_fallback_sentiment
         "I hate it" m1
       = (Returns (FastSentimentAnalyzer "I love it"), m1)
    /\ analyze_sentiment_fast (fun _ => 0%Z) create_fast_fallback_sentiment
         "I hate it" m1
       = (Returns (read_sentiment (FastSentimentAnalyzer "I love it")), m1).
Proof.
  exact (colliding_texts_share_results (fun _ => 0%Z) create_fast_fallback_sentiment
           "I love it" "I hate it" fresh_models
           (FastSentimentAnalyzer "I love it") eq_refl eq_refl eq_refl).
Defined.

Lemma save_batch_appends_in_order_witness :
  exists db',
    save_batch
      [ {| timestamp := "2025-01-01 10:00:00"; stakeholder_type := "citizen";
           raw_text := "Good idea."; sentiment_label := "positive";
           sentiment_score := 0.7999999999999999%float;
           summary := "Good idea." |};
        {| timestamp := "2025-01-01 10:00:00"; stakeholder_type := "ngo";
           raw_text := "Bad idea."; sentiment_label := "negative";
           sentiment_score := 0.7999999999999999%float;
           summary := "Bad idea." |} ]
      [] empty_db
    = (Returns
         [ {| id := 1;
              response :=
                {| timestamp := "2025-01-01 10:00:00"; stakeholder_type := "citizen";
                   raw_text := "Good idea."; sentiment_label := "positive";
                   sentiment_score := 0.7999999999999999%float;
                   summary := "Good idea." |};
              created_at := "2025-01-01 10:00:00" |};
           {| id := 2;
              response :=
                {| timestamp := "2025-01-01 10:00:00"; stakeholder_type := "ngo";
                   raw_text := "Bad idea."; sentiment_label := "negative";
                   sentiment_score := 0.7999999999999999%float;
                   summary := "Bad idea." |};
              created_at := "2025-01-01 10:00:00" |} ],
       db')
    /\ lastrowid db' = 2
    /\ row_id <$> comments db' = [1; 2].
Proof.
  destruct (save_batch_appends_in_order
              [ {| timestamp := "2025-01-01 10:00:00"; stakeholder_type := "citizen";
                   raw_text := "Good idea."; sentiment_label := "positive";
                   sentiment_score := 0.7999999999999999%float;
                   summary := "Good idea." |};
                {| timestamp := "2025-01-01 10:00:00"; stakeholder_type := "ngo";
                   raw_text := "Bad idea."; sentiment_label := "negative";
                   sentiment_score := 0.7999999999999999%float;
                   summary := "Bad idea." |} ]
              [] empty_db)
    as (db' & new & Hrun & Hrows & Hids & _ & Hlast & _).
  - reflexivity.
  - repeat constructor; vm_compute; lia.
  - split; constructor.
  - exists db'. split; [exact Hrun|]. split; [exact Hlast|].
    rewrite Hrows. exact Hids.
Defined.

Lemma get_recent_logs_window_witness :
  List.length
    (logs (get_recent_logs 2 (Readable ["a1 "; "a2 "; "a3 "]%string)
             (Readable ["e1 "; "e2 "]%string))) <= 2
  /\ total_entries (get_recent_logs 2 (Readable ["a1 "; "a2 "; "a3 "]%string)
                      (Readable ["e1 "; "e2 "]%string)) = 4
  /\ logs (get_recent_logs 2 (Readable ["a1 "; "a2 "; "a3 "]%string)
             (Readable ["e1 "; "e2 "]%string))
     = [LogLine "logs/error.log" "e1"; LogLine "logs/error.log" "e2"].
Proof.
  destruct (get_recent_logs_window 2 (Readable ["a1 "; "a2 "; "a3 "]%string)
              (Readable ["e1 "; "e2 "]%string)) as (Hlen & _ & Herr);
    [reflexivity|].
  split; [exact Hlen|]. split; [reflexivity|].
  rewrite (Herr ["e1 "; "e2 "]%string); [reflexivity | reflexivity | cbn; lia].
Defined.

Lemma get_recent_logs_nonpositive_witness :
  logs (get_recent_logs 0 (Readable ["a1 "; "a2 "; "a3 "]%string)
          (Readable ["e1 "; "e2 "]%string))
  = [LogLine "logs/app.log" "a1"; LogLine "logs/app.log" "a2";
     LogLine "logs/app.log" "a3";
     LogLine "logs/error.log" "e1"; LogLine "logs/error.log" "e2"].
Proof.
  destruct (get_recent_logs_nonpositive 0 ["a1 "; "a2 "; "a3 "]%string
              ["e1 "; "e2 "]%string) as [_ Hall]; [lia|].
  rewrite Hall; reflexivity.
Defined.

Lemma sentiment_cache_bounded_under_any_schedule_witness :
  dict_len
    (sentiment_cache
       (snd (run_threads (PyHash.hash PyHash.seed0) create_fast_fallback_sentiment
               [0; 1; 1; 0; 0; 1; 2]
               ([AtLookup "Good idea."; AtLookup "Bad idea."], fresh_models))))
  <= 1000
  /\ sentiment_calls
       (snd (run_threads (PyHash.hash PyHash.seed0) create_fast_fallback_sentiment
               [0; 1; 1; 0; 0; 1; 2]
               ([AtLookup "Good idea."; AtLookup "Bad idea."], fresh_models)))
     <= 2.
Proof.
  pose proof (sentiment_cache_bounded_under_any_schedule
                (PyHash.hash PyHash.seed0) create_fast_fallback_sentiment
                create_fast_fallback_summarizer
                [0; 1; 1; 0; 0; 1; 2]
                [AtLookup "Good idea."; AtLookup "Bad idea."] fresh_models) as H.
  destruct (run_threads _ _ _ _) as [threads' m'].
  destruct H as (_ & Hlen & _ & _ & _ & Hcalls); [constructor | cbn; lia |].
  split; [exact Hlen|]. cbn in Hcalls. cbn [snd]. lia.
Defined.

Lemma concurrent_misses_invoke_twice_witness :
  exists m',
    run_threads (PyHash.hash PyHash.seed0) drifting_sentiment
      [0; 1; 0; 1; 0; 1]
      ([AtLookup sample_text; AtLookup sample_text], fresh_models)
    = ([Finished (Returns (Scores [ {| label := "POSITIVE"; score := 0.9%float |} ]));
        Finished (Returns (Scores [ {| label := "NEGATIVE"; score := 0.9%float |} ]))],
       m')
    /\ sentiment_calls m' = 2
    /\ dict_get (PyHash.hash PyHash.seed0 sample_text) (sentiment_cache m')
       = Some (Scores [ {| label := "NEGATIVE"; score := 0.9%float |} ]).
Proof.
  destruct (concurrent_misses_invoke_twice (PyHash.hash PyHash.seed0)
              drifting_sentiment sample_text fresh_models
              (Scores [ {| label := "POSITIVE"; score := 0.9%float |} ])
              (Scores [ {| label := "NEGATIVE"; score := 0.9%float |} ]))
    as (m' & Hrun & Hcalls & Hget & _);
    [reflexivity | cbn; lia | reflexivity | reflexivity |].
  exists m'. split; [exact Hrun|]. split; [exact Hcalls | exact Hget].
Defined.

Lemma submissions_keep_store_valid_witness :
  store_ok
    (submit_each (PyHash.hash PyHash.seed0)
       create_fast_fallback_sentiment create_fast_fallback_summarizer
       [("2025-01-01 10:00:00", "citizen", sample_text);
        ("2025-01-01 10:00:05", "ngo", "Bad idea.")]%string
       (fresh_models, empty_db))
  /\ List.length
       (comments
          (snd (submit_each (PyHash.hash PyHash.seed0)
                  create_fast_fallback_sentiment create_fast_fallback_summarizer
                  [("2025-01-01 10:00:00", "citizen", sample_text);
                   ("2025-01-01 10:00:05", "ngo", "Bad idea.")]%string
                  (fresh_models, empty_db)))) = 2.
Proof.
  destruct (submissions_keep_store_valid (PyHash.hash PyHash.seed0)
              create_fast_fallback_sentiment create_fast_fallback_summarizer
              [("2025-01-01 10:00:00", "citizen", sample_text);
               ("2025-01-01 10:00:05", "ngo", "Bad idea.")]%string
              fresh_models empty_db) as (Hok & Hlen & _).
  - intros n t r [= <-]. apply (FastSentimentAnalyzer_ok (PyHash.hash PyHash.seed0)).
  - split; [constructor|]. split; [constructor|]. split; constructor.
  - split; [exact Hok | exact Hlen].
Defined.

(** The end-to-end example: the fallback analyzers on a fresh process. *)
Example end_to_end_demo :
  fst (submit_comment (PyHash.hash PyHash.seed0)
         create_fast_fallback_sentiment create_fast_fallback_summarizer
         "2025-01-01 10:00:00" "citizen" sample_text (fresh_models, empty_db))
  = Returns
      {| id := 1;
         response :=
           {| timestamp := "2025-01-01 10:00:00";
              stakeholder_type := "citizen";
              raw_text := sample_text;
              sentiment_label := "positive";
              sentiment_score := 0.8999999999999999%float;
              summary := "I love this policy, it is excellent and will he..." |};
         created_at := "2025-01-01 10:00:00" |}.
Proof. vm_compute. reflexivity. Qed.

(** ** Inputs on which the statements of the spec fail *)

(** C3 as stated: the same text, two runs, two keys. *)
Lemma cache_key_differs_across_runs :
  PyHash.hash PyHash.seed0 sample_text = (-6230843778751811299)%Z
  /\ PyHash.hash PyHash.seed1 sample_text = 8526906156084966351%Z
  /\ PyHash.hash PyHash.seed0 sample_text <> PyHash.hash PyHash.seed1 sample_text.
Proof.
  split; [vm_compute; reflexivity|].
  split; [vm_compute; reflexivity | vm_compute; discriminate].
Qed.


(** C5 as stated: a two-word text processed twice never reaches the
    summarizer, so its invocation count is 0, not 1; and analyzers that raise
    leave nothing in the caches, so the second call invokes them again. *)
Lemma short_text_never_invokes_summarizer :
  (exists d1 m1 d2 m2,
     process_comment_async (PyHash.hash PyHash.seed0)
       create_fast_fallback_sentiment create_fast_fallback_summarizer
       "2025-01-01 10:00:00" "citizen" "Good idea." fresh_models
     = (Returns d1, m1)
     /\ process_comment_async (PyHash.hash PyHash.seed0)
          create_fast_fallback_sentiment create_fast_fallback_summarizer
          "2025-01-01 10:00:05" "citizen" "Good idea." m1
        = (Returns d2, m2)
     /\ sentiment_calls m2 = 1
     /\ summary_calls m2 = 0
     /\ summary_calls m2 <> 1
     /\ summary_cache m2 = [])
  /\ (exists d1 m1 d2 m2,
        process_comment_async (PyHash.hash PyHash.seed0)
          raising_sentiment raising_summarizer
          "2025-01-01 10:00:00" "citizen" sample_text fresh_models
        = (Returns d1, m1)
        /\ process_comment_async (PyHash.hash PyHash.seed0)
             raising_sentiment raising_summarizer
             "2025-01-01 10:00:05" "citizen" sample_text m1
           = (Returns d2, m2)
        /\ sentiment_calls m2 = 2
        /\ summary_calls m2 = 2).
Proof.
  split.
  - eexists _, _, _, _.
    split; [vm_compute; reflexivity|].
    split; [vm_compute; reflexivity|].
    cbn [sentiment_calls summary_calls summary_cache].
    split; [reflexivity|]. split; [reflexivity|].
    split; [discriminate | reflexivity].
  - eexists _, _, _, _.
    split; [vm_compute; reflexivity|].
    split; [vm_compute; reflexivity|].
    cbn [sentiment_calls summary_calls]. split; reflexivity.
Qed.

(** C6 as stated: on the text as given (not lowercased) the spec's
    classifier misses a marker word written in capitals, the code does not. *)
Lemma keyword_classifier_lowercases_first :
  read_sentiment (FastSentimentAnalyzer "GOOD idea")
  = ("positive"%string, 0.7999999999999999%float)
  /\ HeuristicKeywordClassifier (Py.split "GOOD idea")
     = ("neutral"%string, 0.6%float)
  /\ read_sentiment (FastSentimentAnalyzer "GOOD idea")
     <> HeuristicKeywordClassifier (Py.split "GOOD idea").
Proof.
  split; [vm_compute; reflexivity|].
  split; [vm_compute; reflexivity | vm_compute; discriminate].
Qed.

(** C7 as stated: a short input with surrounding whitespace is not returned
    as it is, and neither is the empty input; and a long text is split on
    [". "] alone when it occurs, not on the mark that comes first. *)
Lemma short_input_not_returned_as_is :
  Py.len "  Good idea.  " <= 50
  /\ FastSummarizer "  Good idea.  " = "Good idea."%string
  /\ FastSummarizer "  Good idea.  " <> "  Good idea.  "%string
  /\ Py.len "" <= 50
  /\ FastSummarizer "" = "No content"%string
  /\ FastSummarizer
       "Wow! This is great. It will help every commuter of the region."
     = "Wow! This is great"%string.
Proof.
  split; [vm_compute; lia|].
  split; [vm_compute; reflexivity|].
  split; [vm_compute; discriminate|].
  split; [vm_compute; lia|].
  split; vm_compute; reflexivity.
Qed.

(** C9 as stated: a label outside the three and a score above 1 are passed
    on as the analyzer gave them (the label lowercased). *)
Lemma unchecked_label_and_score_pass_through :
  fst (analyze_sentiment_fast (PyHash.hash PyHash.seed0) unchecked_sentiment
         sample_text fresh_models)
  = Returns ("mixed"%string, 1.5%float)
  /\ ~ valid_label "mixed"
  /\ ~ valid_score 1.5.
Proof.
  split; [vm_compute; reflexivity|]. split.
  - intros [H|[H|H]]; discriminate.
  - intros [_ H]. vm_compute in H. discriminate.
Qed.
